(** * CubitPy: conversion of a cubit session to a 4C input deck

    A shallow embedding of [cubitpy/cubit_to_fourc_input.py] and of
    [formatter] from [cubitpy/cubit_utility.py].

    Python objects that the converter shares and mutates in place (the
    boundary-condition description dictionaries of the node-set registry
    and the [FourCInput] decks) live in an explicit store and are named by
    locations; everything else is a value.  Python exceptions are the
    [Raise] branch of a small error monad. *)

From stdpp Require Import gmap strings list fin_maps sorting pretty.
From Stdlib Require Import ZArith Lia.
From Stdlib.Strings Require Import Ascii Byte.

Set Warnings "-register-all,-clear-no-such-hyp".

Local Open Scope Z_scope.
Local Open Scope nat_scope.

(** ** Exceptions *)

Inductive exn :=
  | ValueError
  | KeyError
  | TypeError
  | IndexError
  | AttributeError
  | UnicodeDecodeError.

Inductive result (A : Type) :=
  | Ok (a : A)
  | Raise (e : exn).
Arguments Ok {A} a.
Arguments Raise {A} e.

#[global] Instance result_ret : MRet result := λ A a, Ok a.
#[global] Instance result_bind : MBind result := λ A B f m,
  match m with
  | Ok a => f a
  | Raise e => Raise e
  end.

Definition succeeds {A} (r : result A) : Prop := ∃ a, r = Ok a.

(** [d[k]] on a dictionary: a missing key raises [KeyError]. *)
Definition getitem `{Countable K} {V} (m : gmap K V) (k : K) : result V :=
  match m !! k with
  | Some v => Ok v
  | None => Raise KeyError
  end.

(** [l[i]] on a sequence: an index out of range raises [IndexError]. *)
Definition index {A} (l : list A) (i : nat) : result A :=
  match l !! i with
  | Some x => Ok x
  | None => Raise IndexError
  end.

(** [for x in l: s = body(s, x)], stopping at the first exception. *)
Fixpoint for_each {S A} (body : S → A → result S) (l : list A) (s : S) : result S :=
  match l with
  | [] => Ok s
  | x :: rest => s' ← body s x; for_each body rest s'
  end.

(** [[f(x) for x in l]], stopping at the first exception. *)
Fixpoint comprehension {A B} (f : A → result B) (l : list A) : result (list B) :=
  match l with
  | [] => Ok []
  | x :: rest => y ← f x; ys ← comprehension f rest; Ok (y :: ys)
  end.

(** ** Values stored in decks and descriptions *)

(** Floating-point coordinates are only moved around by the converter; a
    [VFloat] carries the binary64 bit pattern, [0] being [0.0]. *)
Inductive value :=
  | VNone
  | VBool (b : bool)
  | VInt (n : Z)
  | VFloat (bits : Z)
  | VStr (s : string)
  | VList (vs : list value)
  | VDict (kvs : list (string * value)).

(** A Python [dict] with string keys, in insertion order. *)
Abbreviation pydict := (list (string * value)).

Fixpoint dict_get (k : string) (d : pydict) : option value :=
  match d with
  | [] => None
  | (k', v) :: rest => if decide (k' = k) then Some v else dict_get k rest
  end.

(** [d[k] = v]: an existing key keeps its position, a new one goes last. *)
Fixpoint dict_set (k : string) (v : value) (d : pydict) : pydict :=
  match d with
  | [] => [(k, v)]
  | (k', v') :: rest =>
      if decide (k' = k) then (k', v) :: rest else (k', v') :: dict_set k v rest
  end.

(** [{**a, **b}]-style merge: the entries of [b] written into [a] in order. *)
Definition dict_update (a b : pydict) : pydict :=
  foldl (λ acc kv, dict_set kv.1 kv.2 acc) a b.

(** ** Element connectivity *)

Definition hex27_ordering : list nat :=
  [0; 1; 2; 3; 4; 5; 6; 7; 8; 9; 10; 11; 12; 13; 14; 15; 16; 17; 18; 19;
   21; 25; 24; 26; 23; 22; 20].

(** [get_element_connectivity_list]: [connectivity] is one row of a
    [connect<k>] array; [tolist] only changes the container. *)
Definition get_element_connectivity_list (connectivity : list Z) : result (list Z) :=
  if decide (length connectivity = 27)
  then comprehension (index connectivity) hex27_ordering
  else Ok connectivity.

(** ** Names in the exodus file *)

(** One cell of a row of a fixed-width [S1] character array as netCDF4
    hands it out: a masked cell (fill value), or a [numpy.bytes_] of at
    most one byte ([None] is the empty [b''] a NUL reads as). *)
Inductive name_cell :=
  | masked
  | np_bytes (b : option byte).

(** [char.decode("UTF-8")] on an [S1] cell: one byte decodes on its own
    only when it is ASCII. *)
Definition decode (b : option byte) : result string :=
  match b with
  | None => Ok ""
  | Some x =>
      if decide (Byte.to_N x < 128)%N
      then Ok (String (ascii_of_byte x) "")
      else Raise UnicodeDecodeError
  end.

(** The inner loop [for char in line], with the accumulator [name]. *)
Fixpoint decode_line (line : list name_cell) (name : string) : result string :=
  match line with
  | [] => Ok name
  | masked :: rest => decode_line rest name
  | np_bytes b :: rest => s ← decode b; decode_line rest (name +:+ s)
  end.

(** The body of [for line in exo.variables[..."_names"]]: [None] is
    Python's [None]. *)
Definition decode_name (line : list name_cell) : result (option string) :=
  name ← decode_line line "";
  Ok (if decide (name = "") then None else Some name).

(** ** The exodus file *)

Inductive variable :=
  | IntArray (xs : list Z)
  | IntArray2 (rows : list (list Z))
  | CharArray2 (rows : list (list name_cell))
  | FloatArray (xs : list Z).

Record Exodus := { variables : gmap string variable }.

Definition int_array (exo : Exodus) (name : string) : result (list Z) :=
  v ← getitem (variables exo) name;
  match v with
  | IntArray xs => Ok xs
  | _ => Raise TypeError
  end.

Definition int_array2 (exo : Exodus) (name : string) : result (list (list Z)) :=
  v ← getitem (variables exo) name;
  match v with
  | IntArray2 rows => Ok rows
  | _ => Raise TypeError
  end.

(** The rows of a names variable as the loop over the names iterates
    them.  The loop looks only at the cells that are [numpy.bytes_] and
    passes over every other cell, so the integers of a two-dimensional
    array count like masked cells; the rows of a one-dimensional array are
    scalars, which cannot be iterated. *)
Definition char_array2 (exo : Exodus) (name : string) : result (list (list name_cell)) :=
  v ← getitem (variables exo) name;
  match v with
  | CharArray2 rows => Ok rows
  | IntArray2 rows => Ok ((λ row : list Z, (λ _ : Z, masked) <$> row) <$> rows)
  | IntArray [] | FloatArray [] => Ok []
  | IntArray (_ :: _) | FloatArray (_ :: _) => Raise TypeError
  end.

Definition float_array (exo : Exodus) (name : string) : result (list Z) :=
  v ← getitem (variables exo) name;
  match v with
  | FloatArray xs => Ok xs
  | _ => Raise TypeError
  end.

(** ** Exodus ids and cubit ids *)

Record entry_info := {
  info_cubit_id : Z;
  info_exo_id : nat;
  info_name : option string
}.

Record id_maps := {
  entries_info : list entry_info;
  cubit_id_to_exo_id : gmap Z nat;
  exo_id_to_cubit_id : gmap nat Z
}.

(** The body of [for i, cubit_id in enumerate(...)]. *)
Definition ids_step (names : list (option string)) (acc : id_maps) (ic : nat * Z)
    : result id_maps :=
  let '(i, cubit_id) := ic in
  name ← index names i;
  let info := {| info_cubit_id := cubit_id; info_exo_id := i; info_name := name |} in
  Ok {| entries_info := entries_info acc ++ [info];
        cubit_id_to_exo_id := <[cubit_id := i]> (cubit_id_to_exo_id acc);
        exo_id_to_cubit_id := <[i := cubit_id]> (exo_id_to_cubit_id acc) |}.

(** [enumerate(l, start)] *)
Fixpoint enumerate_from {A} (start : nat) (l : list A) : list (nat * A) :=
  match l with
  | [] => []
  | x :: rest => (start, x) :: enumerate_from (S start) rest
  end.

Definition enumerate {A} (l : list A) : list (nat * A) := enumerate_from 0 l.

Definition _exo_to_cubit_ids (exo : Exodus) (entry_type : string) : result id_maps :=
  exo_identifier ←
    (if decide (entry_type = "block") then Ok "eb"
     else if decide (entry_type = "nodeset") then Ok "ns"
     else Raise ValueError);
  lines ← char_array2 exo (exo_identifier +:+ "_names");
  names ← comprehension decode_name lines;
  prop1 ← int_array exo (exo_identifier +:+ "_prop1");
  for_each (ids_step names) (enumerate prop1)
    {| entries_info := []; cubit_id_to_exo_id := ∅; exo_id_to_cubit_id := ∅ |}.

(** ** The store: descriptions and decks *)

Abbreviation loc := nat.

(** A record of a section is either a reference to a dictionary that
    somebody else holds too ([ERef]) or a literal nobody else holds. *)
Inductive entry :=
  | ERef (l : loc)
  | EVal (v : value).

(** The content of a section: a sequence of records or one record. *)
Inductive section :=
  | SList (es : list entry)
  | SDict (d : pydict).

(** A [FourCInput] of fourcipp, as far as the converter uses it: a
    mapping from section names to contents.  The list of a section
    belongs to its deck; no two decks share one. *)
Abbreviation deck := (gmap string section).

(** The objects the converter shares: the dictionaries node sets hand
    out as boundary-condition descriptions, and the decks. *)
Record store := {
  dicts : gmap loc pydict;
  decks : gmap loc deck
}.

(** A location always names an object in Python; a location without one
    raises [KeyError] here. *)
Definition dict_setitem (l : loc) (k : string) (v : value) (st : store) : result store :=
  d ← getitem (dicts st) l;
  Ok {| dicts := <[l := dict_set k v d]> (dicts st); decks := decks st |}.

(** [name in input_file.sections.keys()]; [input_file.inlined] of fourcipp
    is taken to have the same keys, the names of all sections. *)
Definition deck_contains (input_file : loc) (name : string) (st : store) : result bool :=
  deck ← getitem (decks st) input_file;
  Ok (bool_decide (is_Some (deck !! name))).

(** [input_file[name] = sec] *)
Definition deck_setitem (input_file : loc) (name : string) (sec : section) (st : store)
    : result store :=
  deck ← getitem (decks st) input_file;
  Ok {| dicts := dicts st; decks := <[input_file := <[name := sec]> deck]> (decks st) |}.

(** [input_file[name].append(e)] *)
Definition deck_append (input_file : loc) (name : string) (e : entry) (st : store)
    : result store :=
  deck ← getitem (decks st) input_file;
  sec ← getitem deck name;
  match sec with
  | SList es =>
      Ok {| dicts := dicts st;
            decks := <[input_file := <[name := SList (es ++ [e])]> deck]> (decks st) |}
  | SDict _ => Raise AttributeError
  end.

(** [if name not in input_file...keys(): input_file[name] = []] *)
Definition deck_setdefault_list (input_file : loc) (name : string) (st : store)
    : result store :=
  has ← deck_contains input_file name st;
  if has : bool then Ok st else deck_setitem input_file name (SList []) st.

(** Deep copies: every location [l] a deck refers to is duplicated at
    [base + l], [base] being above every location in use. *)
Definition fresh_loc (st : store) : loc :=
  S (max_list ((map_to_list (dicts st)).*1 ++ (map_to_list (decks st)).*1)).

Definition copy_entry (base : loc) (e : entry) : entry :=
  match e with
  | ERef l => ERef (base + l)
  | EVal v => EVal v
  end.

Definition copy_section (base : loc) (sec : section) : section :=
  match sec with
  | SList es => SList (copy_entry base <$> es)
  | SDict d => SDict d
  end.

Definition entry_ref (e : entry) : option loc :=
  match e with
  | ERef l => Some l
  | EVal _ => None
  end.

Definition section_refs (sec : section) : list loc :=
  match sec with
  | SList es => omap entry_ref es
  | SDict _ => []
  end.

Definition deck_refs (d : deck) : list loc :=
  map_to_list d ≫= λ kv, section_refs kv.2.

Definition clone_dicts (base : loc) (refs : list loc) (h : gmap loc pydict)
    : gmap loc pydict :=
  foldr (λ l acc, match h !! l with
                  | Some d => <[base + l := d]> acc
                  | None => acc
                  end) h refs.

(** The list [input_file[name]] is, for [.append]. *)
Definition deck_list (input_file : loc) (name : string) (st : store)
    : result (list entry) :=
  deck ← getitem (decks st) input_file;
  sec ← getitem deck name;
  match sec with
  | SList es => Ok es
  | SDict _ => Raise AttributeError
  end.

(** ** The cubit session *)

Inductive GeometryType := vertex | curve | surface | volume.

#[global] Instance GeometryType_eq_dec : EqDecision GeometryType.
Proof. solve_decision. Defined.

(** An entry [[bc_section, bc_description, geometry_type]] of
    [cubit.node_sets]; the description is a shared dictionary. *)
Record NodeSet := {
  bc_section : option string;
  bc_description : loc;
  geometry_type : GeometryType
}.

(** The per-geometry lists of node sets, [node_sets] in the source. *)
Abbreviation buckets := (GeometryType → list (list Z)).

Definition bucket_append (b : buckets) (g : GeometryType) (nodes : list Z) : buckets :=
  λ g', if decide (g' = g) then b g' ++ [nodes] else b g'.

Definition name_geometry_tuple : list (GeometryType * string * string) :=
  [ (vertex, "DNODE-NODE TOPOLOGY", "DNODE");
    (curve, "DLINE-NODE TOPOLOGY", "DLINE");
    (surface, "DSURF-NODE TOPOLOGY", "DSURFACE");
    (volume, "DVOL-NODE TOPOLOGY", "DVOL") ].

(** [node_set.sort()] *)
Definition sort (node_set : list Z) : list Z := merge_sort Z.le node_set.

Definition topology_record (i_node : Z) (set_label : string) (i_set : nat) : entry :=
  EVal (VDict [ ("type", VStr "NODE");
                ("node_id", VInt i_node);
                ("d_type", VStr set_label);
                ("d_id", VInt (Z.of_nat (i_set + 1))) ]).

(** The body of [for i_set, node_set in enumerate(node_sets[geo])]. *)
Definition topology_set_step (input_file : loc) (section_name set_label : string)
    (st : store) (iset : nat * list Z) : result store :=
  let '(i_set, node_set) := iset in
  for_each
    (λ st i_node, deck_append input_file section_name
                    (topology_record i_node set_label i_set) st)
    (sort node_set) st.

(** The body of [for geo, section_name, set_label in name_geometry_tuple]. *)
Definition topology_step (input_file : loc) (node_sets : buckets)
    (st : store) (t : GeometryType * string * string) : result store :=
  let '(geo, section_name, set_label) := t in
  if decide (0 < length (node_sets geo)) then
    st ← deck_setitem input_file section_name (SList []) st;
    for_each (topology_set_step input_file section_name set_label)
      (enumerate (node_sets geo)) st
  else Ok st.

Definition node_record (coordinate : Z * Z * Z) (i : nat) : entry :=
  let '(c0, c1, c2) := coordinate in
  EVal (VDict [ ("COORD", VList [VFloat c0; VFloat c1; VFloat c2]);
                ("data", VDict [("type", VStr "NODE")]);
                ("id", VInt (Z.of_nat (i + 1))) ]).

(** [np.array([x, y, z]).transpose()]: the rows of the three columns;
    columns of different lengths do not make an array. *)
Fixpoint transpose (x y z : list Z) : result (list (Z * Z * Z)) :=
  match x, y, z with
  | [], [], [] => Ok []
  | a :: x, b :: y, c :: z => rows ← transpose x y z; Ok ((a, b, c) :: rows)
  | _, _, _ => Raise ValueError
  end.

Section Converter.

(** [ElementType] of [cubitpy_types] and the three of its methods the
    converter calls. *)
Context {ElementType : Type}.
Variable get_four_c_section : ElementType → result string.
Variable get_four_c_type : ElementType → result string.
Variable get_four_c_name : ElementType → result string.

Record CubitPy := {
  node_sets : gmap Z NodeSet;
  blocks : gmap Z (ElementType * pydict);
  fourc_input : loc
}.

(** *** [add_node_sets_external_geometry] *)

Definition external_step (cubit : CubitPy) (input_file : loc)
    (st : store) (node_set_id : Z) : result store :=
  ns ← getitem (node_sets cubit) node_set_id;
  match bc_section ns with
  | Some sec =>
      st ← dict_setitem (bc_description ns) "E" (VInt node_set_id) st;
      st ← deck_setdefault_list input_file sec st;
      st ← dict_setitem (bc_description ns) "ENTITY_TYPE" (VStr "node_set_id") st;
      deck_append input_file sec (ERef (bc_description ns)) st
  | None => Ok st
  end.

(** [sorted(cubit.node_sets.keys())] *)
Definition node_set_keys_sorted (cubit : CubitPy) : list Z :=
  merge_sort Z.le (elements (dom (node_sets cubit))).

Definition add_node_sets_external_geometry (cubit : CubitPy) (input_file : loc)
    (st : store) : result store :=
  if decide (size (node_sets cubit) = 0) then Ok st
  else for_each (external_step cubit input_file) (node_set_keys_sorted cubit) st.

(** *** [add_node_sets_input_file] *)

Definition empty_buckets : buckets := λ _, [].

(** The body of [for exo_id in range(len(exo.variables["ns_prop1"]))]. *)
Definition project_step (cubit : CubitPy) (exo : Exodus) (input_file : loc)
    (ids : id_maps) (acc : buckets * store) (exo_id : nat) : result (buckets * store) :=
  let '(node_sets_geo, st) := acc in
  cubit_id ← getitem (exo_id_to_cubit_id ids) exo_id;
  ns ← getitem (node_sets cubit) cubit_id;
  nodes ← int_array exo ("node_ns" +:+ pretty (exo_id + 1));
  let node_sets_geo := bucket_append node_sets_geo (geometry_type ns) nodes in
  st ← dict_setitem (bc_description ns) "E"
         (VInt (Z.of_nat (length (node_sets_geo (geometry_type ns))))) st;
  match bc_section ns with
  | Some sec =>
      st ← deck_setdefault_list input_file sec st;
      st ← deck_append input_file sec (ERef (bc_description ns)) st;
      Ok (node_sets_geo, st)
  | None => Ok (node_sets_geo, st)
  end.

Definition project_loop (cubit : CubitPy) (exo : Exodus) (input_file : loc)
    (ids : id_maps) (exo_ids : list nat) (st : store) : result (buckets * store) :=
  for_each (project_step cubit exo input_file ids) exo_ids (empty_buckets, st).

Definition add_topology (input_file : loc) (node_sets_geo : buckets) (st : store)
    : result store :=
  for_each (topology_step input_file node_sets_geo) name_geometry_tuple st.

Definition add_node_sets_input_file (cubit : CubitPy) (exo : Exodus) (input_file : loc)
    (st : store) : result store :=
  if decide (size (node_sets cubit) = 0) then Ok st
  else
    ids ← _exo_to_cubit_ids exo "nodeset";
    ns_prop1 ← int_array exo "ns_prop1";
    '(node_sets_geo, st) ←
      project_loop cubit exo input_file ids (seq 0 (length ns_prop1)) st;
    add_topology input_file node_sets_geo st.

(** *** [get_input_file_with_mesh] *)

(** Modelled from the spec: [FourCInput.copy] belongs to the fourcipp
    package and is not among the sources.  The spec has it "duplicate the
    session's current deck (independent copy; subsequent mutation does
    not affect the session's original)", and the caller's comment names
    it a deep copy: the deck object and every dictionary reachable from
    it are duplicated at locations nothing else refers to, a dictionary
    referred to twice being duplicated once. *)
Definition copy (input_file : loc) (st : store) : result (loc * store) :=
  deck ← getitem (decks st) input_file;
  let new := fresh_loc st in
  Ok (new, {| dicts := clone_dicts (S new) (deck_refs deck) (dicts st);
              decks := <[new := copy_section (S new) <$> deck]> (decks st) |}).

Definition element_record (i_element : nat) (connectivity : list Z)
    (four_c_type four_c_name : string) (block_dict : pydict) : entry :=
  EVal (VDict [ ("id", VInt (Z.of_nat (i_element + 1)));
                ("cell", VDict [ ("connectivity", VList (VInt <$> connectivity));
                                 ("type", VStr four_c_type) ]);
                ("data", VDict (dict_update [("type", VStr four_c_name)] block_dict)) ]).

(** The body of [for connectivity in exo.variables[f"connect{exo_id + 1}"][:]];
    Python looks up [input_file[block_section].append] before it
    evaluates the record. *)
Definition element_step (ele_type : ElementType) (block_dict : pydict)
    (input_file : loc) (block_section : string)
    (acc : nat * store) (connectivity : list Z) : result (nat * store) :=
  let '(i_element, st) := acc in
  _ ← deck_list input_file block_section st;
  conn ← get_element_connectivity_list connectivity;
  four_c_type ← get_four_c_type ele_type;
  four_c_name ← get_four_c_name ele_type;
  st ← deck_append input_file block_section
         (element_record i_element conn four_c_type four_c_name block_dict) st;
  Ok (i_element + 1, st).

(** The body of [for exo_id in range(len(exo.variables["eb_prop1"]))]. *)
Definition block_step (cubit : CubitPy) (exo : Exodus) (input_file : loc)
    (ids : id_maps) (acc : nat * store) (exo_id : nat) : result (nat * store) :=
  let '(i_element, st) := acc in
  cubit_id ← getitem (exo_id_to_cubit_id ids) exo_id;
  '(ele_type, block_dict) ← getitem (blocks cubit) cubit_id;
  four_c_section ← get_four_c_section ele_type;
  let block_section := four_c_section +:+ " ELEMENTS" in
  st ← deck_setdefault_list input_file block_section st;
  rows ← int_array2 exo ("connect" +:+ pretty (exo_id + 1));
  for_each (element_step ele_type block_dict input_file block_section)
    rows (i_element, st).

Definition read_coordinates (exo : Exodus) : result (list (Z * Z * Z)) :=
  if decide (is_Some (variables exo !! "coordz")) then
    x ← float_array exo "coordx";
    y ← float_array exo "coordy";
    z ← float_array exo "coordz";
    transpose x y z
  else
    x ← float_array exo "coordx";
    y ← float_array exo "coordy";
    transpose x y (replicate (length x) 0%Z).

Definition add_node_coords (exo : Exodus) (input_file : loc) (st : store)
    : result store :=
  st ← deck_setitem input_file "NODE COORDS" (SList []) st;
  coordinates ← read_coordinates exo;
  for_each
    (λ st ic, deck_append input_file "NODE COORDS" (node_record ic.2 ic.1) st)
    (enumerate coordinates) st.

Definition add_elements (cubit : CubitPy) (exo : Exodus) (input_file : loc)
    (st : store) : result (nat * store) :=
  ids ← _exo_to_cubit_ids exo "block";
  eb_prop1 ← int_array exo "eb_prop1";
  for_each (block_step cubit exo input_file ids) (seq 0 (length eb_prop1)) (0, st).

(** [exo] is the file [cubit.export_exo] has just written, opened by
    [netCDF4.Dataset]. *)
Definition get_input_file_with_mesh (cubit : CubitPy) (exo : Exodus) (st : store)
    : result (loc * store) :=
  '(input_file, st) ← copy (fourc_input cubit) st;
  st ← add_node_sets_input_file cubit exo input_file st;
  st ← add_node_coords exo input_file st;
  '(_, st) ← add_elements cubit exo input_file st;
  Ok (input_file, st).

End Converter.

(** ** [formatter] *)

#[global] Instance GeometryType_countable : Countable GeometryType.
Proof.
  refine (inj_countable'
    (λ g, match g with vertex => 0 | curve => 1 | surface => 2 | volume => 3 end)
    (λ n, match n with 0 => vertex | 1 => curve | 2 => surface | _ => volume end) _).
  by intros [].
Defined.

(** What [get_object_type] returns: ["body"], a member of
    [cupy.geometry], or anything else. *)
Inductive object_type :=
  | ot_body
  | ot_geometry (g : GeometryType)
  | ot_other.

(** A [CubitObject] as far as [formatter] looks at it; [surfaces] and
    [volumes] are the ids of the objects these methods return. *)
Record CubitObject := {
  get_object_type : object_type;
  is_sheet_body : bool;
  surfaces : list Z;
  volumes : list Z;
  object_id : Z
}.

(** A [CubitGroup] as far as [formatter] looks at it: what
    [get_geometry_type()] returns or raises, and the dictionary of
    [get_item_ids()], taken to have an entry for every geometry type. *)
Record CubitGroup := {
  get_geometry_type : result GeometryType;
  get_item_ids : GeometryType → list Z
}.

(** An instance of [int]: an integer or, [bool] being a subclass of
    [int], a truth value. *)
Inductive py_int :=
  | int_plain (n : Z)
  | int_bool (b : bool).

(** [str(item)] *)
Definition str (item : py_int) : string :=
  match item with
  | int_plain n => pretty n
  | int_bool true => "True"
  | int_bool false => "False"
  end.

(** An argument of [formatter]: a list, tuple or set, a [CubitGroup], a
    [CubitObject], an instance of [int], or an object of any other
    type.  The ids cubit hands out for objects and groups are integers. *)
Inductive argument :=
  | a_iterable (items : list argument)
  | a_group (g : CubitGroup)
  | a_object (o : CubitObject)
  | a_int (n : py_int)
  | a_other.

Section Formatter.

Variable get_cubit_string : GeometryType → string.

(** The statements after the loop. *)
Definition formatter_finish (geometry_types : gset GeometryType) (item_list : list py_int)
    : result string :=
  if decide (size geometry_types = 0) then Raise ValueError
  else if decide (size geometry_types ≠ 1) then Raise ValueError
  else if decide (length item_list = 0) then Raise ValueError
  else
    match elements geometry_types with
    | geometry_type :: _ =>
        Ok (get_cubit_string geometry_type +:+ " " +:+
            String.concat " " (str <$> item_list))
    | [] => Raise KeyError
    end.

Section Loop.

(** [self items geometry_type] is the call
    [formatter( *items, geometry_type=geometry_type)]; [n_args] is
    [len(args)]. *)
Variable self : argument → option GeometryType → result string.
Variable n_args : nat.

(** [for index, argument in enumerate(args)] from [argument] on, and
    what follows the loop. *)
Fixpoint formatter_loop (rest : list argument)
    (geometry_type : option GeometryType)
    (geometry_types : gset GeometryType) (item_list : list py_int) : result string :=
  match rest with
  | [] => formatter_finish geometry_types item_list
  | argument :: rest =>
      match argument with
      | a_iterable _ =>
          if decide (n_args ≠ 1) then Raise ValueError
          else self argument geometry_type
      | a_group g =>
          geometry_type ← get_geometry_type g;
          formatter_loop rest (Some geometry_type)
            ({[geometry_type]} ∪ geometry_types)
            (item_list ++ (int_plain <$> get_item_ids g geometry_type))
      | a_object o =>
          match get_object_type o with
          | ot_body =>
              let '(geometry_type, objects) :=
                if is_sheet_body o then (surface, surfaces o)
                else (volume, volumes o) in
              match objects with
              | [object] =>
                  formatter_loop rest (Some geometry_type)
                    ({[geometry_type]} ∪ geometry_types)
                    (item_list ++ [int_plain object])
              | _ => Raise ValueError
              end
          | ot_geometry object_type =>
              formatter_loop rest geometry_type
                ({[object_type]} ∪ geometry_types)
                (item_list ++ [int_plain (object_id o)])
          | ot_other => Raise TypeError
          end
      | a_int n =>
          formatter_loop rest geometry_type geometry_types (item_list ++ [n])
      | a_other => Raise TypeError
      end
  end.

End Loop.

(** The set [geometry_types] before the loop. *)
Definition initial_types (geometry_type : option GeometryType) : gset GeometryType :=
  match geometry_type with
  | Some g => {[g]}
  | None => ∅
  end.

(** [formatter_call args geometry_type] is [formatter( *args, ...)] for
    the tuple [args]; the recursion is on the nesting of iterables. *)
Fixpoint formatter_call (args : argument) (geometry_type : option GeometryType)
    {struct args} : result string :=
  match args with
  | a_iterable items =>
      formatter_loop formatter_call (length items) items geometry_type
        (initial_types geometry_type) []
  | _ => Raise TypeError
  end.

Definition formatter (args : list argument) (geometry_type : option GeometryType)
    : result string :=
  formatter_call (a_iterable args) geometry_type.

End Formatter.

(** ** [add_exodus_geometry_section] *)

Section ExodusGeometry.

Context {ElementType : Type}.
Variable get_four_c_section : ElementType → result string.
Variable get_four_c_name : ElementType → result string.

(** [get_cubit_names] of [ElementType] returns a pair. *)
Variable get_cubit_names : ElementType → result (string * string).

(** The section a block creates on first use. *)
Definition geometry_section (rel_exo_file_path : string) : section :=
  SDict [ ("FILE", VStr rel_exo_file_path);
          ("SHOW_INFO", VStr "detailed_summary");
          ("ELEMENT_BLOCKS", VList []) ].

(** [input_file[name]["ELEMENT_BLOCKS"].append(v)]: a section that is a
    list cannot be indexed by a string, a dictionary without the key
    raises [KeyError], a value that is no list has no [append]. *)
Definition deck_append_element_block (input_file : loc) (name : string) (v : value)
    (st : store) : result store :=
  deck ← getitem (decks st) input_file;
  sec ← getitem deck name;
  match sec with
  | SDict dd =>
      match dict_get "ELEMENT_BLOCKS" dd with
      | Some (VList vs) =>
          Ok {| dicts := dicts st;
                decks := <[input_file :=
                             <[name := SDict (dict_set "ELEMENT_BLOCKS"
                                                (VList (vs ++ [v])) dd)]> deck]>
                           (decks st) |}
      | Some _ => Raise AttributeError
      | None => Raise KeyError
      end
  | SList _ => Raise TypeError
  end.

(** [{"ID": cur_block_id, four_c_element_name: {cubit_element_name: data}}] *)
Definition element_block_dict (cur_block_id : Z) (four_c_element_name : string)
    (cubit_element_name : string) (data : pydict) : value :=
  VDict (dict_set four_c_element_name (VDict [(cubit_element_name, VDict data)])
           [("ID", VInt cur_block_id)]).

(** The body of [for cur_block_id, cur_block_data in cubit.blocks.items()]. *)
Definition geometry_step (rel_exo_file_path : string) (input_file : loc)
    (st : store) (item : Z * (ElementType * pydict)) : result store :=
  let '(cur_block_id, cur_block_data) := item in
  four_c_section ← get_four_c_section cur_block_data.1;
  let cur_geometry_section_key := four_c_section +:+ " GEOMETRY" in
  has ← deck_contains input_file cur_geometry_section_key st;
  st ← (if has : bool then Ok st
        else deck_setitem input_file cur_geometry_section_key
               (geometry_section rel_exo_file_path) st);
  four_c_element_name ← get_four_c_name cur_block_data.1;
  cubit_names ← get_cubit_names cur_block_data.1;
  deck_append_element_block input_file cur_geometry_section_key
    (element_block_dict cur_block_id four_c_element_name cubit_names.2
       cur_block_data.2) st.

(** [items] is what [cubit.blocks.items()] yields: the blocks of the
    session in the order they were added, which the [blocks] map of
    [CubitPy] does not keep. *)
Definition add_exodus_geometry_section (items : list (Z * (ElementType * pydict)))
    (input_file : loc) (rel_exo_file_path : string) (st : store) : result store :=
  for_each (geometry_step rel_exo_file_path input_file) items st.

End ExodusGeometry.

(** * Vocabulary of the statements *)

(** ** Names *)

(** The text one cell contributes to a name. *)
Definition cell_text (c : name_cell) : string :=
  match c with
  | np_bytes (Some x) => String (ascii_of_byte x) ""
  | _ => ""
  end.

Definition line_text (line : list name_cell) : string :=
  foldr (λ c s, cell_text c +:+ s) "" line.

(** A cell [char.decode] accepts. *)
Definition ascii_cell (c : name_cell) : Prop :=
  match c with
  | np_bytes (Some x) => (Byte.to_N x < 128)%N
  | _ => True
  end.

(** A padding cell: masked, or the empty bytes of a NUL. *)
Definition blank (c : name_cell) : Prop := c = masked ∨ c = np_bytes None.

(** ** Arguments of [formatter] *)

(** The geometry type and the item ids one argument contributes, for the
    arguments the loop of [formatter] gets past: a group whose geometry
    type is known, a body with exactly one surface or volume, a geometry
    object, an integer. *)
Definition resolve (a : argument) : option (option GeometryType * list py_int) :=
  match a with
  | a_group g =>
      match get_geometry_type g with
      | Ok t => Some (Some t, int_plain <$> get_item_ids g t)
      | Raise _ => None
      end
  | a_object o =>
      match get_object_type o with
      | ot_body =>
          match (if is_sheet_body o then surfaces o else volumes o) with
          | [x] =>
              Some (Some (if is_sheet_body o then surface else volume), [int_plain x])
          | _ => None
          end
      | ot_geometry t => Some (Some t, [int_plain (object_id o)])
      | ot_other => None
      end
  | a_int n => Some (None, [n])
  | _ => None
  end.

Definition type_set (t : option GeometryType) : gset GeometryType :=
  match t with
  | Some g => {[g]}
  | None => ∅
  end.

Definition resolved_types (rs : list (option GeometryType * list py_int))
    : gset GeometryType :=
  foldr (λ r acc, type_set r.1 ∪ acc) ∅ rs.

Definition resolved_items (rs : list (option GeometryType * list py_int)) : list py_int :=
  concat rs.*2.

(** [get_cubit_string] of [cubitpy_types], for the examples. *)
Definition cubit_string (g : GeometryType) : string :=
  match g with
  | vertex => "vertex"
  | curve => "curve"
  | surface => "surface"
  | volume => "volume"
  end.

Definition geometry_object (g : GeometryType) (n : Z) : CubitObject :=
  {| get_object_type := ot_geometry g; is_sheet_body := false;
     surfaces := []; volumes := []; object_id := n |}.

Definition empty_group (g : GeometryType) : CubitGroup :=
  {| get_geometry_type := Ok g; get_item_ids := λ _, [] |}.

(** ** Reading a deck in the store *)

(** The content of section [name] of the deck at [d]. *)
Definition section_of (st : store) (d : loc) (name : string) : option section :=
  decks st !! d ≫= λ dk, dk !! name.

(** The records of a section; a section that is no sequence has none. *)
Definition entries (o : option section) : list entry :=
  match o with
  | Some (SList es) => es
  | _ => []
  end.

(** What a section becomes when it is created on first use ([created])
    and the records [es] are appended to it. *)
Definition grow (o : option section) (created : bool) (es : list entry) : option section :=
  match o with
  | None => if created then Some (SList es) else None
  | Some (SList old) => Some (SList (old ++ es))
  | Some (SDict dd) => Some (SDict dd)
  end.

(** From [st] to [st'] the deck at [d] only grew: section [s] was created
    if [created s] and got the records [added s] appended; no other deck
    changed. *)
Definition extends (d : loc) (st st' : store)
    (created : string → bool) (added : string → list entry) : Prop :=
  is_Some (decks st !! d)
  ∧ is_Some (decks st' !! d)
  ∧ (∀ s, section_of st' d s = grow (section_of st d s) (created s) (added s))
  ∧ (∀ s, added s ≠ [] →
          created s = true ∧ ∀ dd, section_of st d s ≠ Some (SDict dd))
  ∧ (∀ d', d' ≠ d → decks st' !! d' = decks st !! d').

Definition is_section (name : string) : string → bool := λ s, bool_decide (s = name).

Definition only_in (name : string) (es : list entry) : string → list entry :=
  λ s, if bool_decide (s = name) then es else [].

(** ** Topology records *)

(** The records of one node set: its nodes in ascending order. *)
Definition set_records (set_label : string) (i_set : nat) (node_set : list Z) : list entry :=
  (λ i_node, topology_record i_node set_label i_set) <$> sort node_set.

(** The records of the node sets of one geometry type, in the order of
    the bucket, the first set being number [i_set]. *)
Fixpoint topology_records (set_label : string) (i_set : nat) (sets : list (list Z))
    : list entry :=
  match sets with
  | [] => []
  | node_set :: rest =>
      set_records set_label i_set node_set ++ topology_records set_label (S i_set) rest
  end.

(** Nothing but section [name] of the deck at [d] differs between [st]
    and [st']. *)
Definition same_except (d : loc) (name : string) (st st' : store) : Prop :=
  dicts st' = dicts st
  ∧ (∀ s, s ≠ name → section_of st' d s = section_of st d s)
  ∧ (∀ d', d' ≠ d → decks st' !! d' = decks st !! d').

(** ** Node sets in file order *)

Section NodeSetVocabulary.

Context {ElementType : Type}.

(** The node set the file holds at exchange index [j]: its entry in the
    registry of the session and its nodes; [prop1] is [ns_prop1]. *)
Definition node_set_at (cubit : @CubitPy ElementType) (exo : Exodus) (prop1 : list Z)
    (j : nat) : option (NodeSet * list Z) :=
  cubit_id ← prop1 !! j;
  ns ← node_sets cubit !! cubit_id;
  match int_array exo ("node_ns" +:+ pretty (j + 1)) with
  | Ok nodes => Some (ns, nodes)
  | Raise _ => None
  end.

(** The node sets at the exchange indices [js]. *)
Definition node_sets_at (cubit : @CubitPy ElementType) (exo : Exodus) (prop1 : list Z)
    (js : list nat) : list (NodeSet * list Z) :=
  omap (node_set_at cubit exo prop1) js.

(** The nodes of the sets of geometry type [g] among [rs], in order. *)
Definition bucket_of (rs : list (NodeSet * list Z)) (g : GeometryType) : list (list Z) :=
  snd <$> filter (λ r, geometry_type r.1 = g) rs.

(** The 1-based position of the set at exchange index [k] among the sets
    of geometry type [g]: one more than the number of sets of that type at
    smaller exchange indices, with or without a boundary condition. *)
Definition positional_index (cubit : @CubitPy ElementType) (exo : Exodus)
    (prop1 : list Z) (k : nat) (g : GeometryType) : nat :=
  S (length (bucket_of (node_sets_at cubit exo prop1 (seq 0 k)) g)).

(** The description at [l] carries the integer [v] under key [key]. *)
Definition has_field (st : store) (l : loc) (key : string) (v : value) : Prop :=
  ∃ dd, dicts st !! l = Some dd ∧ dict_get key dd = Some v.

(** The references a list of node sets appends to section [s]. *)
Definition bc_records (nss : list NodeSet) (s : string) : list entry :=
  (λ ns, ERef (bc_description ns)) <$> filter (λ ns, bc_section ns = Some s) nss.

(** Whether one of the node sets has its boundary condition in section [s]. *)
Definition bc_created (nss : list NodeSet) (s : string) : bool :=
  bool_decide (Exists (λ ns, bc_section ns = Some s) nss).

End NodeSetVocabulary.

(** The registry entries of the node sets with the cubit ids [ids]. *)
Definition registered {ElementType} (cubit : @CubitPy ElementType) (ids : list Z)
    : list NodeSet :=
  omap (λ node_set_id, node_sets cubit !! node_set_id) ids.

(** The descriptions that get written for a list of node sets: those of
    the sets with a boundary-condition section. *)
Definition written (nss : list NodeSet) : list loc :=
  bc_description <$> filter (λ ns, is_Some (bc_section ns)) nss.

(** The value of a computation that returns, [default] otherwise. *)
Definition from_Ok {A} (r : result A) (default : A) : A :=
  match r with
  | Ok a => a
  | Raise _ => default
  end.

(** ** Blocks in file order *)

Section BlockVocabulary.

Context {ElementType : Type}.
Variable get_four_c_section : ElementType → result string.
Variable get_four_c_type : ElementType → result string.
Variable get_four_c_name : ElementType → result string.

(** A block of the file as the assembler sees it: element type and
    metadata from the registry of the session, the name of its element
    section, its connectivity rows. *)
Record block_info := {
  block_element : ElementType;
  block_dict : pydict;
  block_section : string;
  block_rows : list (list Z)
}.

(** The block the file holds at exchange index [j]; [prop1] is [eb_prop1]. *)
Definition block_at (cubit : @CubitPy ElementType) (exo : Exodus) (prop1 : list Z)
    (j : nat) : option block_info :=
  cubit_id ← prop1 !! j;
  '(ele_type, block_dict) ← blocks cubit !! cubit_id;
  match get_four_c_section ele_type, int_array2 exo ("connect" +:+ pretty (j + 1)) with
  | Ok four_c_section, Ok rows =>
      Some {| block_element := ele_type; block_dict := block_dict;
              block_section := four_c_section +:+ " ELEMENTS"; block_rows := rows |}
  | _, _ => None
  end.

(** The record of the element with the 0-based number [i_element]. *)
Definition expected_record (b : block_info) (i_element : nat) (connectivity : list Z)
    : entry :=
  element_record i_element
    (from_Ok (get_element_connectivity_list connectivity) connectivity)
    (from_Ok (get_four_c_type (block_element b)) "")
    (from_Ok (get_four_c_name (block_element b)) "")
    (block_dict b).

(** The records of the rows [rows] of block [b], the first one being
    element number [i_element]. *)
Fixpoint records_from (b : block_info) (i_element : nat) (rows : list (list Z))
    : list entry :=
  match rows with
  | [] => []
  | connectivity :: rest =>
      expected_record b i_element connectivity :: records_from b (i_element + 1) rest
  end.

(** The number of elements of a list of blocks. *)
Definition total (bs : list block_info) : nat :=
  sum_list ((λ b, length (block_rows b)) <$> bs).

(** The records the blocks [bs] append to section [s], the first element
    of the first block being number [i_element]. *)
Fixpoint blocks_records (i_element : nat) (bs : list block_info) (s : string)
    : list entry :=
  match bs with
  | [] => []
  | b :: rest =>
      (if bool_decide (block_section b = s)
       then records_from b i_element (block_rows b) else [])
      ++ blocks_records (i_element + length (block_rows b)) rest s
  end.

Definition blocks_created (bs : list block_info) (s : string) : bool :=
  bool_decide (Exists (λ b, block_section b = s) bs).

(** The number of elements the blocks [bs] put into section [s]. *)
Definition elements_in (bs : list block_info) (s : string) : nat :=
  total (filter (λ b, block_section b = s) bs).

End BlockVocabulary.

(** ** Frames *)

(** From [st] to [st'] no deck but the one at [d] changed, and that one
    still exists. *)
Definition only_deck (d : loc) (st st' : store) : Prop :=
  is_Some (decks st' !! d) ∧ ∀ d', d' ≠ d → decks st' !! d' = decks st !! d'.

(** Every dictionary of [st] other than those at [ls] is the same in [st']. *)
Definition dicts_kept (ls : list loc) (st st' : store) : Prop :=
  ∀ l dd, l ∉ ls → dicts st !! l = Some dd → dicts st' !! l = Some dd.

(** The descriptions of the node-set registry. *)
Definition descriptions {ElementType} (cubit : @CubitPy ElementType) : list loc :=
  (λ kv, bc_description kv.2) <$> map_to_list (node_sets cubit).

(** The coordinate records of the rows [coordinates], the first one
    being node number [i + 1]. *)
Definition node_records (coordinates : list (Z * Z * Z)) : list entry :=
  (λ ic, node_record ic.2 ic.1) <$> enumerate coordinates.

(** ** An example session *)

Inductive example_element := ex_solid | ex_fluid.

Definition example_section (e : example_element) : result string :=
  match e with
  | ex_solid => Ok "STRUCTURE"
  | ex_fluid => Ok "FLUID"
  end.

Definition example_type (e : example_element) : result string := Ok "HEX8".

Definition example_name (e : example_element) : result string :=
  match e with
  | ex_solid => Ok "SOLID"
  | ex_fluid => Ok "FLUID"
  end.

(** The file of the example: three node sets with the cubit ids 7, 3 and
    5 in this order, two blocks of three and two elements, four nodes in
    the plane. *)
Definition example_exo : Exodus :=
  {| variables := list_to_map
       [ ("ns_names", CharArray2 [[masked; masked]; [masked; masked]; [masked; masked]]);
         ("ns_prop1", IntArray [7; 3; 5]%Z);
         ("node_ns1", IntArray [5; 3]%Z);
         ("node_ns2", IntArray [4]%Z);
         ("node_ns3", IntArray [2]%Z);
         ("eb_names", CharArray2 [[masked; masked]; [masked; masked]]);
         ("eb_prop1", IntArray [1; 2]%Z);
         ("connect1", IntArray2 [[1; 2]; [2; 3]; [3; 4]]%Z);
         ("connect2", IntArray2 [[4; 5]; [5; 1]]%Z);
         ("coordx", FloatArray [10; 11; 12; 13]%Z);
         ("coordy", FloatArray [20; 21; 22; 23]%Z) ] |}.

Definition example_line_without_bc : NodeSet :=
  {| bc_section := None; bc_description := 1; geometry_type := curve |}.

Definition example_line_dirichlet : NodeSet :=
  {| bc_section := Some "DESIGN LINE DIRICH CONDITIONS";
     bc_description := 2; geometry_type := curve |}.

Definition example_point_dirichlet : NodeSet :=
  {| bc_section := Some "DESIGN POINT DIRICH CONDITIONS";
     bc_description := 3; geometry_type := vertex |}.

Definition example_cubit : @CubitPy example_element :=
  {| node_sets := list_to_map [ (7%Z, example_line_without_bc);
                                (3%Z, example_line_dirichlet);
                                (5%Z, example_point_dirichlet) ];
     blocks := list_to_map [ (1%Z, (ex_solid, [("MAT", VInt 1)]));
                             (2%Z, (ex_fluid, [("MAT", VInt 2)])) ];
     fourc_input := 0 |}.

(** The same session with both blocks in the structure section. *)
Definition example_cubit_solid : @CubitPy example_element :=
  {| node_sets := node_sets example_cubit;
     blocks := list_to_map [ (1%Z, (ex_solid, [("MAT", VInt 1)]));
                             (2%Z, (ex_solid, [("MAT", VInt 2)])) ];
     fourc_input := 0 |}.

(** The store of the example: the three descriptions at 1, 2 and 3, the
    deck of the session at 0. *)
Definition example_store : store :=
  {| dicts := list_to_map [ (1, []); (2, [("NUMDOF", VInt 3)]); (3, [("NUMDOF", VInt 1)]) ];
     decks := {[ 0 := {[ "PROBLEM TYPE" := SDict [("PROBLEMTYPE", VStr "Structure")] ]} ]} |}.

(** The store after the node sets of the example went into its deck. *)
Definition example_projected : store :=
  from_Ok (add_node_sets_input_file example_cubit example_exo 0 example_store)
    example_store.

(** A session whose node sets 9 and 4 share a section, for the external mesh. *)
Definition example_external_cubit : @CubitPy example_element :=
  {| node_sets := list_to_map
       [ (9%Z, {| bc_section := Some "DESIGN LINE DIRICH CONDITIONS";
                  bc_description := 1; geometry_type := curve |});
         (4%Z, {| bc_section := Some "DESIGN LINE DIRICH CONDITIONS";
                  bc_description := 2; geometry_type := curve |});
         (6%Z, {| bc_section := None; bc_description := 3; geometry_type := curve |}) ];
     blocks := ∅;
     fourc_input := 0 |}.

Definition example_external : store :=
  from_Ok (add_node_sets_external_geometry example_external_cubit 0 example_store)
    example_store.

(** A session without node sets, and its file, which then has no
    node-set variables at all. *)
Definition example_cubit_no_sets : @CubitPy example_element :=
  {| node_sets := ∅; blocks := blocks example_cubit; fourc_input := 0 |}.

Definition example_exo_no_sets : Exodus :=
  {| variables := list_to_map
       [ ("eb_names", CharArray2 [[masked; masked]; [masked; masked]]);
         ("eb_prop1", IntArray [1; 2]%Z);
         ("connect1", IntArray2 [[1; 2]; [2; 3]; [3; 4]]%Z);
         ("connect2", IntArray2 [[4; 5]; [5; 1]]%Z);
         ("coordx", FloatArray [10; 11; 12; 13]%Z);
         ("coordy", FloatArray [20; 21; 22; 23]%Z) ] |}.

(** The deck with the mesh of a session and the store it lives in. *)
Definition example_mesh {ElementType} (section type name : ElementType → result string)
    (cubit : @CubitPy ElementType) (exo : Exodus) : loc * store :=
  from_Ok (get_input_file_with_mesh section type name cubit exo example_store)
    (0, example_store).

(** A store whose session deck refers to the description of node set 3. *)
Definition example_store_shared : store :=
  {| dicts := dicts example_store;
     decks := {[ 0 := {[ "DESIGN LINE DIRICH CONDITIONS" := SList [ERef 2] ]} ]} |}.

(** Two curve sets, for the topology sections. *)
Definition example_buckets : buckets :=
  λ g, match g with curve => [[5; 3]; [4]]%Z | _ => [] end.

Definition empty_deck_store : store := {| dicts := ∅; decks := {[ 0 := ∅ ]} |}.

(** The store after the elements of the example went into its deck. *)
Definition example_elements : nat * store :=
  from_Ok (add_elements example_section example_type example_name
             example_cubit example_exo 0 example_store)
    (0, example_store).

(** The value under key [k] of a record that is a literal dictionary. *)
Definition record_field (k : string) (e : entry) : option value :=
  match e with
  | EVal (VDict kvs) => dict_get k kvs
  | _ => None
  end.

(** ** The id maps *)

(** ["eb"] for blocks, ["ns"] for node sets. *)
Definition exo_identifier (entry_type : string) : string :=
  if decide (entry_type = "block") then "eb" else "ns".

(** The accumulator of [_exo_to_cubit_ids] before its loop. *)
Definition no_ids : id_maps :=
  {| entries_info := []; cubit_id_to_exo_id := ∅; exo_id_to_cubit_id := ∅ |}.

(** A session whose file holds the cubit id 7 twice. *)
Definition example_exo_repeated : Exodus :=
  {| variables := list_to_map
       [ ("ns_names", CharArray2 [[np_bytes (Some "a"%byte)]; [masked]; [masked]]);
         ("ns_prop1", IntArray [7; 3; 7]%Z) ] |}.

(** ** Repeated normalisation *)

(** [get_element_connectivity_list] called with a Python list, which is
    what the function itself returns: a list of 27 entries is indexed
    like an array, a list of any other length has no [tolist]. *)
Definition get_element_connectivity_list_of_list (connectivity : list Z)
    : result (list Z) :=
  if decide (length connectivity = 27)
  then comprehension (index connectivity) hex27_ordering
  else Raise AttributeError.

(** The function applied [n] times to a list it returned. *)
Fixpoint normalise_list_times (n : nat) (out : list Z) : result (list Z) :=
  match n with
  | 0 => Ok out
  | S n => out ← get_element_connectivity_list_of_list out; normalise_list_times n out
  end.

(** [get_element_connectivity_list] applied to a row of the file and
    then [n] more times to its own result. *)
Definition normalise_again (n : nat) (connectivity : list Z) : result (list Z) :=
  out ← get_element_connectivity_list connectivity; normalise_list_times n out.

(** ** Names of the topology sections *)

Definition topology_sections : list string := (λ t, t.1.2) <$> name_geometry_tuple.

(** The node sets of the file in exchange-index order, as registered. *)
Definition file_node_sets {ElementType} (cubit : @CubitPy ElementType) (exo : Exodus)
    (prop1 : list Z) : list (NodeSet * list Z) :=
  node_sets_at cubit exo prop1 (seq 0 (length prop1)).

(** A session that knows the node sets 7 and 3 of the example file but
    not node set 5, and has a node set 9 the file does not hold. *)
Definition example_cubit_mismatch : @CubitPy example_element :=
  {| node_sets := list_to_map [ (7%Z, example_line_without_bc);
                                (3%Z, example_line_dirichlet);
                                (9%Z, example_point_dirichlet) ];
     blocks := blocks example_cubit;
     fourc_input := 0 |}.

(** The example file without its third node set. *)
Definition example_exo_two_sets : Exodus :=
  {| variables := <["ns_prop1" := IntArray [7; 3]%Z]> (variables example_exo) |}.

Definition example_two_sets : store :=
  from_Ok (add_node_sets_input_file example_cubit example_exo_two_sets 0 example_store)
    example_store.

(** A file whose columns of coordinates have different lengths, and a
    file with three columns. *)
Definition example_exo_ragged : Exodus :=
  {| variables := list_to_map
       [ ("coordx", FloatArray [10; 11; 12]%Z);
         ("coordy", FloatArray [20; 21]%Z) ] |}.

Definition example_exo_space : Exodus :=
  {| variables := list_to_map
       [ ("coordx", FloatArray [10; 11]%Z);
         ("coordy", FloatArray [20; 21]%Z);
         ("coordz", FloatArray [30; 31]%Z) ] |}.

(** A file whose second block has no elements. *)
Definition example_exo_empty_block : Exodus :=
  {| variables := <["connect2" := IntArray2 []]> (variables example_exo) |}.

Definition example_elements_empty_block : nat * store :=
  from_Ok (add_elements example_section example_type example_name
             example_cubit example_exo_empty_block 0 example_store)
    (0, example_store).

(** ** Arguments [formatter] refuses *)

(** The exception the loop of [formatter] raises at an argument, [None]
    for an argument it gets past; [n_args] is the number of arguments of
    the call. *)
Definition refusal (n_args : nat) (a : argument) : option exn :=
  match a with
  | a_iterable _ => if decide (n_args ≠ 1) then Some ValueError else None
  | a_group g =>
      match get_geometry_type g with
      | Ok _ => None
      | Raise e => Some e
      end
  | a_object o =>
      match get_object_type o with
      | ot_body =>
          match (if is_sheet_body o then surfaces o else volumes o) with
          | [_] => None
          | _ => Some ValueError
          end
      | ot_geometry _ => None
      | ot_other => Some TypeError
      end
  | a_int _ => None
  | a_other => Some TypeError
  end.

(** The text [formatter] returns for a geometry type and item ids. *)
Definition command_text (get_cubit_string : GeometryType → string)
    (g : GeometryType) (item_list : list py_int) : string :=
  get_cubit_string g +:+ " " +:+ String.concat " " (str <$> item_list).

(** A body that is no sheet body and has two volumes. *)
Definition two_volume_body : CubitObject :=
  {| get_object_type := ot_body; is_sheet_body := false;
     surfaces := []; volumes := [1; 2]%Z; object_id := 9 |}.

(** ** Geometry sections of an external mesh *)

Section GeometryVocabulary.

Context {ElementType : Type}.
Variable get_four_c_section : ElementType → result string.
Variable get_four_c_name : ElementType → result string.
Variable get_cubit_names : ElementType → result (string * string).

(** The geometry section a block of the session goes to and the
    dictionary it adds to the element blocks there. *)
Definition geometry_block (item : Z * (ElementType * pydict)) : option (string * value) :=
  match get_four_c_section item.2.1, get_four_c_name item.2.1,
        get_cubit_names item.2.1 with
  | Ok four_c_section, Ok four_c_element_name, Ok cubit_names =>
      Some (four_c_section +:+ " GEOMETRY",
            element_block_dict item.1 four_c_element_name cubit_names.2 item.2.2)
  | _, _, _ => None
  end.

(** The dictionaries the blocks [bs] add to section [s], in order. *)
Definition blocks_of (bs : list (string * value)) (s : string) : list value :=
  snd <$> filter (λ b, b.1 = s) bs.

(** A section element blocks can be added to: none yet, or a dictionary
    whose [ELEMENT_BLOCKS] is a list. *)
Definition geometry_ready (o : option section) : Prop :=
  match o with
  | None => True
  | Some (SDict dd) => ∃ old, dict_get "ELEMENT_BLOCKS" dd = Some (VList old)
  | Some (SList _) => False
  end.

(** The element blocks a section holds. *)
Definition element_blocks (o : option section) : list value :=
  match o with
  | Some (SDict dd) =>
      match dict_get "ELEMENT_BLOCKS" dd with
      | Some (VList old) => old
      | _ => []
      end
  | _ => []
  end.

(** What a section becomes when the element blocks [vs] are added to it,
    the section being created for the file [rel_exo_file_path] when
    there is none. *)
Definition grow_geometry (rel_exo_file_path : string) (o : option section)
    (vs : list value) : option section :=
  match vs with
  | [] => o
  | _ :: _ =>
      match o with
      | None =>
          Some (SDict [ ("FILE", VStr rel_exo_file_path);
                        ("SHOW_INFO", VStr "detailed_summary");
                        ("ELEMENT_BLOCKS", VList vs) ])
      | Some (SDict dd) =>
          match dict_get "ELEMENT_BLOCKS" dd with
          | Some (VList old) =>
              Some (SDict (dict_set "ELEMENT_BLOCKS" (VList (old ++ vs)) dd))
          | _ => o
          end
      | Some (SList _) => o
      end
  end.

End GeometryVocabulary.

(** [get_cubit_names] of the example elements. *)
Definition example_cubit_names (e : example_element) : result (string * string) :=
  match e with
  | ex_solid => Ok ("hex", "HEX8")
  | ex_fluid => Ok ("tet", "TETRA4")
  end.

(** Three blocks of a session in the order they were added, the first
    and the third in the structure section. *)
Definition example_items : list (Z * (example_element * pydict)) :=
  [ (4%Z, (ex_solid, [("MAT", VInt 1)]));
    (2%Z, (ex_fluid, [("MAT", VInt 2)]));
    (1%Z, (ex_solid, [("MAT", VInt 3)])) ].

(** A store whose deck has a structure geometry section for another file. *)
Definition example_store_geometry : store :=
  {| dicts := ∅;
     decks := {[ 0 := {[ "STRUCTURE GEOMETRY" :=
                           SDict [ ("FILE", VStr "old.exo");
                                   ("ELEMENT_BLOCKS", VList [VInt 0]) ] ]} ]} |}.

(** A store whose deck has a list under the name of a geometry section. *)
Definition example_store_geometry_list : store :=
  {| dicts := ∅; decks := {[ 0 := {[ "FLUID GEOMETRY" := SList [] ]} ]} |}.

Definition example_geometry (st : store) : store :=
  from_Ok (add_exodus_geometry_section example_section example_name example_cubit_names
             example_items 0 "mesh.exo" st) st.

(** ** What a deck shows *)

(** The record a deck entry shows: the dictionary a reference points to
    as it is now, or the literal. *)
Definition deref (st : store) (e : entry) : option value :=
  match e with
  | ERef l => VDict <$> dicts st !! l
  | EVal v => Some v
  end.

(** The records of section [s] of the deck at [d] as a reader sees them. *)
Definition deck_shows (st : store) (d : loc) (s : string) : list (option value) :=
  deref st <$> entries (section_of st d s).

(** The deck at [d] reads in [st'] as it read in [st]: the same sections,
    and every record shows what it showed. *)
Definition deck_unchanged (d : loc) (st st' : store) : Prop :=
  ∀ s, section_of st' d s = section_of st d s
       ∧ deck_shows st' d s = deck_shows st d s.

(** The store of the example after [add_node_sets_external_geometry] put
    the boundary conditions into the deck of the session: the deck now
    refers to the descriptions of the registry. *)
Definition example_store_external : store :=
  from_Ok (add_node_sets_external_geometry example_cubit 0 example_store) example_store.

(** * Properties *)

(** ** The error monad and the loops *)

Lemma bind_Ok {A B} (m : result A) (f : A → result B) (b : B) :
  m ≫= f = Ok b → ∃ a, m = Ok a ∧ f a = Ok b.
Proof. destruct m as [a|e]; [eauto | discriminate]. Qed.

(** Splits a hypothesis [x ← m; k = Ok b] into [m = Ok a] and [k a = Ok b]. *)
Tactic Notation "inv_bind" hyp(H) :=
  let a := fresh "a" in
  let Ha := fresh "Ha" in
  apply bind_Ok in H as [a [Ha H]].

Tactic Notation "inv_bind" hyp(H) "as" ident(a) ident(Ha) :=
  apply bind_Ok in H as [a [Ha H]].

Lemma for_each_cons {S A} (body : S → A → result S) (x : A) (l : list A) (s : S) :
  for_each body (x :: l) s = body s x ≫= for_each body l.
Proof. reflexivity. Qed.

Lemma bind_Ok_l {A B} (a : A) (f : A → result B) : Ok a ≫= f = f a.
Proof. reflexivity. Qed.

Lemma for_each_app {S A} (body : S → A → result S) (l1 l2 : list A) (s : S) :
  for_each body (l1 ++ l2) s = for_each body l1 s ≫= for_each body l2.
Proof.
  revert s. induction l1 as [|x l1 IH]; intros s; simpl; [done|].
  destruct (body s x); simpl; auto.
Qed.

Lemma for_each_snoc {S A} (body : S → A → result S) (l : list A) (x : A) (s : S) :
  for_each body (l ++ [x]) s = for_each body l s ≫= λ s', body s' x.
Proof.
  rewrite for_each_app. destruct (for_each body l s) as [s'|]; simpl; [|done].
  by destruct (body s' x).
Qed.

(** ** Strings *)

Lemma string_app_nil_r (s : string) : s +:+ "" = s.
Proof.
  induction s as [|a s IH]; [done|].
  change (String a (s +:+ "") = String a s). by rewrite IH.
Qed.

Lemma string_app_assoc (s1 s2 s3 : string) : (s1 +:+ s2) +:+ s3 = s1 +:+ s2 +:+ s3.
Proof.
  induction s1 as [|a s1 IH]; [done|].
  change (String a ((s1 +:+ s2) +:+ s3) = String a (s1 +:+ s2 +:+ s3)).
  by rewrite IH.
Qed.

(** ** Element connectivity *)

(** C1: a connectivity of 27 entries comes back with entries 0..19 in
    place and output positions 20..26 holding the inputs 21, 25, 24, 26,
    23, 22, 20; a connectivity of any other length comes back as it is;
    the input 0..26 gives 0..19, 21, 25, 24, 26, 23, 22, 20. *)
Theorem get_element_connectivity_list_spec (connectivity : list Z) :
  (length connectivity = 27 →
   ∃ out, get_element_connectivity_list connectivity = Ok out
     ∧ length out = 27
     ∧ (∀ k, k < 20 → out !! k = connectivity !! k)
     ∧ out !! 20 = connectivity !! 21
     ∧ out !! 21 = connectivity !! 25
     ∧ out !! 22 = connectivity !! 24
     ∧ out !! 23 = connectivity !! 26
     ∧ out !! 24 = connectivity !! 23
     ∧ out !! 25 = connectivity !! 22
     ∧ out !! 26 = connectivity !! 20)
  ∧ (length connectivity ≠ 27 →
     get_element_connectivity_list connectivity = Ok connectivity)
  ∧ get_element_connectivity_list (Z.of_nat <$> seq 0 27)
    = Ok [0; 1; 2; 3; 4; 5; 6; 7; 8; 9; 10; 11; 12; 13; 14; 15; 16; 17; 18; 19;
          21; 25; 24; 26; 23; 22; 20]%Z.
Proof.
  split; [|split].
  - intros Hlen.
    do 27 (destruct connectivity as [|? connectivity]; [discriminate Hlen|]).
    destruct connectivity; [|discriminate Hlen].
    eexists. split; [reflexivity|].
    split; [reflexivity|]. split; [|repeat split].
    intros k Hk. do 20 (destruct k as [|k]; [reflexivity|]). lia.
  - intros Hlen. unfold get_element_connectivity_list.
    by destruct (decide (length connectivity = 27)).
  - reflexivity.
Qed.

Lemma get_element_connectivity_list_spec_witness :
  length (Z.of_nat <$> seq 100 27) = 27
  ∧ ∃ out, get_element_connectivity_list (Z.of_nat <$> seq 100 27) = Ok out
      ∧ out !! 20 = Some 121%Z ∧ out !! 26 = Some 120%Z.
Proof.
  split; [reflexivity|].
  destruct (get_element_connectivity_list_spec (Z.of_nat <$> seq 100 27))
    as [H27 _].
  destruct (H27 eq_refl) as (out & Hout & _ & _ & H20 & _ & _ & _ & _ & _ & H26).
  exists out. split; [exact Hout|]. split; [exact H20 | exact H26].
Defined.

(** Whatever its length, a connectivity is normalised without an exception. *)
Lemma get_element_connectivity_list_total (connectivity : list Z) :
  ∃ out, get_element_connectivity_list connectivity = Ok out.
Proof.
  unfold get_element_connectivity_list.
  destruct (decide (length connectivity = 27)) as [Hlen|]; [|eauto].
  do 27 (destruct connectivity as [|? connectivity]; [discriminate Hlen|]).
  destruct connectivity; [|discriminate Hlen]. eexists. reflexivity.
Qed.

(** ** Names *)

Lemma decode_line_text (line : list name_cell) (name : string) :
  Forall ascii_cell line → decode_line line name = Ok (name +:+ line_text line).
Proof.
  intros Hall. revert name.
  induction Hall as [|c line Hc _ IH]; intros name; simpl.
  - by rewrite string_app_nil_r.
  - destruct c as [|[x|]]; simpl in *.
    + apply IH.
    + destruct (decide (Byte.to_N x < 128)%N); [|done]. simpl.
      rewrite IH. by rewrite string_app_assoc.
    + rewrite IH. by rewrite string_app_nil_r.
Qed.

Lemma decode_line_app (line pad : list name_cell) (name : string) :
  decode_line (line ++ pad) name = decode_line line name ≫= decode_line pad.
Proof.
  revert name. induction line as [|c line IH]; intros name; simpl; [done|].
  destruct c as [|b]; [apply IH|].
  destruct (decode b); simpl; [apply IH | done].
Qed.

Lemma decode_line_blank (pad : list name_cell) (name : string) :
  Forall blank pad → decode_line pad name = Ok name.
Proof.
  induction 1 as [|c pad [->| ->] _ IH]; simpl; [done| done |].
  by rewrite string_app_nil_r.
Qed.

(** C7: a name is the concatenation of the decoded characters of the whole
    buffer; an empty result becomes [None], never the empty string;
    trailing padding does not change the name; an all-blank buffer has no
    name. *)
Theorem decode_name_spec (line pad : list name_cell) :
  (Forall ascii_cell line →
   decode_name line
   = Ok (if decide (line_text line = "") then None else Some (line_text line)))
  ∧ decode_name line ≠ Ok (Some "")
  ∧ (Forall blank pad → decode_name (line ++ pad) = decode_name line)
  ∧ (Forall blank line → decode_name line = Ok None).
Proof.
  unfold decode_name. repeat split.
  - intros Hall. by rewrite decode_line_text.
  - destruct (decode_line line "") as [name|]; simpl; [|done].
    destruct (decide (name = "")); congruence.
  - intros Hpad. rewrite decode_line_app.
    destruct (decode_line line "") as [name|]; simpl; [|done].
    by rewrite decode_line_blank.
  - intros Hblank. by rewrite decode_line_blank.
Qed.

Lemma decode_name_spec_witness :
  decode_name ([np_bytes (Some "t"%byte); np_bytes (Some "o"%byte);
                np_bytes (Some "p"%byte)] ++ [np_bytes None; masked; masked])
  = Ok (Some "top")
  ∧ decode_name [masked; np_bytes None] = Ok None.
Proof.
  pose (line := [np_bytes (Some "t"%byte); np_bytes (Some "o"%byte);
                 np_bytes (Some "p"%byte)]).
  pose (pad := [np_bytes None; masked; masked]).
  destruct (decode_name_spec line pad) as (Htext & _ & Hpad & _).
  destruct (decode_name_spec [masked; np_bytes None] []) as (_ & _ & _ & Hblank).
  split.
  - fold line pad. rewrite Hpad.
    + rewrite Htext; [reflexivity|].
      repeat (apply Forall_cons_2; [vm_compute; reflexivity|]). apply Forall_nil_2.
    + repeat (apply Forall_cons_2; [first [by left | by right]|]). apply Forall_nil_2.
  - apply Hblank.
    repeat (apply Forall_cons_2; [first [by left | by right]|]). apply Forall_nil_2.
Defined.

(** ** [formatter] *)

Section FormatterProperties.

Variable get_cubit_string : GeometryType → string.

Lemma formatter_loop_resolved self n_args args rs :
  Forall2 (λ a r, resolve a = Some r) args rs →
  ∀ geometry_type geometry_types item_list,
    formatter_loop get_cubit_string self n_args args geometry_type
      geometry_types item_list
    = formatter_finish get_cubit_string
        (geometry_types ∪ resolved_types rs) (item_list ++ resolved_items rs).
Proof.
  induction 1 as [|a r args rs Ha _ IH]; intros gt types items; simpl.
  - unfold resolved_items. simpl. rewrite app_nil_r.
    by replace (types ∪ ∅) with types by set_solver.
  - unfold resolved_items in *. simpl. rewrite app_assoc.
    destruct a as [l|g|o|n|]; simpl in Ha; try discriminate.
    + destruct (get_geometry_type g) as [t|]; [|discriminate].
      injection Ha as <-. simpl. rewrite IH. f_equal. set_solver.
    + destruct (get_object_type o) as [|t|]; [| |discriminate].
      * destruct (is_sheet_body o).
        -- destruct (surfaces o) as [|x [|??]]; try discriminate.
           injection Ha as <-. simpl. rewrite IH. f_equal. set_solver.
        -- destruct (volumes o) as [|x [|??]]; try discriminate.
           injection Ha as <-. simpl. rewrite IH. f_equal. set_solver.
      * injection Ha as <-. simpl. rewrite IH. f_equal. set_solver.
    + injection Ha as <-. simpl. rewrite IH. f_equal. set_solver.
Qed.

(** With more than one argument an iterable is refused, so a call that
    returns has got past every argument. *)
Lemma formatter_loop_Ok_resolved self n_args args :
  n_args ≠ 1 →
  ∀ geometry_type geometry_types item_list s,
    formatter_loop get_cubit_string self n_args args geometry_type
      geometry_types item_list = Ok s →
    Forall (λ a, is_Some (resolve a)) args.
Proof.
  intros Hn. induction args as [|a args IH]; intros gt types items s; simpl.
  - intros _. apply Forall_nil_2.
  - destruct a as [l|g|o|n|]; simpl.
    + destruct (decide (n_args ≠ 1)); [discriminate | done].
    + destruct (get_geometry_type g) as [t|] eqn:Hg; simpl; [|discriminate].
      intros H. apply Forall_cons_2; [|by eapply IH].
      simpl. rewrite Hg. eauto.
    + destruct (get_object_type o) as [|t|] eqn:Ho; [| |discriminate].
      * destruct (is_sheet_body o) eqn:Hs.
        -- destruct (surfaces o) as [|x [|??]] eqn:Hx; try discriminate.
           intros H. apply Forall_cons_2; [|by eapply IH].
           simpl. rewrite Ho, Hs, Hx. eauto.
        -- destruct (volumes o) as [|x [|??]] eqn:Hx; try discriminate.
           intros H. apply Forall_cons_2; [|by eapply IH].
           simpl. rewrite Ho, Hs, Hx. eauto.
      * intros H. apply Forall_cons_2; [|by eapply IH].
        simpl. rewrite Ho. eauto.
    + intros H. apply Forall_cons_2; [|by eapply IH]. simpl. eauto.
    + discriminate.
Qed.

Lemma Forall_resolve args :
  Forall (λ a, is_Some (resolve a)) args →
  ∃ rs, Forall2 (λ a r, resolve a = Some r) args rs.
Proof.
  induction 1 as [|a args [r Hr] _ [rs IH]].
  - exists []. constructor.
  - exists (r :: rs). by constructor.
Qed.

Lemma resolved_types_elem args rs a g ia :
  Forall2 (λ a r, resolve a = Some r) args rs →
  a ∈ args → resolve a = Some (Some g, ia) → g ∈ resolved_types rs.
Proof.
  induction 1 as [|a' r args rs Ha' _ IH]; intros Hin Ha.
  - by apply elem_of_nil in Hin.
  - apply elem_of_cons in Hin as [->|Hin]; simpl.
    + rewrite Ha in Ha'. injection Ha' as <-. simpl. set_solver.
    + set_solver.
Qed.

Lemma formatter_finish_mixed (types : gset GeometryType) items g1 g2 :
  g1 ∈ types → g2 ∈ types → g1 ≠ g2 →
  formatter_finish get_cubit_string types items = Raise ValueError.
Proof.
  intros H1 H2 Hne. unfold formatter_finish.
  destruct (decide (size types = 0)); [done|].
  destruct (decide (size types ≠ 1)) as [|Hsz]; [done|].
  exfalso. apply dec_stable in Hsz.
  apply size_1_elem_of in Hsz as [x Hx]. set_solver.
Qed.

Lemma formatter_finish_no_items (types : gset GeometryType) :
  formatter_finish get_cubit_string types [] = Raise ValueError.
Proof.
  unfold formatter_finish.
  destruct (decide (size types = 0)); [done|].
  by destruct (decide (size types ≠ 1)).
Qed.

(** C9: two arguments of different geometry types make the call fail,
    with [ValueError] when the loop gets past every argument; a call
    whose arguments bring no item id fails with [ValueError]; a single
    iterable argument gives what its elements give as arguments. *)
Theorem formatter_spec (args : list argument) (geometry_type : option GeometryType) :
  (∀ a b g1 g2 ia ib,
     a ∈ args → b ∈ args →
     resolve a = Some (Some g1, ia) → resolve b = Some (Some g2, ib) →
     g1 ≠ g2 →
     ¬ succeeds (formatter get_cubit_string args geometry_type)
     ∧ (Forall (λ x, is_Some (resolve x)) args →
        formatter get_cubit_string args geometry_type = Raise ValueError))
  ∧ (∀ rs,
       Forall2 (λ a r, resolve a = Some r) args rs →
       resolved_items rs = [] →
       formatter get_cubit_string args geometry_type = Raise ValueError)
  ∧ formatter get_cubit_string [a_iterable args] geometry_type
    = formatter get_cubit_string args geometry_type.
Proof.
  split; [|split].
  - intros a b g1 g2 ia ib Ha Hb Hra Hrb Hne.
    assert (Hmixed : Forall (λ x, is_Some (resolve x)) args →
              formatter get_cubit_string args geometry_type = Raise ValueError).
    { intros Hall. apply Forall_resolve in Hall as [rs Hrs].
      unfold formatter. simpl. rewrite (formatter_loop_resolved _ _ _ rs Hrs).
      apply (formatter_finish_mixed _ _ g1 g2); [| |done].
      - apply elem_of_union_r. by apply (resolved_types_elem args rs a g1 ia).
      - apply elem_of_union_r. by apply (resolved_types_elem args rs b g2 ib). }
    split; [|done].
    intros [s Hs].
    assert (Hlen : length args ≠ 1).
    { destruct args as [|x [|y l]]; simpl; [lia| |lia].
      apply list_elem_of_singleton in Ha, Hb. subst. congruence. }
    unfold formatter in Hs. simpl in Hs.
    pose proof (formatter_loop_Ok_resolved _ _ _ Hlen _ _ _ _ Hs) as Hall.
    apply Hmixed in Hall. unfold formatter in Hall. simpl in Hall. congruence.
  - intros rs Hrs Hitems. unfold formatter. simpl.
    rewrite (formatter_loop_resolved _ _ _ rs Hrs), Hitems. simpl.
    apply formatter_finish_no_items.
  - reflexivity.
Qed.

End FormatterProperties.

Example formatter_ints :
  formatter cubit_string [a_int (int_plain 1); a_int (int_plain 12)] (Some vertex)
  = Ok "vertex 1 12".
Proof. vm_compute. reflexivity. Qed.

Example formatter_objects :
  formatter cubit_string
    [a_iterable [a_object (geometry_object curve 4); a_object (geometry_object curve 7)]]
    None = Ok "curve 4 7".
Proof. vm_compute. reflexivity. Qed.

Example formatter_iterable_among_others :
  formatter cubit_string [a_int (int_plain 1); a_iterable [a_int (int_plain 2)]]
    (Some vertex) = Raise ValueError.
Proof. vm_compute. reflexivity. Qed.

Lemma formatter_spec_witness :
  formatter cubit_string
    [a_object (geometry_object curve 1); a_object (geometry_object surface 2)] None
  = Raise ValueError
  ∧ formatter cubit_string [a_group (empty_group vertex)] None = Raise ValueError.
Proof.
  split.
  - destruct (formatter_spec cubit_string
      [a_object (geometry_object curve 1); a_object (geometry_object surface 2)] None)
      as [Hmixed _].
    apply (Hmixed (a_object (geometry_object curve 1))
                  (a_object (geometry_object surface 2)) curve surface
                  [int_plain 1] [int_plain 2]).
    + apply list_elem_of_here.
    + apply list_elem_of_further, list_elem_of_here.
    + reflexivity.
    + reflexivity.
    + discriminate.
    + repeat (apply Forall_cons_2; [by eexists|]). apply Forall_nil_2.
  - destruct (formatter_spec cubit_string [a_group (empty_group vertex)] None)
      as (_ & Hempty & _).
    apply (Hempty [(Some vertex, [])]).
    + constructor; [reflexivity | constructor].
    + reflexivity.
Defined.

(** ** The store *)

Lemma getitem_Ok `{Countable K} {V} (m : gmap K V) (k : K) (v : V) :
  getitem m k = Ok v ↔ m !! k = Some v.
Proof. unfold getitem. destruct (m !! k); split; congruence. Qed.

Lemma dict_get_set (k : string) (v : value) (dd : pydict) :
  dict_get k (dict_set k v dd) = Some v.
Proof.
  induction dd as [|[k' v'] dd IH]; simpl.
  - by rewrite decide_True.
  - destruct (decide (k' = k)) as [->|Hne]; simpl.
    + by rewrite decide_True.
    + by rewrite decide_False.
Qed.

Lemma dict_get_set_ne (k k0 : string) (v : value) (dd : pydict) :
  k0 ≠ k → dict_get k0 (dict_set k v dd) = dict_get k0 dd.
Proof.
  intros Hne. induction dd as [|[k' v'] dd IH]; simpl.
  - by rewrite decide_False.
  - destruct (decide (k' = k)) as [->|Hk]; simpl.
    + by rewrite !decide_False.
    + by rewrite IH.
Qed.

Lemma dict_setitem_Ok l k v st st' :
  dict_setitem l k v st = Ok st' →
  decks st' = decks st
  ∧ ∃ dd, dicts st !! l = Some dd ∧ dicts st' = <[l := dict_set k v dd]> (dicts st).
Proof.
  unfold dict_setitem. intros H. inv_bind H. apply getitem_Ok in Ha.
  injection H as <-. simpl. eauto.
Qed.

Lemma section_of_deck st d dk s : decks st !! d = Some dk → section_of st d s = dk !! s.
Proof. unfold section_of. by intros ->. Qed.

Lemma grow_nothing (o : option section) : grow o false [] = o.
Proof. destruct o as [[es|dd]|]; simpl; [by rewrite app_nil_r|done|done]. Qed.

Lemma grow_grow (o : option section) c1 c2 e1 e2 :
  (e1 ≠ [] → c1 = true) →
  grow (grow o c1 e1) c2 e2 = grow o (c1 || c2) (e1 ++ e2).
Proof.
  intros He. destruct o as [[es|dd]|]; simpl; [by rewrite app_assoc|done|].
  destruct c1; simpl; [done|].
  destruct e1 as [|x e1]; [done|]. by discriminate He.
Qed.

Lemma extends_refl d st :
  is_Some (decks st !! d) → extends d st st (λ _, false) (λ _, []).
Proof.
  intros Hd. repeat split; try done. intros s. by rewrite grow_nothing.
Qed.

Lemma extends_trans d st1 st2 st3 c1 a1 c2 a2 :
  extends d st1 st2 c1 a1 → extends d st2 st3 c2 a2 →
  extends d st1 st3 (λ s, c1 s || c2 s) (λ s, a1 s ++ a2 s).
Proof.
  intros (Hd1 & Hd2 & Hg1 & Ha1 & Hf1) (_ & Hd3 & Hg2 & Ha2 & Hf2).
  split; [done|]. split; [done|]. split; [|split].
  - intros s. rewrite Hg2, Hg1. apply grow_grow. intros Hne. by apply Ha1.
  - intros s Hne.
    destruct (a1 s) as [|x l] eqn:E1.
    + simpl in Hne. destruct (Ha2 s Hne) as [Hc Hnd].
      split; [by rewrite Hc, orb_true_r|].
      intros dd Hdd. apply (Hnd dd). by rewrite Hg1, Hdd.
    + destruct (Ha1 s) as [Hc Hnd]; [by rewrite E1|].
      split; [by rewrite Hc|done].
  - intros d' Hne. by rewrite Hf2, Hf1.
Qed.

Lemma extends_ext d st st' c a c' a' :
  (∀ s, c s = c' s) → (∀ s, a s = a' s) →
  extends d st st' c a → extends d st st' c' a'.
Proof.
  intros Hc Ha (Hd & Hd' & Hg & Hn & Hf).
  repeat split; try done.
  - intros s. by rewrite <-Hc, <-Ha.
  - rewrite <-Hc. apply Hn. by rewrite Ha.
  - intros dd. apply Hn. by rewrite Ha.
Qed.

(** Two stores with the same decks are extended alike. *)
Lemma extends_decks_l d st0 st st' c a :
  decks st0 = decks st → extends d st st' c a → extends d st0 st' c a.
Proof.
  intros Heq (Hd & Hd' & Hg & Hn & Hf). unfold extends, section_of in *.
  rewrite Heq. done.
Qed.

Lemma extends_decks_r d st st' st0 c a :
  decks st0 = decks st' → extends d st st' c a → extends d st st0 c a.
Proof.
  intros Heq (Hd & Hd' & Hg & Hn & Hf). unfold extends, section_of in *.
  rewrite Heq. done.
Qed.

Lemma deck_setdefault_list_Ok d name st st' :
  deck_setdefault_list d name st = Ok st' →
  dicts st' = dicts st
  ∧ extends d st st' (is_section name) (λ _, []).
Proof.
  unfold deck_setdefault_list, deck_contains, deck_setitem. intros H.
  inv_bind H. inv_bind Ha. rename a0 into dk. apply getitem_Ok in Ha0.
  injection Ha as <-. rewrite (proj2 (getitem_Ok _ _ _) Ha0) in H. simpl in H.
  destruct (dk !! name) as [sec|] eqn:Hsec.
  - rewrite bool_decide_true in H by eauto. injection H as <-.
    split; [done|]. split; [eauto|]. split; [eauto|].
    split; [|split; [done|done]].
    intros s. rewrite (section_of_deck _ _ dk) by done.
    unfold is_section. case_bool_decide as Hs.
    + subst s. rewrite Hsec. destruct sec; simpl; [by rewrite app_nil_r|done].
    + by rewrite grow_nothing.
  - rewrite bool_decide_false in H by (intros [? ?]; done). injection H as <-.
    split; [done|]. split; [eauto|]. simpl.
    split; [rewrite lookup_insert_eq; eauto|].
    split; [|split; [done|]].
    + intros s. unfold section_of at 1. simpl. rewrite lookup_insert_eq. simpl.
      rewrite (section_of_deck _ _ dk) by done.
      unfold is_section. case_bool_decide as Hs.
      * subst s. by rewrite lookup_insert_eq, Hsec.
      * rewrite lookup_insert_ne by done. by rewrite grow_nothing.
    + intros d' Hne. by rewrite lookup_insert_ne.
Qed.

Lemma deck_append_Ok d name e st st' :
  deck_append d name e st = Ok st' →
  dicts st' = dicts st
  ∧ extends d st st' (is_section name) (only_in name [e]).
Proof.
  unfold deck_append. intros H.
  inv_bind H. rename a into dk. apply getitem_Ok in Ha.
  inv_bind H. rename a into sec. apply getitem_Ok in Ha0.
  destruct sec as [es|dd]; [|discriminate]. injection H as <-.
  split; [done|]. split; [eauto|]. simpl.
  split; [rewrite lookup_insert_eq; eauto|].
  split; [|split].
  - intros s. unfold section_of at 1. simpl. rewrite lookup_insert_eq. simpl.
    rewrite (section_of_deck _ _ dk) by done.
    unfold is_section, only_in. case_bool_decide as Hs.
    + subst s. by rewrite lookup_insert_eq, Ha0.
    + rewrite lookup_insert_ne by done. by rewrite grow_nothing.
  - intros s. unfold is_section, only_in. case_bool_decide as Hs; [|done].
    intros _. split; [done|]. subst s.
    rewrite (section_of_deck _ _ dk) by done. rewrite Ha0. congruence.
  - intros d' Hne. by rewrite lookup_insert_ne.
Qed.

Lemma deck_setitem_Ok d name sec st st' :
  deck_setitem d name sec st = Ok st' →
  dicts st' = dicts st
  ∧ is_Some (decks st !! d)
  ∧ section_of st' d name = Some sec
  ∧ (∀ s, s ≠ name → section_of st' d s = section_of st d s)
  ∧ (∀ d', d' ≠ d → decks st' !! d' = decks st !! d').
Proof.
  unfold deck_setitem. intros H. inv_bind H. rename a into dk.
  apply getitem_Ok in Ha. injection H as <-. simpl.
  split; [done|]. split; [eauto|]. unfold section_of. simpl.
  rewrite lookup_insert_eq. simpl. split; [by rewrite lookup_insert_eq|].
  split.
  - intros s Hs. rewrite Ha. simpl. by rewrite lookup_insert_ne.
  - intros d' Hne. by rewrite lookup_insert_ne.
Qed.

Lemma same_except_refl d name st : same_except d name st st.
Proof. by repeat split. Qed.

Lemma same_except_trans d name st1 st2 st3 :
  same_except d name st1 st2 → same_except d name st2 st3 →
  same_except d name st1 st3.
Proof.
  intros (Hh1 & Hs1 & Hd1) (Hh2 & Hs2 & Hd2). repeat split.
  - congruence.
  - intros s Hs. by rewrite Hs2, Hs1.
  - intros d' Hd'. by rewrite Hd2, Hd1.
Qed.

Lemma section_of_Some st d s sec : section_of st d s = Some sec → is_Some (decks st !! d).
Proof. unfold section_of. destruct (decks st !! d); [eauto | discriminate]. Qed.

(** Appending to a section that is a sequence cannot fail. *)
Lemma deck_append_list d name e st old :
  section_of st d name = Some (SList old) →
  ∃ st', deck_append d name e st = Ok st'
    ∧ section_of st' d name = Some (SList (old ++ [e]))
    ∧ same_except d name st st'.
Proof.
  intros Hsec. unfold section_of in Hsec.
  destruct (decks st !! d) as [dk|] eqn:Hdk; [simpl in Hsec | discriminate].
  unfold deck_append. rewrite (proj2 (getitem_Ok _ _ _) Hdk). simpl.
  rewrite (proj2 (getitem_Ok _ _ _) Hsec). simpl.
  eexists. split; [reflexivity|]. unfold same_except, section_of. simpl.
  rewrite lookup_insert_eq. simpl. rewrite lookup_insert_eq.
  split; [done|]. split; [done|]. split.
  - intros s Hs. rewrite Hdk. simpl. by rewrite lookup_insert_ne.
  - intros d' Hd'. by rewrite lookup_insert_ne.
Qed.

Lemma append_all {A} d name (f : A → entry) (xs : list A) st old :
  section_of st d name = Some (SList old) →
  ∃ st', for_each (λ st x, deck_append d name (f x) st) xs st = Ok st'
    ∧ section_of st' d name = Some (SList (old ++ (f <$> xs)))
    ∧ same_except d name st st'.
Proof.
  revert st old. induction xs as [|x xs IH]; intros st old Hsec; simpl.
  - exists st. rewrite app_nil_r. split; [done|]. split; [done|].
    apply same_except_refl.
  - destruct (deck_append_list d name (f x) st old Hsec) as (st1 & -> & Hsec1 & Hf1).
    simpl. destruct (IH st1 _ Hsec1) as (st' & -> & Hsec' & Hf').
    exists st'. split; [done|]. rewrite <-app_assoc in Hsec'. split; [done|].
    by eapply same_except_trans.
Qed.

(** ** The topology sections *)

Lemma topology_sets_loop d name label sets i_set st old :
  section_of st d name = Some (SList old) →
  ∃ st', for_each (topology_set_step d name label) (enumerate_from i_set sets) st = Ok st'
    ∧ section_of st' d name = Some (SList (old ++ topology_records label i_set sets))
    ∧ same_except d name st st'.
Proof.
  revert i_set st old. induction sets as [|node_set sets IH]; intros i_set st old Hsec.
  - exists st. simpl. rewrite app_nil_r. split; [done|]. split; [done|].
    apply same_except_refl.
  - change (enumerate_from i_set (node_set :: sets))
      with ((i_set, node_set) :: enumerate_from (S i_set) sets).
    rewrite for_each_cons.
    destruct (append_all d name (λ i_node, topology_record i_node label i_set)
                (sort node_set) st old Hsec) as (st1 & Hrun1 & Hsec1 & Hf1).
    assert (Hstep : topology_set_step d name label st (i_set, node_set) = Ok st1)
      by exact Hrun1.
    rewrite Hstep, bind_Ok_l.
    destruct (IH (S i_set) st1 _ Hsec1) as (st' & -> & Hsec' & Hf').
    exists st'. split; [done|]. simpl. rewrite <-app_assoc in Hsec'.
    split; [done|]. by eapply same_except_trans.
Qed.

Lemma deck_setitem_total d name sec st :
  is_Some (decks st !! d) →
  ∃ st', deck_setitem d name sec st = Ok st'
    ∧ section_of st' d name = Some sec
    ∧ same_except d name st st'.
Proof.
  intros [dk Hdk]. unfold deck_setitem.
  rewrite (proj2 (getitem_Ok _ _ _) Hdk). simpl.
  eexists. split; [reflexivity|].
  destruct (deck_setitem_Ok d name sec st _
    ltac:(unfold deck_setitem; rewrite (proj2 (getitem_Ok _ _ _) Hdk); reflexivity))
    as (Hh & _ & Hsec & Hs & Hd).
  done.
Qed.

Lemma topology_step_Ok d (node_sets_geo : buckets) st geo name label :
  is_Some (decks st !! d) →
  ∃ st', topology_step d node_sets_geo st (geo, name, label) = Ok st'
    ∧ is_Some (decks st' !! d)
    ∧ section_of st' d name
      = (if decide (node_sets_geo geo = []) then section_of st d name
         else Some (SList (topology_records label 0 (node_sets_geo geo))))
    ∧ same_except d name st st'.
Proof.
  intros Hd. unfold topology_step.
  destruct (decide (0 < length (node_sets_geo geo))) as [Hlen|Hlen].
  - destruct (deck_setitem_total d name (SList []) st Hd) as (st1 & -> & Hsec1 & Hf1).
    simpl. destruct (topology_sets_loop d name label (node_sets_geo geo) 0 st1 [] Hsec1)
      as (st' & Hrun & Hsec' & Hf').
    exists st'. split; [exact Hrun|]. split; [by eapply section_of_Some|].
    split; [|by eapply same_except_trans].
    rewrite decide_False; [done|]. intros Hnil. rewrite Hnil in Hlen. simpl in Hlen. lia.
  - exists st. split; [done|]. split; [done|]. split; [|apply same_except_refl].
    rewrite decide_True; [done|]. destruct (node_sets_geo geo); [done|]. simpl in Hlen. lia.
Qed.

Lemma sort_sorted (node_set : list Z) : Sorted Z.le (sort node_set) ∧ sort node_set ≡ₚ node_set.
Proof.
  split; [|apply merge_sort_Permutation].
  apply Sorted_merge_sort. intros x y. lia.
Qed.

(** The four iterations of the topology loop. *)
Lemma add_topology_sections (d : loc) (node_sets_geo : buckets) (st : store) :
  is_Some (decks st !! d) →
  ∃ st', add_topology d node_sets_geo st = Ok st'
    ∧ dicts st' = dicts st
    ∧ (∀ geo name label,
         (geo, name, label) ∈ name_geometry_tuple →
         section_of st' d name
         = if decide (node_sets_geo geo = []) then section_of st d name
           else Some (SList (topology_records label 0 (node_sets_geo geo))))
    ∧ (∀ s, s ∉ (λ t, t.1.2) <$> name_geometry_tuple →
            section_of st' d s = section_of st d s)
    ∧ (∀ d', d' ≠ d → decks st' !! d' = decks st !! d').
Proof.
  intros Hd0. unfold add_topology, name_geometry_tuple.
  destruct (topology_step_Ok d node_sets_geo st vertex
              "DNODE-NODE TOPOLOGY" "DNODE" Hd0)
    as (st1 & Hr1 & Hd1 & Hs1 & Hh1 & Hf1 & Hk1).
  destruct (topology_step_Ok d node_sets_geo st1 curve
              "DLINE-NODE TOPOLOGY" "DLINE" Hd1)
    as (st2 & Hr2 & Hd2 & Hs2 & Hh2 & Hf2 & Hk2).
  destruct (topology_step_Ok d node_sets_geo st2 surface
              "DSURF-NODE TOPOLOGY" "DSURFACE" Hd2)
    as (st3 & Hr3 & Hd3 & Hs3 & Hh3 & Hf3 & Hk3).
  destruct (topology_step_Ok d node_sets_geo st3 volume
              "DVOL-NODE TOPOLOGY" "DVOL" Hd3)
    as (st4 & Hr4 & Hd4 & Hs4 & Hh4 & Hf4 & Hk4).
  exists st4. split.
  { rewrite for_each_cons, Hr1, bind_Ok_l, for_each_cons, Hr2, bind_Ok_l.
    rewrite for_each_cons, Hr3, bind_Ok_l, for_each_cons, Hr4. reflexivity. }
  split; [congruence|]. split; [|split].
  - intros geo name label Hin.
    repeat (apply elem_of_cons in Hin as [[= -> -> ->]|Hin]).
    + rewrite Hf4, Hf3, Hf2 by done. exact Hs1.
    + rewrite Hf4, Hf3 by done. rewrite Hs2. by rewrite Hf1.
    + rewrite Hf4 by done. rewrite Hs3. by rewrite Hf2, Hf1.
    + rewrite Hs4. by rewrite Hf3, Hf2, Hf1.
    + by apply elem_of_nil in Hin.
  - intros s Hs. simpl in Hs.
    rewrite Hf4, Hf3, Hf2, Hf1; [done|..]; intros ->; apply Hs; set_solver.
  - intros d' Hne. by rewrite Hk4, Hk3, Hk2, Hk1.
Qed.

Lemma sort_length (node_set : list Z) : length (sort node_set) = length node_set.
Proof. unfold sort. by rewrite merge_sort_Permutation. Qed.

Lemma topology_records_length label a (sets : list (list Z)) :
  length (topology_records label a sets) = length (concat sets).
Proof.
  revert a. induction sets as [|node_set sets IH]; intros a; [done|].
  simpl. rewrite !length_app, IH. unfold set_records.
  by rewrite length_fmap, sort_length.
Qed.

(** The record of the node at place [j] of the sorted set number [i]
    stands behind the records of the sets before it. *)
Lemma topology_records_lookup label a (sets : list (list Z)) i node_set j i_node :
  sets !! i = Some node_set →
  sort node_set !! j = Some i_node →
  topology_records label a sets !! (length (concat (take i sets)) + j)
  = Some (topology_record i_node label (a + i)).
Proof.
  revert a i. induction sets as [|set0 sets IH]; intros a i Hi Hj; [done|].
  destruct i as [|i]; simpl in Hi.
  - injection Hi as ->. simpl. rewrite Nat.add_0_r.
    rewrite lookup_app_l.
    + unfold set_records. by rewrite list_lookup_fmap, Hj.
    + unfold set_records. rewrite length_fmap. by eapply lookup_lt_Some.
  - simpl. rewrite length_app, <-Nat.add_assoc.
    rewrite lookup_app_r; unfold set_records; rewrite length_fmap, sort_length; [|lia].
    replace (length set0 + (length (concat (take i sets)) + j) - length set0)
      with (length (concat (take i sets)) + j) by lia.
    replace (a + S i) with (S a + i) by lia. by apply IH.
Qed.

(** C3: every bucket that has a set gets its topology section, holding
    for each set in bucket order one record per node in ascending node
    order, with the type NODE, the node, the set label and the 1-based
    number of the set; the section of an empty bucket is left as it was,
    so it stays absent when it was absent; nothing else changes. *)
Theorem add_topology_spec (d : loc) (node_sets_geo : buckets) (st : store) :
  is_Some (decks st !! d) →
  ∃ st', add_topology d node_sets_geo st = Ok st'
    ∧ dicts st' = dicts st
    ∧ (∀ geo name label,
         (geo, name, label) ∈ name_geometry_tuple →
         section_of st' d name
         = if decide (node_sets_geo geo = []) then section_of st d name
           else Some (SList (topology_records label 0 (node_sets_geo geo))))
    ∧ (∀ s, s ∉ (λ t, t.1.2) <$> name_geometry_tuple →
            section_of st' d s = section_of st d s)
    ∧ (∀ d', d' ≠ d → decks st' !! d' = decks st !! d')
    ∧ (∀ node_set, Sorted Z.le (sort node_set) ∧ sort node_set ≡ₚ node_set)
    ∧ topology_records "DLINE" 0 [[5; 3]; [4]]%Z
      = [ topology_record 3 "DLINE" 0; topology_record 5 "DLINE" 0;
          topology_record 4 "DLINE" 1 ]
    ∧ (∀ geo name label,
         (geo, name, label)
           ∈ [ (vertex, "DNODE-NODE TOPOLOGY", "DNODE");
               (curve, "DLINE-NODE TOPOLOGY", "DLINE");
               (surface, "DSURF-NODE TOPOLOGY", "DSURFACE");
               (volume, "DVOL-NODE TOPOLOGY", "DVOL") ] →
         (node_sets_geo geo = [] → section_of st' d name = section_of st d name)
         ∧ (node_sets_geo geo ≠ [] →
            ∃ records,
              section_of st' d name = Some (SList records)
              ∧ length records = length (concat (node_sets_geo geo))
              ∧ ∀ i node_set j i_node,
                  node_sets_geo geo !! i = Some node_set →
                  sort node_set !! j = Some i_node →
                  records !! (length (concat (take i (node_sets_geo geo))) + j)
                  = Some (EVal (VDict [ ("type", VStr "NODE");
                                        ("node_id", VInt i_node);
                                        ("d_type", VStr label);
                                        ("d_id", VInt (Z.of_nat i + 1)) ]))))
    ∧ topology_records "DLINE" 0 [[5; 3]; [4]]%Z
      = [ EVal (VDict [ ("type", VStr "NODE"); ("node_id", VInt 3);
                        ("d_type", VStr "DLINE"); ("d_id", VInt 1) ]);
          EVal (VDict [ ("type", VStr "NODE"); ("node_id", VInt 5);
                        ("d_type", VStr "DLINE"); ("d_id", VInt 1) ]);
          EVal (VDict [ ("type", VStr "NODE"); ("node_id", VInt 4);
                        ("d_type", VStr "DLINE"); ("d_id", VInt 2) ]) ].
Proof.
  intros Hd.
  destruct (add_topology_sections d node_sets_geo st Hd)
    as (st' & Hrun & Hh & Hsec & Hother & Hdecks).
  exists st'. repeat (split; [done|]). split; [apply sort_sorted|].
  split; [vm_compute; reflexivity|]. split; [|vm_compute; reflexivity].
  intros geo name label Hin.
  assert (Hin' : (geo, name, label) ∈ name_geometry_tuple) by exact Hin.
  specialize (Hsec geo name label Hin'). split.
  - intros Hnil. by rewrite Hsec, decide_True.
  - intros Hne. rewrite decide_False in Hsec by done.
    exists (topology_records label 0 (node_sets_geo geo)).
    split; [done|]. split; [apply topology_records_length|].
    intros i node_set j i_node Hi Hj.
    rewrite (topology_records_lookup label 0 _ i node_set j i_node Hi Hj).
    unfold topology_record.
    by replace (Z.of_nat (0 + i + 1)) with (Z.of_nat i + 1)%Z by lia.
Qed.

Lemma add_topology_spec_witness :
  ∃ st', add_topology 0 example_buckets empty_deck_store = Ok st'
    ∧ section_of st' 0 "DLINE-NODE TOPOLOGY"
      = Some (SList [ topology_record 3 "DLINE" 0; topology_record 5 "DLINE" 0;
                      topology_record 4 "DLINE" 1 ])
    ∧ section_of st' 0 "DNODE-NODE TOPOLOGY" = None
    ∧ entries (section_of st' 0 "DLINE-NODE TOPOLOGY") !! 2
      = Some (EVal (VDict [ ("type", VStr "NODE"); ("node_id", VInt 4);
                            ("d_type", VStr "DLINE"); ("d_id", VInt 2) ])).
Proof.
  destruct (add_topology_spec 0 example_buckets empty_deck_store)
    as (st' & Hrun & _ & Hsec & _ & _ & _ & Hex & Hfields & _).
  { vm_compute. eauto. }
  exists st'. split; [exact Hrun|]. split; [|split].
  - rewrite (Hsec curve "DLINE-NODE TOPOLOGY" "DLINE").
    + simpl. rewrite <-Hex. reflexivity.
    + apply list_elem_of_further, list_elem_of_here.
  - rewrite (Hsec vertex "DNODE-NODE TOPOLOGY" "DNODE").
    + reflexivity.
    + apply list_elem_of_here.
  - destruct (Hfields curve "DLINE-NODE TOPOLOGY" "DLINE") as [_ Hrecords].
    + apply list_elem_of_further, list_elem_of_here.
    + destruct Hrecords as (records & Hrecords & _ & Hat); [discriminate|].
      rewrite Hrecords. simpl.
      exact (Hat 1 [4%Z] 0 4%Z eq_refl eq_refl).
Defined.

(** ** Exodus ids *)

Lemma ids_loop_lookup names (l : list Z) start acc acc' :
  for_each (ids_step names) (enumerate_from start l) acc = Ok acc' →
  ∀ j, exo_id_to_cubit_id acc' !! j
       = if decide (start ≤ j < start + length l) then l !! (j - start)
         else exo_id_to_cubit_id acc !! j.
Proof.
  revert start acc. induction l as [|x l IH]; intros start acc Hrun j.
  - injection Hrun as <-. simpl. case_decide; [lia | done].
  - change (enumerate_from start (x :: l))
      with ((start, x) :: enumerate_from (S start) l) in Hrun.
    rewrite for_each_cons in Hrun. inv_bind Hrun.
    unfold ids_step in Ha. inv_bind Ha. injection Ha as <-.
    rewrite (IH _ _ Hrun j). simpl.
    repeat case_decide; try lia.
    + replace (j - start) with (S (j - S start)) by lia. done.
    + assert (j = start) as -> by lia. rewrite lookup_insert_eq.
      by replace (start - start) with 0 by lia.
    + rewrite lookup_insert_ne by lia. done.
Qed.

(** The third map of [_exo_to_cubit_ids] reads [<id>_prop1] by position. *)
Lemma exo_id_to_cubit_id_lookup exo entry_type ids :
  _exo_to_cubit_ids exo entry_type = Ok ids →
  ∃ prop1,
    int_array exo ((if decide (entry_type = "block") then "eb" else "ns") +:+ "_prop1")
    = Ok prop1
    ∧ ∀ j, exo_id_to_cubit_id ids !! j = prop1 !! j.
Proof.
  unfold _exo_to_cubit_ids. intros H. inv_bind H as ident Hident.
  assert (ident = if decide (entry_type = "block") then "eb" else "ns") as ->.
  { destruct (decide (entry_type = "block")); [congruence|].
    destruct (decide (entry_type = "nodeset")); [congruence | discriminate]. }
  inv_bind H as lines Hlines. inv_bind H as names Hnames.
  inv_bind H as prop1 Hprop1.
  exists prop1. split; [done|]. intros j.
  rewrite (ids_loop_lookup _ _ _ _ _ H j). simpl. rewrite lookup_empty.
  destruct (decide (0 ≤ j < length prop1)) as [Hj|Hj].
  - f_equal. lia.
  - symmetry. apply lookup_ge_None. lia.
Qed.

(** ** The node-set projector *)

Section NodeSetProperties.

Context {ElementType : Type}.
Implicit Types cubit : @CubitPy ElementType.

Lemma has_field_set st st' l key v dd :
  dicts st !! l = Some dd →
  dicts st' = <[l := dict_set key v dd]> (dicts st) →
  has_field st' l key v.
Proof.
  intros Hdd Hst'. exists (dict_set key v dd). rewrite Hst'.
  rewrite lookup_insert_eq. split; [done | apply dict_get_set].
Qed.

Lemma bucket_of_cons (r : NodeSet * list Z) rs g :
  bucket_of (r :: rs) g
  = (if decide (geometry_type r.1 = g) then [r.2] else []) ++ bucket_of rs g.
Proof.
  unfold bucket_of. rewrite filter_cons.
  by destruct (decide (geometry_type r.1 = g)).
Qed.

Lemma bucket_of_app (rs1 rs2 : list (NodeSet * list Z)) g :
  bucket_of (rs1 ++ rs2) g = bucket_of rs1 g ++ bucket_of rs2 g.
Proof. unfold bucket_of. by rewrite filter_app, fmap_app. Qed.

Lemma bc_records_cons (ns : NodeSet) nss s :
  bc_records (ns :: nss) s
  = (if bool_decide (bc_section ns = Some s) then [ERef (bc_description ns)] else [])
    ++ bc_records nss s.
Proof.
  unfold bc_records. rewrite filter_cons.
  destruct (decide (bc_section ns = Some s)) as [Hs|Hs].
  - by rewrite bool_decide_true.
  - by rewrite bool_decide_false.
Qed.

Lemma bc_created_cons (ns : NodeSet) nss s :
  bc_created (ns :: nss) s = bool_decide (bc_section ns = Some s) || bc_created nss s.
Proof.
  unfold bc_created. apply eq_true_iff_eq.
  rewrite orb_true_iff, !bool_decide_eq_true, Exists_cons. done.
Qed.

Lemma project_step_Ok cubit exo d ids prop1 b st j b' st' :
  (∀ i, exo_id_to_cubit_id ids !! i = prop1 !! i) →
  project_step cubit exo d ids (b, st) j = Ok (b', st') →
  ∃ ns nodes dd,
    node_set_at cubit exo prop1 j = Some (ns, nodes)
    ∧ b' = bucket_append b (geometry_type ns) nodes
    ∧ dicts st !! bc_description ns = Some dd
    ∧ dicts st'
      = <[bc_description ns :=
            dict_set "E" (VInt (Z.of_nat (S (length (b (geometry_type ns)))))) dd]>
          (dicts st)
    ∧ match bc_section ns with
      | Some sec =>
          extends d st st' (is_section sec) (only_in sec [ERef (bc_description ns)])
      | None => decks st' = decks st
      end.
Proof.
  intros Hids H. unfold project_step in H.
  inv_bind H as cubit_id Hid. apply getitem_Ok in Hid. rewrite Hids in Hid.
  inv_bind H as ns Hns. apply getitem_Ok in Hns.
  inv_bind H as nodes Hnodes.
  inv_bind H as st1 Hst1.
  apply dict_setitem_Ok in Hst1 as (Hdk1 & dd & Hdd & Hh1).
  exists ns, nodes, dd.
  assert (Hlen : length (bucket_append b (geometry_type ns) nodes (geometry_type ns))
                 = S (length (b (geometry_type ns)))).
  { unfold bucket_append. rewrite decide_True by done.
    rewrite length_app. simpl. lia. }
  rewrite Hlen in Hh1.
  split.
  { unfold node_set_at. rewrite Hid. simpl. rewrite Hns. simpl. by rewrite Hnodes. }
  destruct (bc_section ns) as [sec|].
  - inv_bind H as st2 Hst2. inv_bind H as st3 Hst3. injection H as <- <-.
    apply deck_setdefault_list_Ok in Hst2 as (Hh2 & He2).
    apply deck_append_Ok in Hst3 as (Hh3 & He3).
    split; [done|]. split; [done|]. split; [congruence|].
    apply (extends_decks_l _ _ st1); [done|].
    eapply extends_ext; [| |exact (extends_trans _ _ _ _ _ _ _ _ He2 He3)].
    + intros s. simpl. apply orb_diag.
    + intros s. done.
  - injection H as <- <-. done.
Qed.

Lemma project_loop_general cubit exo d ids prop1 js b st b' st' :
  (∀ i, exo_id_to_cubit_id ids !! i = prop1 !! i) →
  is_Some (decks st !! d) →
  for_each (project_step cubit exo d ids) js (b, st) = Ok (b', st') →
  Forall (λ j, is_Some (node_set_at cubit exo prop1 j)) js
  ∧ (∀ g, b' g = b g ++ bucket_of (node_sets_at cubit exo prop1 js) g)
  ∧ extends d st st' (bc_created (node_sets_at cubit exo prop1 js).*1)
      (bc_records (node_sets_at cubit exo prop1 js).*1)
  ∧ (∀ l, l ∉ (λ r, bc_description r.1) <$> node_sets_at cubit exo prop1 js →
          dicts st' !! l = dicts st !! l)
  ∧ (∀ l v, has_field st l "E" (VInt v) → ∃ v', has_field st' l "E" (VInt v'))
  ∧ (∀ l key v, key ≠ "E" → has_field st l key v → has_field st' l key v).
Proof.
  intros Hids. revert b st.
  induction js as [|j js IH]; intros b st Hd Hrun.
  - injection Hrun as <- <-. split; [apply Forall_nil_2|].
    split; [intros g; by rewrite app_nil_r|].
    split; [|split; [done|split; [eauto|done]]].
    eapply extends_ext; [| |exact (extends_refl d st Hd)]; done.
  - rewrite for_each_cons in Hrun. inv_bind Hrun as acc1 Hstep.
    destruct acc1 as [b1 st1].
    destruct (project_step_Ok _ _ _ _ _ _ _ _ _ _ Hids Hstep)
      as (ns & nodes & dd & Hat & Hb1 & Hdd & Hh1 & Hdk1).
    assert (Hext1 : extends d st st1
              (λ s, bool_decide (bc_section ns = Some s))
              (λ s, if bool_decide (bc_section ns = Some s)
                    then [ERef (bc_description ns)] else [])).
    { destruct (bc_section ns) as [sec|] eqn:Hsec.
      - eapply extends_ext; [| |exact Hdk1].
        + intros s. unfold is_section.
          apply eq_true_iff_eq. rewrite !bool_decide_eq_true. naive_solver.
        + intros s. unfold only_in.
          destruct (decide (s = sec)) as [->|Hs].
          * by rewrite !bool_decide_true.
          * rewrite !bool_decide_false; [done| |done]. congruence.
      - apply (extends_decks_r _ _ st); [done|].
        eapply extends_ext; [| |exact (extends_refl d st Hd)]; done. }
    assert (Hd1 : is_Some (decks st1 !! d)) by apply Hext1.
    destruct (IH b1 st1 Hd1 Hrun) as (Hall & Hb & Hext & Hframe & Hkeep & Hother).
    assert (Hrs : node_sets_at cubit exo prop1 (j :: js)
                  = (ns, nodes) :: node_sets_at cubit exo prop1 js).
    { unfold node_sets_at. simpl. by rewrite Hat. }
    rewrite Hrs. split; [|split; [|split; [|split; [|split]]]].
    + apply Forall_cons_2; [rewrite Hat; eauto | done].
    + intros g. rewrite Hb, Hb1, bucket_of_cons. simpl.
      unfold bucket_append. destruct (decide (g = geometry_type ns)) as [->|Hg].
      * rewrite decide_True by done. by rewrite <-app_assoc.
      * rewrite decide_False by congruence. done.
    + eapply extends_ext; [| |exact (extends_trans _ _ _ _ _ _ _ _ Hext1 Hext)].
      * intros s. by rewrite fmap_cons, bc_created_cons.
      * intros s. by rewrite fmap_cons, bc_records_cons.
    + intros l Hl. rewrite fmap_cons in Hl. simpl in Hl.
      apply not_elem_of_cons in Hl as [Hne Hl].
      rewrite (Hframe l Hl), Hh1. by rewrite lookup_insert_ne.
    + intros l v (dd0 & Hdd0 & Hget).
      destruct (decide (l = bc_description ns)) as [->|Hne].
      * eapply Hkeep. exact (has_field_set st st1 _ "E" _ dd Hdd Hh1).
      * eapply Hkeep. exists dd0. split; [|done].
        rewrite Hh1. by rewrite lookup_insert_ne.
    + intros l key v Hkey (dd0 & Hdd0 & Hget). apply Hother; [done|].
      destruct (decide (l = bc_description ns)) as [->|Hne].
      * exists (dict_set "E" (VInt (Z.of_nat (S (length (b (geometry_type ns)))))) dd).
        rewrite Hh1, lookup_insert_eq. split; [done|].
        rewrite dict_get_set_ne by done. congruence.
      * exists dd0. split; [|done]. rewrite Hh1. by rewrite lookup_insert_ne.
Qed.

Lemma positional_index_S cubit exo prop1 k ns nodes g :
  node_set_at cubit exo prop1 k = Some (ns, nodes) →
  positional_index cubit exo prop1 (S k) g
  = if decide (geometry_type ns = g) then S (positional_index cubit exo prop1 k g)
    else positional_index cubit exo prop1 k g.
Proof.
  intros Hat. unfold positional_index, node_sets_at.
  rewrite seq_S, omap_app. simpl. rewrite Hat, bucket_of_app, length_app.
  rewrite bucket_of_cons. simpl.
  destruct (decide (geometry_type ns = g)); simpl; lia.
Qed.

Lemma node_set_at_size cubit exo prop1 k r :
  node_set_at cubit exo prop1 k = Some r → size (node_sets cubit) ≠ 0.
Proof.
  unfold node_set_at. intros Hat.
  destruct (prop1 !! k) as [cubit_id|]; [simpl in Hat | discriminate].
  destruct (node_sets cubit !! cubit_id) eqn:Hns; [|discriminate].
  by eapply map_size_ne_0_lookup_2.
Qed.

End NodeSetProperties.

Lemma add_topology_deck d (node_sets_geo : buckets) st st' :
  is_Some (decks st !! d) → add_topology d node_sets_geo st = Ok st' →
  is_Some (decks st' !! d).
Proof.
  intros Hd0 Hrun. unfold add_topology, name_geometry_tuple in Hrun.
  destruct (topology_step_Ok d node_sets_geo st vertex
              "DNODE-NODE TOPOLOGY" "DNODE" Hd0) as (st1 & Hr1 & Hd1 & _).
  destruct (topology_step_Ok d node_sets_geo st1 curve
              "DLINE-NODE TOPOLOGY" "DLINE" Hd1) as (st2 & Hr2 & Hd2 & _).
  destruct (topology_step_Ok d node_sets_geo st2 surface
              "DSURF-NODE TOPOLOGY" "DSURFACE" Hd2) as (st3 & Hr3 & Hd3 & _).
  destruct (topology_step_Ok d node_sets_geo st3 volume
              "DVOL-NODE TOPOLOGY" "DVOL" Hd3) as (st4 & Hr4 & Hd4 & _).
  rewrite for_each_cons, Hr1, bind_Ok_l, for_each_cons, Hr2, bind_Ok_l in Hrun.
  rewrite for_each_cons, Hr3, bind_Ok_l, for_each_cons, Hr4 in Hrun.
  injection Hrun as <-. done.
Qed.

Lemma topology_step_no_deck d (node_sets_geo : buckets) st t st' :
  decks st !! d = None → topology_step d node_sets_geo st t = Ok st' → st' = st.
Proof.
  intros Hd. destruct t as [[geo name] label]. unfold topology_step.
  destruct (decide (0 < length (node_sets_geo geo))); [|congruence].
  unfold deck_setitem, getitem. rewrite Hd. discriminate.
Qed.

Lemma add_topology_dicts d (node_sets_geo : buckets) st st' :
  add_topology d node_sets_geo st = Ok st' → dicts st' = dicts st.
Proof.
  intros Hrun. destruct (decks st !! d) as [dk|] eqn:Hd.
  - destruct (add_topology_sections d node_sets_geo st)
      as (st'' & Hrun' & Hh & _); [eauto|].
    congruence.
  - unfold add_topology, name_geometry_tuple in Hrun.
    repeat (rewrite for_each_cons in Hrun;
            let s := fresh "s" in let Hs := fresh "Hs" in
            inv_bind Hrun as s Hs;
            apply (topology_step_no_deck _ _ _ _ _ Hd) in Hs; subst s).
    injection Hrun as <-. done.
Qed.

Section NodeSetClaims.

Context {ElementType : Type}.
Implicit Types cubit : @CubitPy ElementType.

(** The two phases of [add_node_sets_input_file] when the session has
    node sets. *)
Lemma add_node_sets_input_file_Ok cubit exo d st st' prop1 :
  size (node_sets cubit) ≠ 0 →
  int_array exo "ns_prop1" = Ok prop1 →
  add_node_sets_input_file cubit exo d st = Ok st' →
  ∃ ids b st1,
    _exo_to_cubit_ids exo "nodeset" = Ok ids
    ∧ (∀ i, exo_id_to_cubit_id ids !! i = prop1 !! i)
    ∧ project_loop cubit exo d ids (seq 0 (length prop1)) st = Ok (b, st1)
    ∧ add_topology d b st1 = Ok st'.
Proof.
  intros Hsize Hprop1 H. unfold add_node_sets_input_file in H.
  rewrite decide_False in H by done.
  inv_bind H as ids Hids. rewrite Hprop1 in H. rewrite bind_Ok_l in H.
  inv_bind H as acc Hloop. destruct acc as [b st1].
  exists ids, b, st1. split; [done|]. split; [|done].
  destruct (exo_id_to_cubit_id_lookup _ _ _ Hids) as (prop1' & Hprop1' & Hl).
  rewrite decide_False in Hprop1' by done.
  change ("ns" +:+ "_prop1") with "ns_prop1" in Hprop1'.
  assert (prop1' = prop1) as -> by congruence. done.
Qed.

Lemma node_set_at_lt cubit exo prop1 k r :
  node_set_at cubit exo prop1 k = Some r → k < length prop1.
Proof.
  unfold node_set_at. destruct (prop1 !! k) eqn:Hk; [|discriminate].
  intros _. by eapply lookup_lt_Some.
Qed.

(** The run of the projector loop cut at exchange index [k]. *)
Lemma project_loop_split cubit exo d ids prop1 n k ns nodes st b st' :
  (∀ i, exo_id_to_cubit_id ids !! i = prop1 !! i) →
  is_Some (decks st !! d) →
  k < n →
  node_set_at cubit exo prop1 k = Some (ns, nodes) →
  project_loop cubit exo d ids (seq 0 n) st = Ok (b, st') →
  ∃ b_k st_k,
    project_loop cubit exo d ids (seq 0 (S k)) st = Ok (b_k, st_k)
    ∧ is_Some (decks st_k !! d)
    ∧ has_field st_k (bc_description ns) "E"
        (VInt (Z.of_nat (positional_index cubit exo prop1 k (geometry_type ns))))
    ∧ for_each (project_step cubit exo d ids) (seq (S k) (n - S k)) (b_k, st_k)
      = Ok (b, st').
Proof.
  intros Hids Hd Hk Hat Hrun. unfold project_loop in *.
  replace n with (k + S (n - S k)) in Hrun by lia.
  rewrite seq_app, for_each_app in Hrun.
  inv_bind Hrun as acc1 Hrun1. destruct acc1 as [b1 st1].
  change (seq (0 + k) (S (n - S k))) with (k :: seq (S k) (n - S k)) in Hrun.
  rewrite for_each_cons in Hrun.
  inv_bind Hrun as acc2 Hstep. destruct acc2 as [b2 st2].
  destruct (project_loop_general _ _ _ _ _ _ _ _ _ _ Hids Hd Hrun1)
    as (_ & Hb1 & Hext1 & _).
  destruct (project_step_Ok _ _ _ _ _ _ _ _ _ _ Hids Hstep)
    as (ns0 & nodes0 & dd & Hat0 & Hb2 & Hdd & Hh2 & Hdk2).
  rewrite Hat in Hat0. injection Hat0 as <- <-.
  exists b2, st2. split; [|split; [|split]].
  - rewrite seq_S, for_each_snoc, Hrun1. exact Hstep.
  - destruct (bc_section ns).
    + apply Hdk2.
    + rewrite Hdk2. apply Hext1.
  - eapply has_field_set; [exact Hdd|]. rewrite Hh2. do 4 f_equal.
    unfold positional_index. rewrite Hb1. done.
  - replace (k + S (n - S k) - S k) with (n - S k) by lia. exact Hrun.
Qed.

(** C2: the value written under [E] for the node set at exchange index
    [k] is its position among the node sets of its geometry type: the
    positions start at 1 and go up by one from each set of the type to the
    next one in exchange-index order, whether or not a set has a
    boundary-condition section.  It is what the description holds after
    iteration [k], and at the end of the call unless a later node set
    shares the description object. *)
Theorem add_node_sets_input_file_positional cubit exo d st st' prop1 k ns nodes :
  int_array exo "ns_prop1" = Ok prop1 →
  is_Some (decks st !! d) →
  add_node_sets_input_file cubit exo d st = Ok st' →
  node_set_at cubit exo prop1 k = Some (ns, nodes) →
  (∃ ids b_k st_k,
     _exo_to_cubit_ids exo "nodeset" = Ok ids
     ∧ project_loop cubit exo d ids (seq 0 (S k)) st = Ok (b_k, st_k)
     ∧ has_field st_k (bc_description ns) "E"
         (VInt (Z.of_nat (positional_index cubit exo prop1 k (geometry_type ns)))))
  ∧ ((∀ j ns' nodes', k < j →
        node_set_at cubit exo prop1 j = Some (ns', nodes') →
        bc_description ns' ≠ bc_description ns) →
     has_field st' (bc_description ns) "E"
       (VInt (Z.of_nat (positional_index cubit exo prop1 k (geometry_type ns)))))
  ∧ (∀ g, positional_index cubit exo prop1 0 g = 1)
  ∧ (∀ g, positional_index cubit exo prop1 (S k) g
          = if decide (geometry_type ns = g)
            then S (positional_index cubit exo prop1 k g)
            else positional_index cubit exo prop1 k g).
Proof.
  intros Hprop1 Hd Hrun Hat.
  pose proof (node_set_at_size _ _ _ _ _ Hat) as Hsize.
  destruct (add_node_sets_input_file_Ok _ _ _ _ _ _ Hsize Hprop1 Hrun)
    as (ids & b & st1 & Hids & Hl & Hloop & Htopo).
  pose proof (node_set_at_lt _ _ _ _ _ Hat) as Hk.
  destruct (project_loop_split _ _ _ _ _ _ _ _ _ _ _ _ Hl Hd Hk Hat Hloop)
    as (b_k & st_k & Hprefix & Hdk & HE & Hrest).
  split; [by exists ids, b_k, st_k|].
  split; [|split; [done | intros g; by eapply positional_index_S]].
  intros Hdistinct.
  destruct (project_loop_general _ _ _ _ _ _ _ _ _ _ Hl Hdk Hrest)
    as (_ & _ & _ & Hframe & _).
  destruct HE as (dd & Hdd & Hget). exists dd. split; [|done].
  rewrite (add_topology_dicts _ _ _ _ Htopo), Hframe; [done|].
  intros Hin. apply list_elem_of_fmap in Hin as ([ns' nodes'] & Heq & Hin).
  apply list_elem_of_omap in Hin as (j & Hj & Hatj).
  apply elem_of_seq in Hj. apply (Hdistinct j ns' nodes'); [lia | done | done].
Qed.

(** C10: after the call the description of every node set of the
    registry that the file holds carries an integer under [E], with or
    without a boundary-condition section; it is the dictionary the
    registry refers to that is written, whatever it held under [E]
    before; every other field of every description is kept. *)
Theorem add_node_sets_input_file_writes_E cubit exo d st st' prop1 :
  int_array exo "ns_prop1" = Ok prop1 →
  is_Some (decks st !! d) →
  add_node_sets_input_file cubit exo d st = Ok st' →
  (∀ cubit_id ns,
     node_sets cubit !! cubit_id = Some ns →
     cubit_id ∈ prop1 →
     ∃ v, has_field st' (bc_description ns) "E" (VInt v))
  ∧ (∀ l key v, key ≠ "E" → has_field st l key v → has_field st' l key v).
Proof.
  intros Hprop1 Hd Hrun.
  destruct (decide (size (node_sets cubit) = 0)) as [Hsize|Hsize].
  { apply map_size_empty_inv in Hsize. split.
    - intros cubit_id ns Hns. rewrite Hsize, lookup_empty in Hns. discriminate.
    - unfold add_node_sets_input_file in Hrun.
      rewrite decide_True in Hrun by (rewrite Hsize; apply map_size_empty).
      injection Hrun as <-. done. }
  destruct (add_node_sets_input_file_Ok _ _ _ _ _ _ Hsize Hprop1 Hrun)
    as (ids & b & st1 & Hids & Hl & Hloop & Htopo).
  pose proof (add_topology_dicts _ _ _ _ Htopo) as Hh.
  destruct (project_loop_general _ _ _ _ _ _ _ _ _ _ Hl Hd Hloop)
    as (Hall & _ & _ & _ & _ & Hother).
  split.
  - intros cubit_id ns Hns Hin.
    apply list_elem_of_lookup in Hin as [k Hk].
    pose proof (lookup_lt_Some _ _ _ Hk) as Hlt.
    assert (Hsome : is_Some (node_set_at cubit exo prop1 k)).
    { rewrite Forall_forall in Hall. apply Hall, elem_of_seq. lia. }
    destruct Hsome as [[ns0 nodes] Hat].
    assert (ns0 = ns) as ->.
    { unfold node_set_at in Hat. rewrite Hk in Hat. simpl in Hat.
      rewrite Hns in Hat. simpl in Hat.
      destruct (int_array exo ("node_ns" +:+ pretty (k + 1))); [|discriminate].
      congruence. }
    destruct (project_loop_split _ _ _ _ _ _ _ _ _ _ _ _ Hl Hd Hlt Hat Hloop)
      as (b_k & st_k & _ & Hdk & HE & Hrest).
    destruct (project_loop_general _ _ _ _ _ _ _ _ _ _ Hl Hdk Hrest)
      as (_ & _ & _ & _ & Hkeep & _).
    destruct (Hkeep _ _ HE) as (v & dd & Hdd & Hget).
    exists v, dd. by rewrite Hh.
  - intros l key v Hkey Hf. destruct (Hother l key v Hkey Hf) as (dd & Hdd & Hget).
    exists dd. by rewrite Hh.
Qed.

End NodeSetClaims.

(** ** The example session *)

Example example_projected_line_section :
  section_of example_projected 0 "DESIGN LINE DIRICH CONDITIONS" = Some (SList [ERef 2])
  ∧ section_of example_projected 0 "DLINE-NODE TOPOLOGY"
    = Some (SList [ topology_record 3 "DLINE" 0; topology_record 5 "DLINE" 0;
                    topology_record 4 "DLINE" 1 ])
  ∧ dicts example_projected !! 2 = Some [("NUMDOF", VInt 3); ("E", VInt 2)]
  ∧ dicts example_projected !! 1 = Some [("E", VInt 1)].
Proof. vm_compute. repeat split. Qed.

Lemma add_node_sets_input_file_positional_witness :
  has_field example_projected 2 "E" (VInt 2).
Proof.
  refine (proj1 (proj2 (add_node_sets_input_file_positional example_cubit example_exo 0
            example_store example_projected [7; 3; 5]%Z 1 example_line_dirichlet [4]%Z
            _ _ _ _)) _).
  - vm_compute. reflexivity.
  - vm_compute. eauto.
  - vm_compute. reflexivity.
  - vm_compute. reflexivity.
  - intros j ns' nodes' Hj Hat.
    destruct j as [|[|[|j]]]; [lia | lia | |].
    + vm_compute in Hat. injection Hat as <- _. discriminate.
    + vm_compute in Hat. discriminate.
Defined.

Lemma add_node_sets_input_file_writes_E_witness :
  bc_section example_line_without_bc = None
  ∧ ∃ v, has_field example_projected (bc_description example_line_without_bc) "E" (VInt v).
Proof.
  split; [reflexivity|].
  destruct (add_node_sets_input_file_writes_E example_cubit example_exo 0
              example_store example_projected [7; 3; 5]%Z) as [HE _].
  - vm_compute. reflexivity.
  - vm_compute. eauto.
  - vm_compute. reflexivity.
  - apply (HE 7%Z example_line_without_bc); [reflexivity | apply list_elem_of_here].
Defined.

(** ** Node sets of an external mesh *)

Section ExternalGeometry.

Context {ElementType : Type}.
Implicit Types cubit : @CubitPy ElementType.

Lemma external_step_Ok cubit d st node_set_id st' :
  external_step cubit d st node_set_id = Ok st' →
  ∃ ns, node_sets cubit !! node_set_id = Some ns
    ∧ match bc_section ns with
      | Some sec =>
          (∃ dd, dicts st !! bc_description ns = Some dd
             ∧ dicts st'
               = <[bc_description ns :=
                     dict_set "ENTITY_TYPE" (VStr "node_set_id")
                       (dict_set "E" (VInt node_set_id) dd)]> (dicts st))
          ∧ extends d st st' (is_section sec) (only_in sec [ERef (bc_description ns)])
      | None => st' = st
      end.
Proof.
  unfold external_step. intros H.
  inv_bind H as ns Hns. apply getitem_Ok in Hns. exists ns. split; [done|].
  destruct (bc_section ns) as [sec|]; [|by injection H].
  inv_bind H as st1 Hst1. inv_bind H as st2 Hst2. inv_bind H as st3 Hst3.
  apply dict_setitem_Ok in Hst1 as (Hdk1 & dd & Hdd & Hh1).
  apply deck_setdefault_list_Ok in Hst2 as (Hh2 & He2).
  apply dict_setitem_Ok in Hst3 as (Hdk3 & dd3 & Hdd3 & Hh3).
  apply deck_append_Ok in H as (Hh4 & He4).
  split.
  - exists dd. split; [done|].
    rewrite Hh2, Hh1, lookup_insert_eq in Hdd3. injection Hdd3 as <-.
    rewrite Hh4, Hh3, Hh2, Hh1. by rewrite insert_insert_eq.
  - apply (extends_decks_l _ _ st1); [done|].
    pose proof (extends_decks_l d st2 st3 st' _ _ (eq_sym Hdk3) He4) as He4'.
    eapply extends_ext; [| |exact (extends_trans _ _ _ _ _ _ _ _ He2 He4')].
    + intros s. simpl. apply orb_diag.
    + intros s. done.
Qed.

Lemma written_cons (ns : NodeSet) nss :
  written (ns :: nss)
  = (if bool_decide (is_Some (bc_section ns)) then [bc_description ns] else [])
    ++ written nss.
Proof.
  unfold written. rewrite filter_cons.
  destruct (decide (is_Some (bc_section ns))) as [Hs|Hs].
  - by rewrite bool_decide_true.
  - by rewrite bool_decide_false.
Qed.

Lemma external_loop_general cubit d ids st st' :
  is_Some (decks st !! d) →
  for_each (external_step cubit d) ids st = Ok st' →
  Forall (λ node_set_id, is_Some (node_sets cubit !! node_set_id)) ids
  ∧ extends d st st' (bc_created (registered cubit ids)) (bc_records (registered cubit ids))
  ∧ (∀ l, l ∉ written (registered cubit ids) → dicts st' !! l = dicts st !! l)
  ∧ (∀ l, has_field st l "ENTITY_TYPE" (VStr "node_set_id") →
          has_field st' l "ENTITY_TYPE" (VStr "node_set_id")).
Proof.
  revert st. induction ids as [|node_set_id ids IH]; intros st Hd Hrun.
  - injection Hrun as <-. split; [apply Forall_nil_2|].
    split; [|done]. eapply extends_ext; [| |exact (extends_refl d st Hd)]; done.
  - rewrite for_each_cons in Hrun. inv_bind Hrun as st1 Hstep.
    destruct (external_step_Ok _ _ _ _ _ Hstep) as (ns & Hns & Hcase).
    assert (Hreg : registered cubit (node_set_id :: ids) = ns :: registered cubit ids).
    { unfold registered. simpl. by rewrite Hns. }
    assert (Hext1 : extends d st st1
              (λ s, bool_decide (bc_section ns = Some s))
              (λ s, if bool_decide (bc_section ns = Some s)
                    then [ERef (bc_description ns)] else [])).
    { destruct (bc_section ns) as [sec|] eqn:Hsec.
      - destruct Hcase as [_ Hext]. eapply extends_ext; [| |exact Hext].
        + intros s. unfold is_section.
          apply eq_true_iff_eq. rewrite !bool_decide_eq_true. naive_solver.
        + intros s. unfold only_in.
          destruct (decide (s = sec)) as [->|Hs].
          * by rewrite !bool_decide_true.
          * rewrite !bool_decide_false; [done| |done]. congruence.
      - subst st1. eapply extends_ext; [| |exact (extends_refl d st Hd)]; done. }
    assert (Hd1 : is_Some (decks st1 !! d)) by apply Hext1.
    destruct (IH st1 Hd1 Hrun) as (Hall & Hext & Hframe & Hkeep).
    rewrite Hreg. split; [|split; [|split]].
    + apply Forall_cons_2; [eauto | done].
    + eapply extends_ext; [| |exact (extends_trans _ _ _ _ _ _ _ _ Hext1 Hext)].
      * intros s. by rewrite bc_created_cons.
      * intros s. by rewrite bc_records_cons.
    + intros l Hl. rewrite written_cons in Hl.
      apply not_elem_of_app in Hl as [Hl1 Hl2]. rewrite (Hframe l Hl2).
      destruct (bc_section ns) as [sec|]; [|by subst st1].
      destruct Hcase as [(dd & Hdd & ->) _].
      rewrite bool_decide_true in Hl1 by eauto.
      apply not_elem_of_cons in Hl1 as [Hne _]. by rewrite lookup_insert_ne.
    + intros l (dd0 & Hdd0 & Hget). apply Hkeep.
      destruct (bc_section ns) as [sec|]; [|subst st1; by exists dd0].
      destruct Hcase as [(dd & Hdd & Hh1) _].
      destruct (decide (l = bc_description ns)) as [->|Hne].
      * eexists. rewrite Hh1, lookup_insert_eq. split; [done | apply dict_get_set].
      * exists dd0. split; [|done]. rewrite Hh1. by rewrite lookup_insert_ne.
Qed.

Lemma node_set_keys_sorted_spec cubit :
  Sorted Z.le (node_set_keys_sorted cubit)
  ∧ NoDup (node_set_keys_sorted cubit)
  ∧ ∀ node_set_id,
      node_set_id ∈ node_set_keys_sorted cubit ↔ is_Some (node_sets cubit !! node_set_id).
Proof.
  unfold node_set_keys_sorted. split; [|split].
  - apply Sorted_merge_sort. intros x y. lia.
  - rewrite merge_sort_Permutation. apply NoDup_elements.
  - intros node_set_id. rewrite merge_sort_Permutation, elem_of_elements.
    apply elem_of_dom.
Qed.

End ExternalGeometry.

Lemma sorted_after (l1 l2 : list Z) (x y : Z) :
  Sorted Z.le (l1 ++ x :: l2) → NoDup (l1 ++ x :: l2) → y ∈ l2 → (x < y)%Z.
Proof.
  intros Hsorted Hnodup Hy.
  apply (Sorted_StronglySorted _) in Hsorted.
  apply StronglySorted_app in Hsorted as (_ & _ & Hsorted).
  apply StronglySorted_cons in Hsorted as [Hle _].
  rewrite Forall_forall in Hle. specialize (Hle y Hy).
  apply NoDup_app in Hnodup as (_ & _ & Hnodup).
  apply NoDup_cons in Hnodup as [Hx _].
  assert (x ≠ y) by (intros ->; done). lia.
Qed.

Section ExternalGeometryClaim.

Context {ElementType : Type}.
Implicit Types cubit : @CubitPy ElementType.

(** C6: the node sets are taken in ascending order of their cubit ids;
    each one with a boundary-condition section appends one reference to
    its description to that section, created on first use, and nothing
    else is appended or created.  When the reference is appended the
    description carries [E] = the cubit id of the set and
    [ENTITY_TYPE = "node_set_id"]; at the end of the call it still does,
    [E] unless a node set with a greater id shares the dictionary; no
    other description changes. *)
Theorem add_node_sets_external_geometry_spec cubit d st st' :
  is_Some (decks st !! d) →
  add_node_sets_external_geometry cubit d st = Ok st' →
  (Sorted Z.le (node_set_keys_sorted cubit)
   ∧ NoDup (node_set_keys_sorted cubit)
   ∧ ∀ node_set_id, node_set_id ∈ node_set_keys_sorted cubit
                    ↔ is_Some (node_sets cubit !! node_set_id))
  ∧ extends d st st'
      (bc_created (registered cubit (node_set_keys_sorted cubit)))
      (bc_records (registered cubit (node_set_keys_sorted cubit)))
  ∧ (∀ node_set_id ns sec,
       node_sets cubit !! node_set_id = Some ns →
       bc_section ns = Some sec →
       (∃ before after st_k,
          node_set_keys_sorted cubit = before ++ node_set_id :: after
          ∧ for_each (external_step cubit d) (before ++ [node_set_id]) st = Ok st_k
          ∧ last (entries (section_of st_k d sec)) = Some (ERef (bc_description ns))
          ∧ has_field st_k (bc_description ns) "E" (VInt node_set_id)
          ∧ has_field st_k (bc_description ns) "ENTITY_TYPE" (VStr "node_set_id"))
       ∧ has_field st' (bc_description ns) "ENTITY_TYPE" (VStr "node_set_id")
       ∧ ((∀ id' ns', (node_set_id < id')%Z →
             node_sets cubit !! id' = Some ns' →
             is_Some (bc_section ns') →
             bc_description ns' ≠ bc_description ns) →
          has_field st' (bc_description ns) "E" (VInt node_set_id)))
  ∧ (∀ l, l ∉ written (registered cubit (node_set_keys_sorted cubit)) →
          dicts st' !! l = dicts st !! l).
Proof.
  intros Hd Hrun.
  pose proof (node_set_keys_sorted_spec cubit) as (Hsorted & Hnodup & Hkeys).
  split; [done|]. unfold add_node_sets_external_geometry in Hrun.
  destruct (decide (size (node_sets cubit) = 0)) as [Hsize|Hsize].
  - injection Hrun as <-. apply map_size_empty_inv in Hsize.
    assert (Hnil : node_set_keys_sorted cubit = []).
    { unfold node_set_keys_sorted. rewrite Hsize, dom_empty_L, elements_empty. done. }
    rewrite Hnil. split; [|split; [|done]].
    + eapply extends_ext; [| |exact (extends_refl d st Hd)]; done.
    + intros node_set_id ns sec Hns. rewrite Hsize, lookup_empty in Hns. discriminate.
  - destruct (external_loop_general _ _ _ _ _ Hd Hrun) as (_ & Hext & Hframe & _).
    split; [done|]. split; [|done].
    intros node_set_id ns sec Hns Hsec.
    assert (Hin : node_set_id ∈ node_set_keys_sorted cubit) by (apply Hkeys; eauto).
    apply list_elem_of_split in Hin as (l1 & l2 & Hsplit).
    rewrite Hsplit in Hrun, Hsorted, Hnodup.
    rewrite for_each_app in Hrun. inv_bind Hrun as st1 Hrun1.
    rewrite for_each_cons in Hrun. inv_bind Hrun as st2 Hstep.
    destruct (external_loop_general _ _ _ _ _ Hd Hrun1) as (_ & Hext1 & _).
    assert (Hd1 : is_Some (decks st1 !! d)) by apply Hext1.
    destruct (external_step_Ok _ _ _ _ _ Hstep) as (ns0 & Hns0 & Hcase).
    rewrite Hns in Hns0. injection Hns0 as <-. rewrite Hsec in Hcase.
    destruct Hcase as [(dd & Hdd & Hh2) Hext2].
    assert (Hd2 : is_Some (decks st2 !! d)) by apply Hext2.
    destruct (external_loop_general _ _ _ _ _ Hd2 Hrun) as (_ & _ & Hframe2 & Hkeep2).
    assert (HE2 : has_field st2 (bc_description ns) "E" (VInt node_set_id)).
    { eexists. rewrite Hh2, lookup_insert_eq. split; [done|].
      rewrite dict_get_set_ne by done. apply dict_get_set. }
    assert (HT2 : has_field st2 (bc_description ns) "ENTITY_TYPE" (VStr "node_set_id")).
    { eexists. rewrite Hh2, lookup_insert_eq. split; [done | apply dict_get_set]. }
    split; [|split].
    + exists l1, l2, st2. split; [done|]. split.
      { rewrite for_each_snoc, Hrun1. exact Hstep. }
      split; [|done].
      destruct Hext2 as (_ & _ & Hgrow & Hadded & _).
      specialize (Hgrow sec). specialize (Hadded sec).
      unfold is_section, only_in in Hgrow, Hadded.
      rewrite bool_decide_true in Hgrow, Hadded by done.
      destruct Hadded as [_ Hnodict]; [done|]. rewrite Hgrow.
      destruct (section_of st1 d sec) as [[old|dd0]|]; simpl.
      * apply last_snoc.
      * by destruct (Hnodict dd0).
      * done.
    + by apply Hkeep2.
    + intros Hdistinct. destruct HE2 as (dd2 & Hdd2 & Hget).
      exists dd2. split; [|done]. rewrite Hframe2; [done|].
      intros Hin. unfold written in Hin.
      apply list_elem_of_fmap in Hin as (ns' & Heq & Hin).
      apply list_elem_of_filter in Hin as [Hbc Hin].
      apply list_elem_of_omap in Hin as (id' & Hid' & Hns').
      apply (Hdistinct id' ns'); [|done|done|done].
      by eapply sorted_after.
Qed.

End ExternalGeometryClaim.

Example example_external_sections :
  section_of example_external 0 "DESIGN LINE DIRICH CONDITIONS"
    = Some (SList [ERef 2; ERef 1])
  ∧ dicts example_external !! 2
    = Some [("NUMDOF", VInt 3); ("E", VInt 4); ("ENTITY_TYPE", VStr "node_set_id")]
  ∧ dicts example_external !! 1
    = Some [("E", VInt 9); ("ENTITY_TYPE", VStr "node_set_id")]
  ∧ dicts example_external !! 3 = Some [("NUMDOF", VInt 1)]
  ∧ section_of example_external 0 "DLINE-NODE TOPOLOGY" = None.
Proof. vm_compute. repeat split. Qed.

Lemma add_node_sets_external_geometry_spec_witness :
  has_field example_external 2 "E" (VInt 4)
  ∧ has_field example_external 2 "ENTITY_TYPE" (VStr "node_set_id")
  ∧ node_set_keys_sorted example_external_cubit = [4; 6; 9]%Z.
Proof.
  destruct (add_node_sets_external_geometry_spec example_external_cubit 0
              example_store example_external) as (_ & _ & Hfields & _).
  - vm_compute. eauto.
  - vm_compute. reflexivity.
  - destruct (Hfields 4%Z
                {| bc_section := Some "DESIGN LINE DIRICH CONDITIONS";
                   bc_description := 2; geometry_type := curve |}
                "DESIGN LINE DIRICH CONDITIONS" eq_refl eq_refl) as (_ & Htype & HE).
    split; [|split; [exact Htype | reflexivity]].
    apply HE. intros id' ns' Hlt Hns' Hbc.
    assert (Hcases : id' = 6%Z ∨ id' = 9%Z ∨ node_sets example_external_cubit !! id' = None).
    { destruct (decide (id' = 6%Z)) as [|H6]; [by left|].
      destruct (decide (id' = 9%Z)) as [|H9]; [by right; left|].
      right; right. unfold example_external_cubit. simpl.
      rewrite !lookup_insert_ne by lia. apply lookup_empty. }
    destruct Hcases as [->|[->|Hnone]].
    + vm_compute in Hns'. injection Hns' as <-. destruct Hbc as [? Hbc]. discriminate.
    + vm_compute in Hns'. injection Hns' as <-. discriminate.
    + rewrite Hnone in Hns'. discriminate.
Defined.

(** ** The element sections *)

Section ElementProperties.

Context {ElementType : Type}.
Variable get_four_c_section : ElementType → result string.
Variable get_four_c_type : ElementType → result string.
Variable get_four_c_name : ElementType → result string.
Implicit Types cubit : @CubitPy ElementType.
Implicit Types b : @block_info ElementType.

Local Abbreviation element_step' := (element_step get_four_c_type get_four_c_name).
Local Abbreviation block_step' :=
  (block_step get_four_c_section get_four_c_type get_four_c_name).
Local Abbreviation block_at' := (block_at get_four_c_section).
Local Abbreviation expected_record' := (expected_record get_four_c_type get_four_c_name).
Local Abbreviation records_from' := (records_from get_four_c_type get_four_c_name).
Local Abbreviation blocks_records' := (blocks_records get_four_c_type get_four_c_name).

Lemma records_from_length b i rows : length (records_from' b i rows) = length rows.
Proof. revert i. induction rows as [|c rows IH]; intros i; simpl; [done|]. by rewrite IH. Qed.

Lemma records_from_lookup b i rows r c :
  rows !! r = Some c →
  records_from' b i rows !! r = Some (expected_record' b (i + r) c).
Proof.
  revert i r. induction rows as [|c0 rows IH]; intros i r Hr; [done|].
  destruct r as [|r]; simpl in *.
  - injection Hr as ->. by rewrite Nat.add_0_r.
  - rewrite (IH _ _ Hr). do 2 f_equal. lia.
Qed.

(** The rows of one block. *)
Lemma element_loop b d rows i st i' st' :
  is_Some (decks st !! d) →
  for_each (element_step' (block_element b) (block_dict b) d (block_section b))
    rows (i, st) = Ok (i', st') →
  i' = i + length rows
  ∧ dicts st' = dicts st
  ∧ extends d st st'
      (λ s, bool_decide (rows ≠ []) && is_section (block_section b) s)
      (only_in (block_section b) (records_from' b i rows))
  ∧ (rows ≠ [] → succeeds (get_four_c_type (block_element b))
                 ∧ succeeds (get_four_c_name (block_element b))).
Proof.
  revert i st. induction rows as [|c rows IH]; intros i st Hd Hrun.
  - injection Hrun as <- <-. split; [simpl; lia|]. split; [done|]. split; [|done].
    eapply extends_ext; [| |exact (extends_refl d st Hd)].
    + intros s. by rewrite bool_decide_false by auto.
    + intros s. unfold only_in. by destruct (bool_decide _).
  - rewrite for_each_cons in Hrun. inv_bind Hrun as acc1 Hstep.
    destruct acc1 as [i1 st1]. unfold element_step in Hstep.
    inv_bind Hstep as es Hes. inv_bind Hstep as conn Hconn.
    inv_bind Hstep as ty Hty. inv_bind Hstep as nm Hnm.
    inv_bind Hstep as st2 Happ. injection Hstep as <- <-.
    apply deck_append_Ok in Happ as (Hh1 & Hext1).
    assert (Hd1 : is_Some (decks st2 !! d)) by apply Hext1.
    destruct (IH _ _ Hd1 Hrun) as (-> & Hh & Hext & _).
    split; [simpl; lia|]. split; [congruence|].
    split; [|intros _; split; [by exists ty | by exists nm]].
    eapply extends_ext; [| |exact (extends_trans _ _ _ _ _ _ _ _ Hext1 Hext)].
    + intros s. simpl.
      by destruct (is_section (block_section b) s), (bool_decide (rows ≠ [])).
    + intros s. unfold only_in. simpl.
      destruct (bool_decide (s = block_section b)); [|done]. simpl.
      unfold expected_record. by rewrite Hconn, Hty, Hnm.
Qed.

Lemma block_step_Ok cubit exo d ids prop1 i st j i' st' :
  (∀ k, exo_id_to_cubit_id ids !! k = prop1 !! k) →
  block_step' cubit exo d ids (i, st) j = Ok (i', st') →
  ∃ b, block_at' cubit exo prop1 j = Some b
    ∧ i' = i + length (block_rows b)
    ∧ dicts st' = dicts st
    ∧ extends d st st' (is_section (block_section b))
        (only_in (block_section b) (records_from' b i (block_rows b)))
    ∧ (block_rows b ≠ [] → succeeds (get_four_c_type (block_element b))
                           ∧ succeeds (get_four_c_name (block_element b))).
Proof.
  intros Hids H. unfold block_step in H.
  inv_bind H as cubit_id Hid. apply getitem_Ok in Hid. rewrite Hids in Hid.
  inv_bind H as blk Hblk. apply getitem_Ok in Hblk. destruct blk as [ele_type bd].
  inv_bind H as sec Hsec. inv_bind H as st1 Hst1. inv_bind H as rows Hrows.
  apply deck_setdefault_list_Ok in Hst1 as (Hh1 & Hext1).
  assert (Hd1 : is_Some (decks st1 !! d)) by apply Hext1.
  pose (b := {| block_element := ele_type; block_dict := bd;
                block_section := sec +:+ " ELEMENTS"; block_rows := rows |}).
  destruct (element_loop b d rows i st1 i' st' Hd1 H) as (Hi & Hh & Hext & Hnames).
  exists b. split; [|split; [done|split; [congruence|split; [|done]]]].
  - unfold block_at. rewrite Hid. simpl. rewrite Hblk. simpl. by rewrite Hsec, Hrows.
  - eapply extends_ext; [| |exact (extends_trans _ _ _ _ _ _ _ _ Hext1 Hext)].
    + intros s. simpl. by destruct (is_section (sec +:+ " ELEMENTS") s), (bool_decide _).
    + intros s. done.
Qed.

Lemma total_cons b bs : total (b :: bs) = length (block_rows b) + total bs.
Proof. reflexivity. Qed.

Lemma blocks_created_cons b bs s :
  blocks_created (b :: bs) s = bool_decide (block_section b = s) || blocks_created bs s.
Proof.
  unfold blocks_created. apply eq_true_iff_eq.
  rewrite orb_true_iff, !bool_decide_eq_true, Exists_cons. done.
Qed.

(** The blocks at the exchange indices [js], one after the other. *)
Lemma block_loop_general cubit exo d ids prop1 js i st i' st' :
  (∀ k, exo_id_to_cubit_id ids !! k = prop1 !! k) →
  is_Some (decks st !! d) →
  for_each (block_step' cubit exo d ids) js (i, st) = Ok (i', st') →
  ∃ bs,
    Forall2 (λ j b, block_at' cubit exo prop1 j = Some b) js bs
    ∧ i' = i + total bs
    ∧ dicts st' = dicts st
    ∧ extends d st st' (blocks_created bs) (blocks_records' i bs)
    ∧ Forall (λ b, block_rows b ≠ [] →
                   succeeds (get_four_c_type (block_element b))
                   ∧ succeeds (get_four_c_name (block_element b))) bs.
Proof.
  intros Hids. revert i st. induction js as [|j js IH]; intros i st Hd Hrun.
  - injection Hrun as <- <-. exists []. split; [constructor|].
    split; [unfold total; simpl; lia|]. split; [done|]. split; [|constructor].
    eapply extends_ext; [| |exact (extends_refl d st Hd)]; done.
  - rewrite for_each_cons in Hrun. inv_bind Hrun as acc1 Hstep.
    destruct acc1 as [i1 st1].
    destruct (block_step_Ok _ _ _ _ _ _ _ _ _ _ Hids Hstep)
      as (b & Hat & -> & Hh1 & Hext1 & Hnames).
    assert (Hd1 : is_Some (decks st1 !! d)) by apply Hext1.
    destruct (IH _ _ Hd1 Hrun) as (bs & Hall & -> & Hh & Hext & Hnm).
    exists (b :: bs). split; [by constructor|].
    split; [rewrite total_cons; lia|]. split; [congruence|].
    split; [|by constructor].
    eapply extends_ext; [| |exact (extends_trans _ _ _ _ _ _ _ _ Hext1 Hext)].
    + intros s. rewrite blocks_created_cons. unfold is_section.
      f_equal. apply bool_decide_ext. naive_solver.
    + intros s. simpl. unfold only_in. f_equal.
      destruct (decide (s = block_section b)) as [->|Hs].
      * by rewrite !bool_decide_true.
      * rewrite !bool_decide_false; [done|congruence|done].
Qed.

(** Where the record of row [r] of the block at position [k] is. *)
Lemma blocks_records_lookup i bs k b r c :
  bs !! k = Some b →
  block_rows b !! r = Some c →
  blocks_records' i bs (block_section b)
    !! (elements_in (take k bs) (block_section b) + r)
  = Some (expected_record' b (i + total (take k bs) + r) c).
Proof.
  revert i k. induction bs as [|b0 bs IH]; intros i k Hk Hr; [done|].
  destruct k as [|k]; simpl in Hk.
  - injection Hk as ->. simpl. rewrite bool_decide_true by done.
    rewrite lookup_app_l.
    + unfold elements_in, total. simpl. rewrite (records_from_lookup _ _ _ _ _ Hr).
      do 2 f_equal. lia.
    + rewrite records_from_length. unfold elements_in, total. simpl.
      by eapply lookup_lt_Some.
  - simpl take. simpl blocks_records. rewrite lookup_app_r.
    + replace (elements_in (b0 :: take k bs) (block_section b) + r
               - length (if bool_decide (block_section b0 = block_section b)
                         then records_from' b0 i (block_rows b0) else []))
        with (elements_in (take k bs) (block_section b) + r).
      * rewrite (IH _ _ Hk Hr). do 2 f_equal. rewrite total_cons. lia.
      * unfold elements_in. rewrite filter_cons.
        destruct (decide (block_section b0 = block_section b)) as [Hs|Hs].
        -- rewrite bool_decide_true by done.
           rewrite total_cons, records_from_length. lia.
        -- rewrite bool_decide_false by done. simpl. lia.
    + unfold elements_in. rewrite filter_cons.
      destruct (decide (block_section b0 = block_section b)) as [Hs|Hs].
      * rewrite bool_decide_true by done.
        rewrite total_cons, records_from_length. lia.
      * rewrite bool_decide_false by done. simpl. lia.
Qed.

End ElementProperties.

Section ElementClaim.

Context {ElementType : Type}.
Variable get_four_c_section : ElementType → result string.
Variable get_four_c_type : ElementType → result string.
Variable get_four_c_name : ElementType → result string.
Implicit Types cubit : @CubitPy ElementType.

(** C4: the element of row [r] of the block at exchange index [k] gets
    the id [1 + r +] the number of elements of all blocks at smaller
    exchange indices, whatever sections those went to; its record stands
    in the section of its block behind what the section held before and
    behind the elements of the earlier blocks of that section. *)
Theorem add_elements_sequential_ids cubit exo d st n st' prop1 :
  int_array exo "eb_prop1" = Ok prop1 →
  is_Some (decks st !! d) →
  add_elements get_four_c_section get_four_c_type get_four_c_name cubit exo d st
  = Ok (n, st') →
  ∃ bs,
    Forall2 (λ j b, block_at get_four_c_section cubit exo prop1 j = Some b)
      (seq 0 (length prop1)) bs
    ∧ n = total bs
    ∧ dicts st' = dicts st
    ∧ (∀ k b r connectivity,
         bs !! k = Some b →
         block_rows b !! r = Some connectivity →
         ∃ conn four_c_type four_c_name,
           get_element_connectivity_list connectivity = Ok conn
           ∧ get_four_c_type (block_element b) = Ok four_c_type
           ∧ get_four_c_name (block_element b) = Ok four_c_name
           ∧ entries (section_of st' d (block_section b))
               !! (length (entries (section_of st d (block_section b)))
                   + elements_in (take k bs) (block_section b) + r)
             = Some (element_record (total (take k bs) + r) conn
                       four_c_type four_c_name (block_dict b))
           ∧ record_field "id"
               (element_record (total (take k bs) + r) conn
                  four_c_type four_c_name (block_dict b))
             = Some (VInt (Z.of_nat (total (take k bs) + r + 1))))
    ∧ (∀ s, blocks_created bs s = false → section_of st' d s = section_of st d s).
Proof.
  intros Hprop1 Hd Hrun. unfold add_elements in Hrun.
  inv_bind Hrun as ids Hids. rewrite Hprop1, bind_Ok_l in Hrun.
  destruct (exo_id_to_cubit_id_lookup _ _ _ Hids) as (prop1' & Hprop1' & Hl).
  rewrite decide_True in Hprop1' by done.
  change ("eb" +:+ "_prop1") with "eb_prop1" in Hprop1'.
  assert (prop1' = prop1) as -> by congruence.
  destruct (block_loop_general get_four_c_section get_four_c_type get_four_c_name
              _ _ _ _ _ _ _ _ _ _ Hl Hd Hrun)
    as (bs & Hall & Hn & Hh & (_ & _ & Hgrow & Hadded & _) & Hnames).
  exists bs. split; [done|]. split; [done|]. split; [done|]. split.
  - intros k b r connectivity Hk Hr.
    pose proof (blocks_records_lookup get_four_c_type get_four_c_name
                  0 bs k b r connectivity Hk Hr) as Hrec.
    destruct (get_element_connectivity_list_total connectivity) as [conn Hconn].
    rewrite Forall_forall in Hnames.
    destruct (Hnames b) as [[ty Hty] [nm Hnm]].
    { by eapply list_elem_of_lookup_2. }
    { intros Hnil. rewrite Hnil in Hr. done. }
    exists conn, ty, nm. split; [done|]. split; [done|]. split; [done|].
    split; [|reflexivity].
    unfold expected_record in Hrec. rewrite Hconn, Hty, Hnm in Hrec. simpl in Hrec.
    destruct (Hadded (block_section b)) as [_ Hnodict].
    { intros Hnil. rewrite Hnil in Hrec. done. }
    rewrite Hgrow.
    destruct (section_of st d (block_section b)) as [[old|dd]|] eqn:Hsec; simpl.
    + rewrite <-Nat.add_assoc, lookup_app_r by lia.
      rewrite <-Hrec. f_equal. lia.
    + by destruct (Hnodict dd).
    + destruct (blocks_created bs (block_section b)) eqn:Hc; simpl.
      * exact Hrec.
      * destruct (Hadded (block_section b)) as [Hc' _]; [|congruence].
        intros Hnil. rewrite Hnil in Hrec. done.
  - intros s Hs. rewrite Hgrow, Hs.
    destruct (blocks_records get_four_c_type get_four_c_name 0 bs s) eqn:Hrecs.
    + apply grow_nothing.
    + destruct (Hadded s) as [Hc _]; [by rewrite Hrecs | congruence].
Qed.

End ElementClaim.

Example example_elements_ids :
  example_elements.1 = 5
  ∧ record_field "id" <$> entries (section_of example_elements.2 0 "STRUCTURE ELEMENTS")
    = [Some (VInt 1); Some (VInt 2); Some (VInt 3)]
  ∧ record_field "id" <$> entries (section_of example_elements.2 0 "FLUID ELEMENTS")
    = [Some (VInt 4); Some (VInt 5)].
Proof. vm_compute. repeat split. Qed.

Example example_elements_same_section :
  ∃ st', add_elements example_section example_type example_name
           example_cubit_solid example_exo 0 example_store = Ok (5, st')
    ∧ record_field "id" <$> entries (section_of st' 0 "STRUCTURE ELEMENTS")
      = [Some (VInt 1); Some (VInt 2); Some (VInt 3); Some (VInt 4); Some (VInt 5)].
Proof. eexists. split; vm_compute; reflexivity. Qed.

Lemma add_elements_sequential_ids_witness :
  entries (section_of example_elements.2 0 "FLUID ELEMENTS") !! 0
  = Some (element_record 3 [4; 5]%Z "HEX8" "FLUID" [("MAT", VInt 2)]).
Proof.
  destruct (add_elements_sequential_ids example_section example_type example_name
              example_cubit example_exo 0 example_store
              example_elements.1 example_elements.2 [1; 2]%Z)
    as (bs & Hall & _ & _ & Hrecords & _).
  - vm_compute. reflexivity.
  - vm_compute. eauto.
  - vm_compute. reflexivity.
  - apply Forall2_cons_inv_l in Hall as (b0 & bs1 & Hb0 & Hall & ->).
    apply Forall2_cons_inv_l in Hall as (b1 & bs2 & Hb1 & Hall & ->).
    apply Forall2_nil_inv_l in Hall as ->.
    vm_compute in Hb0. injection Hb0 as <-.
    vm_compute in Hb1. injection Hb1 as <-.
    destruct (Hrecords 1 _ 0 [4; 5]%Z eq_refl eq_refl)
      as (conn & ty & nm & Hconn & Hty & Hnm & Hat & _).
    vm_compute in Hconn. injection Hconn as <-.
    vm_compute in Hty. injection Hty as <-.
    vm_compute in Hnm. injection Hnm as <-.
    exact Hat.
Defined.

(** ** The copy of the deck *)

Lemma fresh_loc_decks st d dk : decks st !! d = Some dk → d < fresh_loc st.
Proof.
  intros Hd. unfold fresh_loc. apply Nat.lt_succ_r, max_list_elem_of_le.
  apply elem_of_app. right. apply list_elem_of_fmap. exists (d, dk).
  split; [done|]. by apply elem_of_map_to_list.
Qed.

Lemma fresh_loc_dicts st l dd : dicts st !! l = Some dd → l < fresh_loc st.
Proof.
  intros Hl. unfold fresh_loc. apply Nat.lt_succ_r, max_list_elem_of_le.
  apply elem_of_app. left. apply list_elem_of_fmap. exists (l, dd).
  split; [done|]. by apply elem_of_map_to_list.
Qed.

Lemma clone_dicts_below base refs (h : gmap loc pydict) l :
  l < base → clone_dicts base refs h !! l = h !! l.
Proof.
  intros Hl. unfold clone_dicts. induction refs as [|r refs IH]; simpl; [done|].
  destruct (h !! r); [|done]. rewrite lookup_insert_ne by lia. done.
Qed.

Lemma clone_dicts_copy base refs (h : gmap loc pydict) r :
  r ∈ refs → (∀ l dd, h !! l = Some dd → l < base) →
  clone_dicts base refs h !! (base + r) = h !! r.
Proof.
  intros Hr Hbase. unfold clone_dicts.
  induction refs as [|r0 refs IH]; simpl; [by apply elem_of_nil in Hr|].
  destruct (decide (r0 = r)) as [->|Hne].
  - destruct (h !! r) eqn:Hhr; [by rewrite lookup_insert_eq|].
    apply elem_of_cons in Hr as [_|Hr]; [|by rewrite IH].
    clear IH. induction refs as [|r1 refs IH]; simpl.
    + destruct (h !! (base + r)) eqn:Hh; [|done]. apply Hbase in Hh. lia.
    + destruct (h !! r1) eqn:Hr1; [|done].
      rewrite lookup_insert_ne; [done|]. intros Heq.
      assert (r1 = r) as -> by lia. congruence.
  - apply elem_of_cons in Hr as [->|Hr]; [done|].
    destruct (h !! r0); [|by apply IH]. rewrite lookup_insert_ne by lia. by apply IH.
Qed.

Section CopyProperties.

Context {ElementType : Type}.
Variable get_four_c_section : ElementType → result string.
Variable get_four_c_type : ElementType → result string.
Variable get_four_c_name : ElementType → result string.
Implicit Types cubit : @CubitPy ElementType.

Lemma copy_Ok d st new st0 :
  copy d st = Ok (new, st0) →
  ∃ dk, decks st !! d = Some dk
    ∧ new = fresh_loc st
    ∧ decks st0 = <[new := copy_section (S new) <$> dk]> (decks st)
    ∧ dicts st0 = clone_dicts (S new) (deck_refs dk) (dicts st).
Proof.
  unfold copy. intros H. inv_bind H as dk Hdk. apply getitem_Ok in Hdk.
  injection H as <- <-. by exists dk.
Qed.

Lemma copy_frame d st new st0 :
  copy d st = Ok (new, st0) →
  new ≠ d
  ∧ decks st !! new = None
  ∧ only_deck new st st0
  ∧ dicts_kept [] st st0.
Proof.
  intros H. destruct (copy_Ok _ _ _ _ H) as (dk & Hdk & -> & Hdecks & Hdicts).
  pose proof (fresh_loc_decks _ _ _ Hdk) as Hlt.
  split; [lia|]. split; [|split; [split|]].
  - destruct (decks st !! fresh_loc st) eqn:Hnew; [|done].
    apply fresh_loc_decks in Hnew. lia.
  - rewrite Hdecks, lookup_insert_eq. eauto.
  - intros d' Hne. rewrite Hdecks. by rewrite lookup_insert_ne.
  - intros l dd _ Hl. rewrite Hdicts, clone_dicts_below; [done|].
    apply fresh_loc_dicts in Hl. lia.
Qed.

Lemma only_deck_trans d st1 st2 st3 :
  only_deck d st1 st2 → only_deck d st2 st3 → only_deck d st1 st3.
Proof.
  intros [_ H1] [Hd H2]. split; [done|]. intros d' Hne. by rewrite H2, H1.
Qed.

Lemma extends_only_deck d st st' c a : extends d st st' c a → only_deck d st st'.
Proof. intros (_ & Hd & _ & _ & Hf). by split. Qed.

Lemma same_except_only_deck d name st st' :
  is_Some (decks st' !! d) → same_except d name st st' → only_deck d st st'.
Proof. intros Hd (_ & _ & Hf). by split. Qed.

Lemma dicts_kept_trans ls st1 st2 st3 :
  dicts_kept ls st1 st2 → dicts_kept ls st2 st3 → dicts_kept ls st1 st3.
Proof. intros H1 H2 l dd Hl Hdd. eauto. Qed.

Lemma dicts_kept_eq ls st st' : dicts st' = dicts st → dicts_kept ls st st'.
Proof. intros Heq l dd _ Hdd. by rewrite Heq. Qed.

Lemma dicts_kept_weaken ls st st' : dicts_kept [] st st' → dicts_kept ls st st'.
Proof. intros H l dd _ Hdd. apply H; [apply not_elem_of_nil | done]. Qed.

Lemma node_sets_at_descriptions cubit exo prop1 js l :
  l ∈ (λ r, bc_description r.1) <$> node_sets_at cubit exo prop1 js →
  l ∈ descriptions cubit.
Proof.
  intros Hin. apply list_elem_of_fmap in Hin as ([ns nodes] & -> & Hin).
  apply list_elem_of_omap in Hin as (j & _ & Hat). unfold node_set_at in Hat.
  destruct (prop1 !! j) as [cubit_id|]; [simpl in Hat | discriminate].
  destruct (node_sets cubit !! cubit_id) as [ns0|] eqn:Hns; [simpl in Hat | discriminate].
  destruct (int_array exo ("node_ns" +:+ pretty (j + 1))); [|discriminate].
  injection Hat as <- _. unfold descriptions.
  apply list_elem_of_fmap. exists (cubit_id, ns0). split; [done|].
  by apply elem_of_map_to_list.
Qed.

(** The node-set phase writes to the deck it is given and to the
    descriptions of the registry, to nothing else. *)
Lemma add_node_sets_input_file_frame cubit exo d st st' :
  is_Some (decks st !! d) →
  add_node_sets_input_file cubit exo d st = Ok st' →
  only_deck d st st' ∧ dicts_kept (descriptions cubit) st st'.
Proof.
  intros Hd Hrun.
  destruct (decide (size (node_sets cubit) = 0)) as [Hsize|Hsize].
  - unfold add_node_sets_input_file in Hrun. rewrite decide_True in Hrun by done.
    injection Hrun as <-. split; [by split | by apply dicts_kept_eq].
  - assert (Hprop : ∃ prop1, int_array exo "ns_prop1" = Ok prop1).
    { unfold add_node_sets_input_file in Hrun. rewrite decide_False in Hrun by done.
      inv_bind Hrun as ids Hids. inv_bind Hrun as prop1 Hprop1. eauto. }
    destruct Hprop as [prop1 Hprop1].
    destruct (add_node_sets_input_file_Ok _ _ _ _ _ _ Hsize Hprop1 Hrun)
      as (ids & b & st1 & Hids & Hl & Hloop & Htopo).
    destruct (project_loop_general _ _ _ _ _ _ _ _ _ _ Hl Hd Hloop)
      as (_ & _ & Hext & Hframe & _).
    pose proof (extends_only_deck _ _ _ _ _ Hext) as Hdeck1.
    destruct (add_topology_sections d b st1 (proj1 Hdeck1))
      as (st'' & Hrun' & Hh & Hsec & _ & Hdecks).
    assert (st'' = st') as -> by congruence.
    split.
    + split; [|intros d' Hne; rewrite Hdecks by done; by apply Hdeck1].
      eapply add_topology_deck; [exact (proj1 Hdeck1) | exact Htopo].
    + intros l dd Hnot Hdd. rewrite Hh, Hframe; [done|].
      intros Hin. apply Hnot. by eapply node_sets_at_descriptions.
Qed.

(** Every field other than [E] of every dictionary outlives the node-set
    phase. *)
Lemma add_node_sets_input_file_fields cubit exo d st st' :
  is_Some (decks st !! d) →
  add_node_sets_input_file cubit exo d st = Ok st' →
  ∀ l key v, key ≠ "E" → has_field st l key v → has_field st' l key v.
Proof.
  intros Hd Hrun.
  destruct (decide (size (node_sets cubit) = 0)) as [Hsize|Hsize].
  - unfold add_node_sets_input_file in Hrun. rewrite decide_True in Hrun by done.
    by injection Hrun as <-.
  - assert (Hprop : ∃ prop1, int_array exo "ns_prop1" = Ok prop1).
    { unfold add_node_sets_input_file in Hrun. rewrite decide_False in Hrun by done.
      inv_bind Hrun as ids Hids. inv_bind Hrun as prop1 Hprop1. eauto. }
    destruct Hprop as [prop1 Hprop1].
    destruct (add_node_sets_input_file_Ok _ _ _ _ _ _ Hsize Hprop1 Hrun)
      as (ids & b & st1 & Hids & Hl & Hloop & Htopo).
    destruct (project_loop_general _ _ _ _ _ _ _ _ _ _ Hl Hd Hloop)
      as (_ & _ & _ & _ & _ & Hother).
    intros l key v Hkey Hfield.
    destruct (Hother l key v Hkey Hfield) as (dd & Hdd & Hget).
    exists dd. split; [|done]. by rewrite (add_topology_dicts _ _ _ _ Htopo).
Qed.

(** The copy holds what the deck holds: section by section the same
    records, each dictionary duplicated with its content. *)
Lemma copy_content d st new st0 dk :
  copy d st = Ok (new, st0) →
  decks st !! d = Some dk →
  (∀ s, section_of st0 new s = copy_section (S new) <$> dk !! s)
  ∧ (∀ l, l ∈ deck_refs dk → dicts st0 !! (S new + l) = dicts st !! l).
Proof.
  intros H Hdk. destruct (copy_Ok _ _ _ _ H) as (dk' & Hdk' & -> & Hdecks & Hdicts).
  assert (dk' = dk) as -> by congruence. split.
  - intros s. unfold section_of. rewrite Hdecks, lookup_insert_eq. simpl.
    apply lookup_fmap.
  - intros l Hl. rewrite Hdicts. apply clone_dicts_copy; [done|].
    intros l0 dd Hl0. apply fresh_loc_dicts in Hl0. lia.
Qed.

End CopyProperties.

(** ** The deck with the mesh *)

(** Splits [sec +:+ " ELEMENTS" = "..."] character by character. *)
Ltac no_element_section H :=
  repeat (match type of H with
          | ?sec +:+ _ = _ => destruct sec as [|? sec]; [discriminate H|]
          end; injection H as _ H);
  match type of H with ?sec +:+ _ = _ => destruct sec; discriminate H end.

Lemma element_section_not_coords (sec : string) : sec +:+ " ELEMENTS" ≠ "NODE COORDS".
Proof. intros H. no_element_section H. Qed.

Lemma element_section_not_topology (sec : string) geo name label :
  (geo, name, label) ∈ name_geometry_tuple → sec +:+ " ELEMENTS" ≠ name.
Proof.
  intros Hin H. unfold name_geometry_tuple in Hin.
  repeat (apply elem_of_cons in Hin as [[= -> -> ->]|Hin]);
    [no_element_section H ..|by apply elem_of_nil in Hin].
Qed.

Lemma add_node_coords_Ok exo d st st' :
  is_Some (decks st !! d) →
  add_node_coords exo d st = Ok st' →
  ∃ coordinates,
    read_coordinates exo = Ok coordinates
    ∧ section_of st' d "NODE COORDS" = Some (SList (node_records coordinates))
    ∧ same_except d "NODE COORDS" st st'.
Proof.
  intros Hd Hrun. unfold add_node_coords in Hrun.
  destruct (deck_setitem_total d "NODE COORDS" (SList []) st Hd)
    as (st1 & Hst1 & Hsec1 & Hf1).
  rewrite Hst1, bind_Ok_l in Hrun. inv_bind Hrun as coordinates Hcoords.
  destruct (append_all d "NODE COORDS" (λ ic : nat * (Z * Z * Z), node_record ic.2 ic.1)
              (enumerate coordinates) st1 [] Hsec1) as (st2 & Hrun2 & Hsec2 & Hf2).
  assert (st2 = st') as -> by congruence.
  exists coordinates. split; [done|]. split; [done|].
  by eapply same_except_trans.
Qed.

Section MeshProperties.

Context {ElementType : Type}.
Variable get_four_c_section : ElementType → result string.
Variable get_four_c_type : ElementType → result string.
Variable get_four_c_name : ElementType → result string.
Implicit Types cubit : @CubitPy ElementType.

Local Abbreviation add_elements' :=
  (add_elements get_four_c_section get_four_c_type get_four_c_name).
Local Abbreviation get_input_file_with_mesh' :=
  (get_input_file_with_mesh get_four_c_section get_four_c_type get_four_c_name).
Local Abbreviation block_at' := (block_at get_four_c_section).
Local Abbreviation blocks_records' := (blocks_records get_four_c_type get_four_c_name).

Lemma add_elements_extends cubit exo d st n st' :
  is_Some (decks st !! d) →
  add_elements' cubit exo d st = Ok (n, st') →
  ∃ prop1 bs,
    int_array exo "eb_prop1" = Ok prop1
    ∧ Forall2 (λ j b, block_at' cubit exo prop1 j = Some b) (seq 0 (length prop1)) bs
    ∧ dicts st' = dicts st
    ∧ extends d st st' (blocks_created bs) (blocks_records' 0 bs).
Proof.
  intros Hd Hrun. unfold add_elements in Hrun.
  inv_bind Hrun as ids Hids. inv_bind Hrun as prop1 Hprop1.
  destruct (exo_id_to_cubit_id_lookup _ _ _ Hids) as (prop1' & Hprop1' & Hl).
  rewrite decide_True in Hprop1' by done.
  change ("eb" +:+ "_prop1") with "eb_prop1" in Hprop1'.
  assert (prop1' = prop1) as -> by congruence.
  destruct (block_loop_general get_four_c_section get_four_c_type get_four_c_name
              _ _ _ _ _ _ _ _ _ _ Hl Hd Hrun)
    as (bs & Hall & _ & Hh & Hext & _).
  by exists prop1, bs.
Qed.

Lemma block_at_section cubit exo prop1 j b :
  block_at' cubit exo prop1 j = Some b →
  ∃ sec, block_section b = sec +:+ " ELEMENTS".
Proof.
  unfold block_at. intros H.
  destruct (prop1 !! j) as [cubit_id|]; [simpl in H | discriminate].
  destruct (blocks cubit !! cubit_id) as [[ele_type bd]|]; [simpl in H | discriminate].
  destruct (get_four_c_section ele_type) as [sec|]; [|discriminate].
  destruct (int_array2 exo ("connect" +:+ pretty (j + 1))); [|discriminate].
  injection H as <-. by exists sec.
Qed.

Lemma blocks_created_false cubit exo prop1 js bs s :
  Forall2 (λ j b, block_at' cubit exo prop1 j = Some b) js bs →
  (∀ sec, sec +:+ " ELEMENTS" ≠ s) →
  blocks_created bs s = false.
Proof.
  intros Hall Hs. unfold blocks_created. apply bool_decide_eq_false.
  rewrite Exists_exists. intros (b & Hb & Hsec).
  apply list_elem_of_lookup in Hb as [k Hk].
  destruct (Forall2_lookup_r _ _ _ _ _ Hall Hk) as (j & _ & Hat).
  apply block_at_section in Hat as [sec Heq]. apply (Hs sec). congruence.
Qed.

Lemma blocks_records_false bs i s :
  blocks_created bs s = false → blocks_records' i bs s = [].
Proof.
  revert i. induction bs as [|b bs IH]; intros i Hc; [done|].
  rewrite blocks_created_cons in Hc. apply orb_false_iff in Hc as [Hb Hc].
  simpl. rewrite Hb. simpl. by apply IH.
Qed.

(** The phases of [get_input_file_with_mesh], with what each one leaves
    alone. *)
Lemma get_input_file_with_mesh_Ok cubit exo st input_file st' :
  get_input_file_with_mesh' cubit exo st = Ok (input_file, st') →
  ∃ st0 st1 st2 n,
    copy (fourc_input cubit) st = Ok (input_file, st0)
    ∧ add_node_sets_input_file cubit exo input_file st0 = Ok st1
    ∧ add_node_coords exo input_file st1 = Ok st2
    ∧ add_elements' cubit exo input_file st2 = Ok (n, st')
    ∧ only_deck input_file st st'
    ∧ dicts_kept (descriptions cubit) st st'.
Proof.
  unfold get_input_file_with_mesh. intros H.
  inv_bind H as acc Hcopy. destruct acc as [new st0].
  inv_bind H as st1 Hsets. inv_bind H as st2 Hcoords.
  inv_bind H as acc Helems. destruct acc as [n st3]. injection H as <- <-.
  exists st0, st1, st2, n. repeat (split; [done|]).
  destruct (copy_frame _ _ _ _ Hcopy) as (Hne & Hnew & Hdeck0 & Hkept0).
  destruct (add_node_sets_input_file_frame _ _ _ _ _ (proj1 Hdeck0) Hsets)
    as (Hdeck1 & Hkept1).
  destruct (add_node_coords_Ok _ _ _ _ (proj1 Hdeck1) Hcoords)
    as (coordinates & _ & Hsec2 & Hf2).
  assert (Hdeck2 : only_deck new st1 st2).
  { eapply same_except_only_deck; [|exact Hf2]. by eapply section_of_Some. }
  destruct (add_elements_extends _ _ _ _ _ _ (proj1 Hdeck2) Helems)
    as (prop1 & bs & _ & _ & Hh3 & Hext3).
  split.
  - eapply only_deck_trans; [|exact (extends_only_deck _ _ _ _ _ Hext3)].
    eapply only_deck_trans; [|exact Hdeck2].
    eapply only_deck_trans; [exact Hdeck0 | exact Hdeck1].
  - eapply dicts_kept_trans; [|apply (dicts_kept_eq _ st2); exact Hh3].
    eapply dicts_kept_trans; [|apply (dicts_kept_eq _ st1); apply Hf2].
    eapply dicts_kept_trans; [|exact Hkept1].
    by apply dicts_kept_weaken.
Qed.

End MeshProperties.

Section MeshClaims.

Context {ElementType : Type}.
Variable get_four_c_section : ElementType → result string.
Variable get_four_c_type : ElementType → result string.
Variable get_four_c_name : ElementType → result string.
Implicit Types cubit : @CubitPy ElementType.

Local Abbreviation get_input_file_with_mesh' :=
  (get_input_file_with_mesh get_four_c_section get_four_c_type get_four_c_name).

(** C5: the deck that comes back is a new deck object; the deck of the
    session, like every other deck, has after the call the sections and
    the records it had before: no record the conversion adds is visible
    through it, also not in a section that existed before, while the
    node coordinates are in the new deck.  Every dictionary of the store
    other than the descriptions of the node-set registry is what it was,
    and every dictionary keeps every field other than [E]; a section of
    the deck of the session that refers to no description of the
    registry therefore reads as before. *)
Theorem get_input_file_with_mesh_independent_copy cubit exo st input_file st' :
  get_input_file_with_mesh' cubit exo st = Ok (input_file, st') →
  input_file ≠ fourc_input cubit
  ∧ decks st !! input_file = None
  ∧ decks st' !! fourc_input cubit = decks st !! fourc_input cubit
  ∧ (∀ s, section_of st' (fourc_input cubit) s = section_of st (fourc_input cubit) s)
  ∧ (∀ d, d ≠ input_file → decks st' !! d = decks st !! d)
  ∧ is_Some (section_of st' input_file "NODE COORDS")
  ∧ dicts_kept (descriptions cubit) st st'
  ∧ (∀ l key v, key ≠ "E" → has_field st l key v → has_field st' l key v)
  ∧ (∀ s,
       (∀ l, ERef l ∈ entries (section_of st (fourc_input cubit) s) →
             (l ∉ descriptions cubit) ∧ is_Some (dicts st !! l)) →
       deck_shows st' (fourc_input cubit) s = deck_shows st (fourc_input cubit) s).
Proof.
  intros Hrun.
  destruct (get_input_file_with_mesh_Ok _ _ _ _ _ _ _ _ Hrun)
    as (st0 & st1 & st2 & n & Hcopy & Hsets & Hcoords & Helems & Hdeck & Hkept).
  destruct (copy_frame _ _ _ _ Hcopy) as (Hne & Hnew & Hdeck0 & Hkept0).
  destruct (add_node_sets_input_file_frame _ _ _ _ _ (proj1 Hdeck0) Hsets)
    as (Hdeck1 & _).
  destruct (add_node_coords_Ok _ _ _ _ (proj1 Hdeck1) Hcoords)
    as (coordinates & _ & Hsec2 & (Hh2 & _)).
  destruct (add_elements_extends _ _ _ _ _ _ _ _ _ (section_of_Some _ _ _ _ Hsec2) Helems)
    as (prop1 & bs & _ & _ & Hh3 & (_ & _ & Hgrow & _)).
  split; [done|]. split; [done|].
  assert (Hsession : decks st' !! fourc_input cubit = decks st !! fourc_input cubit)
    by (apply Hdeck; congruence).
  assert (Hsections : ∀ s, section_of st' (fourc_input cubit) s
                           = section_of st (fourc_input cubit) s).
  { intros s. unfold section_of. by rewrite Hsession. }
  split; [done|]. split; [done|]. split; [apply Hdeck|].
  split; [rewrite Hgrow, Hsec2; simpl; eauto|]. split; [done|]. split.
  - intros l key v Hkey (dd & Hdd & Hget).
    assert (Hfield0 : has_field st0 l key v).
    { exists dd. split; [|done]. apply Hkept0; [apply not_elem_of_nil | done]. }
    destruct (add_node_sets_input_file_fields _ _ _ _ _ (proj1 Hdeck0) Hsets
                l key v Hkey Hfield0) as (dd1 & Hdd1 & Hget1).
    exists dd1. split; [|done]. by rewrite Hh3, Hh2.
  - intros s Hrefs. unfold deck_shows. rewrite Hsections.
    apply list_fmap_ext. intros i e He. destruct e as [l|v]; [|done].
    destruct (Hrefs l) as [Hnot [dd Hdd]]; [by eapply list_elem_of_lookup_2|].
    simpl. by rewrite (Hkept l dd Hnot Hdd), Hdd.
Qed.

(** At a deck of the session that refers to the description of a node
    set, as it does once [add_node_sets_external_geometry] has run on
    it, the record reads [E = 3] before the call and [E = 2] after it. *)
Lemma get_input_file_with_mesh_session_deck_shows_E :
  ∃ input_file st',
    get_input_file_with_mesh example_section example_type example_name
      example_cubit example_exo example_store_external = Ok (input_file, st')
    ∧ deck_shows example_store_external 0 "DESIGN LINE DIRICH CONDITIONS"
      = [Some (VDict [ ("NUMDOF", VInt 3); ("E", VInt 3);
                       ("ENTITY_TYPE", VStr "node_set_id") ])]
    ∧ deck_shows st' 0 "DESIGN LINE DIRICH CONDITIONS"
      = [Some (VDict [ ("NUMDOF", VInt 3); ("E", VInt 2);
                       ("ENTITY_TYPE", VStr "node_set_id") ])]
    ∧ ¬ deck_unchanged 0 example_store_external st'.
Proof.
  do 2 eexists. split; [vm_compute; reflexivity|].
  split; [vm_compute; reflexivity|]. split; [vm_compute; reflexivity|].
  intros Hsame. destruct (Hsame "DESIGN LINE DIRICH CONDITIONS") as [_ Hshows].
  vm_compute in Hshows. discriminate.
Qed.

(** C8: with an empty node-set registry the node-set phase returns at
    once, whatever the file holds, and leaves the store as it is; the deck
    with the mesh is then the copy of the deck of the session with the
    section of the node coordinates set and the element sections grown:
    the topology sections, like every other section, are what the copy
    had, absent when absent there. *)
Theorem get_input_file_with_mesh_no_node_sets cubit exo st :
  node_sets cubit = ∅ →
  (∀ d st0, add_node_sets_input_file cubit exo d st0 = Ok st0)
  ∧ get_input_file_with_mesh' cubit exo st
    = ('(input_file, st0) ← copy (fourc_input cubit) st;
       st2 ← add_node_coords exo input_file st0;
       '(_, st3) ← add_elements get_four_c_section get_four_c_type get_four_c_name
                     cubit exo input_file st2;
       Ok (input_file, st3))
  ∧ ∀ input_file st',
      get_input_file_with_mesh' cubit exo st = Ok (input_file, st') →
      ∃ deck0 coordinates prop1 bs,
        decks st !! fourc_input cubit = Some deck0
        ∧ read_coordinates exo = Ok coordinates
        ∧ int_array exo "eb_prop1" = Ok prop1
        ∧ Forall2 (λ j b, block_at get_four_c_section cubit exo prop1 j = Some b)
            (seq 0 (length prop1)) bs
        ∧ section_of st' input_file "NODE COORDS"
          = Some (SList (node_records coordinates))
        ∧ (∀ s, s ≠ "NODE COORDS" →
             section_of st' input_file s
             = grow (copy_section (S input_file) <$> deck0 !! s)
                 (blocks_created bs s)
                 (blocks_records get_four_c_type get_four_c_name 0 bs s))
        ∧ (∀ geo name label,
             (geo, name, label) ∈ name_geometry_tuple →
             section_of st' input_file name
             = copy_section (S input_file) <$> deck0 !! name)
        ∧ dicts_kept [] st st'.
Proof.
  intros Hempty.
  assert (Hsets : ∀ d st0, add_node_sets_input_file cubit exo d st0 = Ok st0).
  { intros d st0. unfold add_node_sets_input_file.
    rewrite decide_True; [done|]. rewrite Hempty. apply map_size_empty. }
  split; [done|]. split.
  { unfold get_input_file_with_mesh.
    destruct (copy (fourc_input cubit) st) as [[new st0]|]; [|done].
    simpl. by rewrite Hsets. }
  intros input_file st' Hrun.
  destruct (get_input_file_with_mesh_Ok _ _ _ _ _ _ _ _ Hrun)
    as (st0 & st1 & st2 & n & Hcopy & Hsets1 & Hcoords & Helems & _ & _).
  rewrite Hsets in Hsets1. injection Hsets1 as <-.
  destruct (copy_Ok _ _ _ _ Hcopy) as (deck0 & Hdeck0 & Hnew & Hdecks0 & Hdicts0).
  destruct (copy_frame _ _ _ _ Hcopy) as (_ & _ & Hd0 & Hkept0).
  destruct (add_node_coords_Ok _ _ _ _ (proj1 Hd0) Hcoords)
    as (coordinates & Hread & Hsec2 & (Hh2 & Hother2 & _)).
  destruct (add_elements_extends _ _ _ _ _ _ _ _ _ (section_of_Some _ _ _ _ Hsec2) Helems)
    as (prop1 & bs & Hprop1 & Hall & Hh3 & (_ & _ & Hgrow & _)).
  assert (Hcopied : ∀ s, section_of st0 input_file s
                         = copy_section (S input_file) <$> deck0 !! s).
  { intros s. unfold section_of. rewrite Hdecks0, lookup_insert_eq. simpl.
    apply lookup_fmap. }
  exists deck0, coordinates, prop1, bs.
  repeat (split; [done|]). split; [|split; [|split]].
  - rewrite Hgrow, Hsec2.
    rewrite (blocks_records_false get_four_c_type get_four_c_name).
    + simpl. by rewrite app_nil_r.
    + eapply blocks_created_false; [exact Hall|]. apply element_section_not_coords.
  - intros s Hs. by rewrite Hgrow, Hother2, Hcopied.
  - intros geo name label Hin.
    assert (Hc : blocks_created bs name = false).
    { eapply blocks_created_false; [exact Hall|].
      intros sec. by eapply element_section_not_topology. }
    rewrite Hgrow, Hc, (blocks_records_false get_four_c_type get_four_c_name) by done.
    rewrite grow_nothing, Hother2, Hcopied; [done|].
    intros ->. unfold name_geometry_tuple in Hin.
    repeat (apply elem_of_cons in Hin as [[=]|Hin]). by apply elem_of_nil in Hin.
  - intros l dd Hl Hdd. rewrite Hh3, Hh2. by apply Hkept0.
Qed.

End MeshClaims.

Example example_mesh_deck :
  let '(input_file, st') :=
    example_mesh example_section example_type example_name example_cubit example_exo in
  input_file = 4
  ∧ decks st' !! 0 = decks example_store !! 0
  ∧ record_field "id" <$> entries (section_of st' input_file "NODE COORDS")
    = [Some (VInt 1); Some (VInt 2); Some (VInt 3); Some (VInt 4)]
  ∧ entries (section_of st' input_file "DESIGN LINE DIRICH CONDITIONS") = [ERef 2]
  ∧ section_of st' 0 "NODE COORDS" = None.
Proof. vm_compute. repeat split. Qed.

(** When the deck of the session itself refers to the description of a
    node set, that record is the registry's dictionary and shows the [E]
    the conversion writes. *)
Example example_shared_description :
  ∃ input_file st',
    get_input_file_with_mesh example_section example_type example_name
      example_cubit example_exo example_store_shared = Ok (input_file, st')
    ∧ decks st' !! 0 = decks example_store_shared !! 0
    ∧ dicts example_store_shared !! 2 = Some [("NUMDOF", VInt 3)]
    ∧ dicts st' !! 2 = Some [("NUMDOF", VInt 3); ("E", VInt 2)].
Proof. do 2 eexists. split; [vm_compute; reflexivity|]. vm_compute. repeat split. Qed.

Lemma get_input_file_with_mesh_independent_copy_witness :
  let r := from_Ok (get_input_file_with_mesh example_section example_type example_name
                      example_cubit example_exo example_store_external)
             (0, example_store_external) in
  r.1 ≠ 0
  ∧ section_of example_store_external 0 "DESIGN LINE DIRICH CONDITIONS"
    = Some (SList [ERef 2])
  ∧ section_of r.2 0 "DESIGN LINE DIRICH CONDITIONS" = Some (SList [ERef 2])
  ∧ length (entries (section_of r.2 r.1 "DESIGN LINE DIRICH CONDITIONS")) = 2
  ∧ is_Some (section_of r.2 r.1 "NODE COORDS")
  ∧ section_of r.2 0 "NODE COORDS" = None
  ∧ deck_shows r.2 0 "PROBLEM TYPE" = deck_shows example_store_external 0 "PROBLEM TYPE".
Proof.
  destruct (get_input_file_with_mesh_independent_copy
              example_section example_type example_name
              example_cubit example_exo example_store_external
              (from_Ok (get_input_file_with_mesh example_section example_type
                          example_name example_cubit example_exo example_store_external)
                 (0, example_store_external)).1
              (from_Ok (get_input_file_with_mesh example_section example_type
                          example_name example_cubit example_exo example_store_external)
                 (0, example_store_external)).2)
    as (Hne & _ & _ & Hsections & _ & Hcoords & _ & _ & Hshows).
  - vm_compute. reflexivity.
  - split; [exact Hne|]. split; [vm_compute; reflexivity|].
    split; [rewrite Hsections; vm_compute; reflexivity|].
    split; [vm_compute; reflexivity|]. split; [exact Hcoords|].
    split; [rewrite Hsections; vm_compute; reflexivity|].
    apply Hshows. intros l Hl. vm_compute in Hl. by apply elem_of_nil in Hl.
Defined.

Lemma get_input_file_with_mesh_no_node_sets_witness :
  add_node_sets_input_file example_cubit_no_sets example_exo_no_sets 0 example_store
  = Ok example_store
  ∧ let r := example_mesh example_section example_type example_name
               example_cubit_no_sets example_exo_no_sets in
    section_of r.2 r.1 "DLINE-NODE TOPOLOGY" = None
    ∧ section_of r.2 r.1 "NODE COORDS"
      = Some (SList (node_records [(10, 20, 0); (11, 21, 0); (12, 22, 0); (13, 23, 0)]%Z)).
Proof.
  destruct (get_input_file_with_mesh_no_node_sets
              example_section example_type example_name
              example_cubit_no_sets example_exo_no_sets example_store eq_refl)
    as (Hsets & _ & Hdeck).
  split; [apply Hsets|].
  destruct (Hdeck
              (example_mesh example_section example_type example_name
                 example_cubit_no_sets example_exo_no_sets).1
              (example_mesh example_section example_type example_name
                 example_cubit_no_sets example_exo_no_sets).2)
    as (deck0 & coordinates & prop1 & bs & Hdeck0 & Hread & _ & _ & Hcoords & _ & Htopo & _).
  - vm_compute. reflexivity.
  - vm_compute in Hdeck0. injection Hdeck0 as <-.
    vm_compute in Hread. injection Hread as <-.
    split.
    + rewrite (Htopo curve "DLINE-NODE TOPOLOGY" "DLINE"); [reflexivity|].
      apply list_elem_of_further, list_elem_of_here.
    + exact Hcoords.
Defined.

(** * Further properties *)

(** ** The id maps *)

Lemma enumerate_from_app {A} (l1 l2 : list A) start :
  enumerate_from start (l1 ++ l2)
  = enumerate_from start l1 ++ enumerate_from (start + length l1) l2.
Proof.
  revert start. induction l1 as [|x l1 IH]; intros start; simpl.
  - by rewrite Nat.add_0_r.
  - rewrite IH. do 3 f_equal. lia.
Qed.

Lemma comprehension_Forall2 {A B} (f : A → result B) (l : list A) (ys : list B) :
  comprehension f l = Ok ys ↔ Forall2 (λ x y, f x = Ok y) l ys.
Proof.
  revert ys. induction l as [|x l IH]; intros ys; simpl.
  - split; [intros [= <-]; constructor | by inversion 1].
  - split.
    + intros H. inv_bind H as y Hy. inv_bind H as ys' Hys. injection H as <-.
      constructor; [done | by apply IH].
    + inversion 1 as [|? y ? ys' Hy Hys]; subst. rewrite Hy. simpl.
      apply IH in Hys. by rewrite Hys.
Qed.

(** The loop of [_exo_to_cubit_ids] over the ids [prop1]. *)
Lemma ids_loop_spec names (prop1 : list Z) acc' :
  for_each (ids_step names) (enumerate prop1) no_ids = Ok acc' →
  length prop1 ≤ length names
  ∧ length (entries_info acc') = length prop1
  ∧ (∀ i c, prop1 !! i = Some c →
       ∃ name, names !! i = Some name
         ∧ entries_info acc' !! i
           = Some {| info_cubit_id := c; info_exo_id := i; info_name := name |})
  ∧ (∀ c i, cubit_id_to_exo_id acc' !! c = Some i
            ↔ prop1 !! i = Some c ∧ ∀ j, prop1 !! j = Some c → j ≤ i)
  ∧ (∀ i c, exo_id_to_cubit_id acc' !! i = Some c ↔ prop1 !! i = Some c).
Proof.
  revert acc'. induction prop1 as [|x l IH] using rev_ind; intros acc' Hrun.
  - injection Hrun as <-. simpl. split; [lia|]. split; [done|].
    split; [done|]. split; intros ??; rewrite lookup_empty; naive_solver.
  - unfold enumerate in Hrun. rewrite enumerate_from_app, for_each_app in Hrun.
    inv_bind Hrun as acc Hl. simpl in Hrun. inv_bind Hrun as acc1 Hstep.
    injection Hrun as <-. unfold ids_step in Hstep.
    inv_bind Hstep as name Hname. injection Hstep as <-.
    destruct (IH _ Hl) as (Hlen & Hentries & Hinfo & Hc2e & He2c).
    unfold index in Hname.
    destruct (names !! length l) as [name'|] eqn:Hnm; [|discriminate].
    injection Hname as ->.
    pose proof (lookup_lt_Some _ _ _ Hnm) as Hlt.
    assert (Hlast : (l ++ [x]) !! length l = Some x).
    { apply lookup_snoc_Some. by right. }
    rewrite length_app. simpl. split; [lia|].
    split; [rewrite length_app, Hentries; simpl; lia|]. split; [|split].
    + intros i c Hi. apply lookup_snoc_Some in Hi as [[Hil Hi]|[-> <-]].
      * destruct (Hinfo i c Hi) as (nm & Hnmi & Hei). exists nm. split; [done|].
        rewrite lookup_app_l; [done|]. by rewrite Hentries.
      * exists name. split; [done|].
        rewrite lookup_app_r by lia. by rewrite Hentries, Nat.sub_diag.
    + intros c i. destruct (decide (c = x)) as [->|Hne].
      * rewrite lookup_insert_eq. split.
        -- intros [= <-]. split; [done|].
           intros j Hj. apply lookup_snoc_Some in Hj as [[? _]|[-> _]]; lia.
        -- intros [Hi Hmax]. f_equal. specialize (Hmax _ Hlast).
           apply lookup_snoc_Some in Hi as [[? _]|[-> _]]; lia.
      * rewrite lookup_insert_ne by done. rewrite Hc2e. split.
        -- intros [Hi Hmax]. split.
           ++ apply lookup_snoc_Some. left. split; [by eapply lookup_lt_Some | done].
           ++ intros j Hj. apply lookup_snoc_Some in Hj as [[_ Hj]|[_ ?]];
                [by apply Hmax | congruence].
        -- intros [Hi Hmax].
           apply lookup_snoc_Some in Hi as [[Hil Hi]|[_ ?]]; [|congruence].
           split; [done|]. intros j Hj. apply Hmax, lookup_snoc_Some. left.
           split; [by eapply lookup_lt_Some | done].
    + intros i c. destruct (decide (i = length l)) as [->|Hne].
      * rewrite lookup_insert_eq, Hlast. done.
      * rewrite lookup_insert_ne by done. rewrite He2c, lookup_snoc_Some. split.
        -- intros Hi. left. split; [by eapply lookup_lt_Some | done].
        -- intros [[_ Hi]|[? _]]; [done | lia].
Qed.

(** With a name for every id the loop returns; with too few names it
    raises [IndexError]. *)
Lemma ids_loop_total names (prop1 : list Z) :
  length prop1 ≤ length names →
  succeeds (for_each (ids_step names) (enumerate prop1) no_ids).
Proof.
  induction prop1 as [|x l IH] using rev_ind; intros Hlen; [by eexists|].
  rewrite length_app in Hlen. simpl in Hlen.
  destruct IH as [acc Hacc]; [lia|].
  unfold enumerate. rewrite enumerate_from_app, for_each_app.
  unfold enumerate in Hacc. rewrite Hacc. simpl. unfold ids_step, index.
  destruct (lookup_lt_is_Some_2 names (length l)) as [name Hname]; [lia|].
  rewrite Hname. simpl. by eexists.
Qed.

Lemma ids_loop_too_few_names names (prop1 : list Z) :
  length names < length prop1 →
  for_each (ids_step names) (enumerate prop1) no_ids = Raise IndexError.
Proof.
  intros Hlen. rewrite <-(take_drop (length names) prop1).
  unfold enumerate. rewrite enumerate_from_app, for_each_app.
  destruct (ids_loop_total names (take (length names) prop1)) as [acc Hacc].
  { rewrite length_take. lia. }
  unfold enumerate in Hacc. rewrite Hacc. simpl.
  destruct (drop (length names) prop1) as [|x rest] eqn:Hdrop.
  { apply (f_equal length) in Hdrop. rewrite length_drop in Hdrop. simpl in Hdrop. lia. }
  simpl. unfold ids_step, index. rewrite length_take.
  rewrite lookup_ge_None_2; [done|]. lia.
Qed.

Lemma exo_to_cubit_ids_Ok exo entry_type ids :
  _exo_to_cubit_ids exo entry_type = Ok ids →
  (entry_type = "block" ∨ entry_type = "nodeset")
  ∧ ∃ lines names prop1,
      char_array2 exo (exo_identifier entry_type +:+ "_names") = Ok lines
      ∧ comprehension decode_name lines = Ok names
      ∧ int_array exo (exo_identifier entry_type +:+ "_prop1") = Ok prop1
      ∧ for_each (ids_step names) (enumerate prop1) no_ids = Ok ids.
Proof.
  unfold _exo_to_cubit_ids, exo_identifier. intros H. inv_bind H as ident Hident.
  assert (Hcases : (entry_type = "block" ∨ entry_type = "nodeset")
            ∧ ident = if decide (entry_type = "block") then "eb" else "ns").
  { destruct (decide (entry_type = "block")); [split; [by left | congruence]|].
    destruct (decide (entry_type = "nodeset")); [|discriminate].
    split; [by right | congruence]. }
  destruct Hcases as [Htype ->]. split; [done|].
  inv_bind H as lines Hlines. inv_bind H as names Hnames.
  inv_bind H as prop1 Hprop1. by exists lines, names, prop1.
Qed.

(** X1 (id maps): the two maps of [_exo_to_cubit_ids] read [<id>_prop1]:
    the exchange index to the cubit id at that position, the cubit id to
    the last position that holds it.  Going from a cubit id to its
    exchange index and back gives the cubit id; going from an exchange
    index to its cubit id and back gives the index when no cubit id
    occurs twice in the file. *)
Theorem exo_to_cubit_ids_maps exo entry_type ids :
  _exo_to_cubit_ids exo entry_type = Ok ids →
  ∃ prop1,
    int_array exo (exo_identifier entry_type +:+ "_prop1") = Ok prop1
    ∧ (∀ i c, exo_id_to_cubit_id ids !! i = Some c ↔ prop1 !! i = Some c)
    ∧ (∀ c i, cubit_id_to_exo_id ids !! c = Some i
              ↔ prop1 !! i = Some c ∧ ∀ j, prop1 !! j = Some c → j ≤ i)
    ∧ (∀ c i, cubit_id_to_exo_id ids !! c = Some i →
              exo_id_to_cubit_id ids !! i = Some c)
    ∧ (NoDup prop1 →
       ∀ i c, exo_id_to_cubit_id ids !! i = Some c →
              cubit_id_to_exo_id ids !! c = Some i).
Proof.
  intros H.
  destruct (exo_to_cubit_ids_Ok _ _ _ H)
    as (_ & lines & names & prop1 & _ & _ & Hprop1 & Hloop).
  destruct (ids_loop_spec _ _ _ Hloop) as (_ & _ & _ & Hc2e & He2c).
  exists prop1. repeat (split; [done|]). split.
  - intros c i Hi. apply He2c. by apply Hc2e.
  - intros Hnodup i c Hi. apply He2c in Hi. apply Hc2e. split; [done|].
    intros j Hj. by rewrite (NoDup_lookup _ _ _ _ Hnodup Hi Hj).
Qed.

Lemma exo_to_cubit_ids_maps_witness :
  ∃ ids, _exo_to_cubit_ids example_exo "nodeset" = Ok ids
    ∧ cubit_id_to_exo_id ids !! 3%Z = Some 1
    ∧ exo_id_to_cubit_id ids !! 1 = Some 3%Z.
Proof.
  destruct (_exo_to_cubit_ids example_exo "nodeset") as [ids|] eqn:Hids;
    [|vm_compute in Hids; discriminate].
  destruct (exo_to_cubit_ids_maps example_exo "nodeset" ids Hids)
    as (prop1 & Hprop1 & He2c & _ & _ & Hback).
  vm_compute in Hprop1. injection Hprop1 as <-.
  assert (H1 : exo_id_to_cubit_id ids !! 1 = Some 3%Z) by (by apply He2c).
  exists ids. split; [done|]. split; [|done].
  apply Hback; [|done]. repeat constructor; set_solver.
Defined.

(** The last occurrence wins: with the cubit id 7 at the exchange indices
    0 and 2, index 0 is not found again from its cubit id. *)
Example exo_to_cubit_ids_repeated :
  ∃ ids, _exo_to_cubit_ids example_exo_repeated "nodeset" = Ok ids
    ∧ exo_id_to_cubit_id ids !! 0 = Some 7%Z
    ∧ cubit_id_to_exo_id ids !! 7%Z = Some 2.
Proof. eexists. split; [vm_compute; reflexivity|]. vm_compute. done. Qed.

(** X2 (entries in file order): [entries_info] has one entry for each id
    of [<id>_prop1], in file order; the entry at exchange index [i] holds
    the cubit id at that position, [i] itself, and the decoded name of row
    [i] of [<id>_names]. *)
Theorem exo_to_cubit_ids_entries exo entry_type ids :
  _exo_to_cubit_ids exo entry_type = Ok ids →
  ∃ lines prop1,
    char_array2 exo (exo_identifier entry_type +:+ "_names") = Ok lines
    ∧ int_array exo (exo_identifier entry_type +:+ "_prop1") = Ok prop1
    ∧ length (entries_info ids) = length prop1
    ∧ ∀ i c, prop1 !! i = Some c →
        ∃ line name,
          lines !! i = Some line
          ∧ decode_name line = Ok name
          ∧ entries_info ids !! i
            = Some {| info_cubit_id := c; info_exo_id := i; info_name := name |}.
Proof.
  intros H.
  destruct (exo_to_cubit_ids_Ok _ _ _ H)
    as (_ & lines & names & prop1 & Hlines & Hnames & Hprop1 & Hloop).
  destruct (ids_loop_spec _ _ _ Hloop) as (_ & Hlen & Hinfo & _).
  exists lines, prop1. repeat (split; [done|]).
  intros i c Hi. destruct (Hinfo i c Hi) as (name & Hname & Hentry).
  apply comprehension_Forall2 in Hnames.
  destruct (Forall2_lookup_r _ _ _ _ _ Hnames Hname) as (line & Hline & Hdec).
  by exists line, name.
Qed.

Lemma exo_to_cubit_ids_entries_witness :
  ∃ ids, _exo_to_cubit_ids example_exo_repeated "nodeset" = Ok ids
    ∧ entries_info ids !! 0
      = Some {| info_cubit_id := 7; info_exo_id := 0; info_name := Some "a" |}.
Proof.
  destruct (_exo_to_cubit_ids example_exo_repeated "nodeset") as [ids|] eqn:Hids;
    [|vm_compute in Hids; discriminate].
  destruct (exo_to_cubit_ids_entries example_exo_repeated "nodeset" ids Hids)
    as (lines & prop1 & Hlines & Hprop1 & _ & Hinfo).
  vm_compute in Hlines. injection Hlines as <-.
  vm_compute in Hprop1. injection Hprop1 as <-.
  destruct (Hinfo 0 7%Z eq_refl) as (line & name & Hline & Hname & Hentry).
  injection Hline as <-. vm_compute in Hname. injection Hname as <-.
  exists ids. by split.
Defined.

(** ** Decoding and its errors *)

Lemma decode_line_Ok_ascii (line : list name_cell) (name out : string) :
  decode_line line name = Ok out → Forall ascii_cell line.
Proof.
  revert name. induction line as [|c line IH]; intros name H; [apply Forall_nil_2|].
  destruct c as [|[x|]]; simpl in H.
  - apply Forall_cons_2; [done | by eapply IH].
  - destruct (decide (Byte.to_N x < 128)%N) as [Hx|]; [|discriminate].
    apply Forall_cons_2; [done | by eapply IH].
  - apply Forall_cons_2; [done | by eapply IH].
Qed.

Lemma decode_line_raises (line : list name_cell) (name : string) e :
  decode_line line name = Raise e → e = UnicodeDecodeError.
Proof.
  revert name. induction line as [|c line IH]; intros name H; [discriminate|].
  destruct c as [|[x|]]; simpl in H.
  - by eapply IH.
  - destruct (decide (Byte.to_N x < 128)%N); simpl in H; [by eapply IH | congruence].
  - by eapply IH.
Qed.

Lemma decode_name_succeeds (line : list name_cell) :
  succeeds (decode_name line) ↔ Forall ascii_cell line.
Proof.
  unfold decode_name. split.
  - intros [name H]. inv_bind H as out Hout. by eapply decode_line_Ok_ascii.
  - intros Hall. rewrite decode_line_text by done. by eexists.
Qed.

Lemma decode_name_raises (line : list name_cell) :
  ¬ Forall ascii_cell line → decode_name line = Raise UnicodeDecodeError.
Proof.
  intros Hnot. unfold decode_name.
  destruct (decode_line line "") as [out|e] eqn:H.
  - exfalso. apply Hnot. by eapply decode_line_Ok_ascii.
  - simpl. by rewrite (decode_line_raises _ _ _ H).
Qed.

Lemma comprehension_decode_names (lines : list (list name_cell)) :
  succeeds (comprehension decode_name lines) ↔ Forall (Forall ascii_cell) lines.
Proof.
  induction lines as [|line lines IH]; simpl.
  - split; [intros _; apply Forall_nil_2 | by eexists].
  - rewrite Forall_cons, <-IH, <-decode_name_succeeds. split.
    + intros [names H]. inv_bind H as name Hname. inv_bind H as names' Hnames.
      split; by eexists.
    + intros [[name ->] [names ->]]. by eexists.
Qed.

Lemma comprehension_length {A B} (f : A → result B) (l : list A) (ys : list B) :
  comprehension f l = Ok ys → length ys = length l.
Proof.
  intros H. apply comprehension_Forall2 in H. symmetry. by eapply Forall2_length.
Qed.

(** X3 (when the id maps come back): any entry type other than
    ["block"] and ["nodeset"] raises [ValueError] whatever the file
    holds.  On a file whose [<id>_prop1] is an array of integers,
    [_exo_to_cubit_ids] returns exactly when the entry type is one of
    the two, the variable [<id>_names] is there with rows that can be
    iterated, every byte of every name is ASCII, and there are at least
    as many name rows as ids; fewer name rows than ids raise
    [IndexError].  A names variable whose cells are integers gives every
    entry the name [None]. *)
Theorem exo_to_cubit_ids_succeeds exo entry_type :
  (entry_type ≠ "block" → entry_type ≠ "nodeset" →
   _exo_to_cubit_ids exo entry_type = Raise ValueError)
  ∧ (∀ prop1,
       variables exo !! (exo_identifier entry_type +:+ "_prop1") = Some (IntArray prop1) →
       (succeeds (_exo_to_cubit_ids exo entry_type)
        ↔ (entry_type = "block" ∨ entry_type = "nodeset")
          ∧ ∃ lines,
              char_array2 exo (exo_identifier entry_type +:+ "_names") = Ok lines
              ∧ Forall (Forall ascii_cell) lines
              ∧ length prop1 ≤ length lines))
  ∧ (∀ lines prop1,
       entry_type = "block" ∨ entry_type = "nodeset" →
       char_array2 exo (exo_identifier entry_type +:+ "_names") = Ok lines →
       Forall (Forall ascii_cell) lines →
       int_array exo (exo_identifier entry_type +:+ "_prop1") = Ok prop1 →
       length lines < length prop1 →
       _exo_to_cubit_ids exo entry_type = Raise IndexError)
  ∧ (∀ rows prop1 ids,
       variables exo !! (exo_identifier entry_type +:+ "_names") = Some (IntArray2 rows) →
       int_array exo (exo_identifier entry_type +:+ "_prop1") = Ok prop1 →
       _exo_to_cubit_ids exo entry_type = Ok ids →
       Forall (λ info, info_name info = None) (entries_info ids)).
Proof.
  assert (Hunfold : ∀ lines names prop1,
            entry_type = "block" ∨ entry_type = "nodeset" →
            char_array2 exo (exo_identifier entry_type +:+ "_names") = Ok lines →
            comprehension decode_name lines = Ok names →
            int_array exo (exo_identifier entry_type +:+ "_prop1") = Ok prop1 →
            _exo_to_cubit_ids exo entry_type
            = for_each (ids_step names) (enumerate prop1) no_ids).
  { intros lines names prop1 Htype Hlines Hnames Hprop1.
    unfold _exo_to_cubit_ids. unfold exo_identifier in Hlines, Hprop1.
    destruct (decide (entry_type = "block")) as [Hb|Hb]; simpl.
    - by rewrite Hlines, bind_Ok_l, Hnames, bind_Ok_l, Hprop1.
    - destruct Htype as [?|Hn]; [done|]. rewrite decide_True by done. simpl.
      by rewrite Hlines, bind_Ok_l, Hnames, bind_Ok_l, Hprop1. }
  split; [|split; [|split]].
  - intros Hb Hn. unfold _exo_to_cubit_ids. by rewrite !decide_False.
  - intros prop1 Hvar.
    assert (Hprop1 : int_array exo (exo_identifier entry_type +:+ "_prop1") = Ok prop1).
    { unfold int_array. by rewrite (proj2 (getitem_Ok _ _ _) Hvar). }
    split.
    + intros [ids H].
      destruct (exo_to_cubit_ids_Ok _ _ _ H)
        as (Htype & lines & names & prop1' & Hlines & Hnames & Hprop1' & Hloop).
      assert (prop1' = prop1) as -> by congruence.
      split; [done|]. exists lines. split; [done|]. split.
      * apply comprehension_decode_names. by eexists.
      * destruct (ids_loop_spec _ _ _ Hloop) as [Hlen _].
        by rewrite <-(comprehension_length _ _ _ Hnames).
    + intros (Htype & lines & Hlines & Hascii & Hlen).
      apply comprehension_decode_names in Hascii as [names Hnames].
      rewrite (Hunfold lines names prop1) by done.
      apply ids_loop_total. by rewrite (comprehension_length _ _ _ Hnames).
  - intros lines prop1 Htype Hlines Hascii Hprop1 Hlen.
    apply comprehension_decode_names in Hascii as [names Hnames].
    rewrite (Hunfold lines names prop1) by done.
    apply ids_loop_too_few_names. by rewrite (comprehension_length _ _ _ Hnames).
  - intros rows prop1 ids Hvar Hprop1 H.
    destruct (exo_to_cubit_ids_Ok _ _ _ H)
      as (Htype & lines & names & prop1' & Hlines & Hnames & Hprop1' & Hloop).
    unfold char_array2 in Hlines. rewrite (proj2 (getitem_Ok _ _ _) Hvar) in Hlines.
    simpl in Hlines. injection Hlines as <-.
    assert (Hnone : Forall (λ name, name = None) names).
    { clear -Hnames. revert names Hnames.
      induction rows as [|row rows IH]; intros names Hnames.
      - injection Hnames as <-. constructor.
      - simpl in Hnames. inv_bind Hnames as name Hname. inv_bind Hnames as rest Hrest.
        injection Hnames as <-. constructor; [|by apply IH].
        unfold decode_name in Hname.
        assert (Hline : ∀ acc, decode_line ((λ _ : Z, masked) <$> row) acc = Ok acc).
        { clear. induction row as [|x row IH]; intros acc; [done|]. simpl. apply IH. }
        rewrite Hline, bind_Ok_l in Hname. rewrite decide_True in Hname by done.
        by injection Hname as <-. }
    destruct (ids_loop_spec _ _ _ Hloop) as (_ & Hlen & Hinfo & _).
    apply Forall_forall. intros info Hin.
    apply list_elem_of_lookup in Hin as [i Hi].
    destruct (lookup_lt_is_Some_2 prop1' i) as [c Hc].
    { rewrite <-Hlen. by eapply lookup_lt_Some. }
    destruct (Hinfo i c Hc) as (name & Hname & Hentry).
    rewrite Hi in Hentry. injection Hentry as ->. simpl.
    rewrite Forall_forall in Hnone. apply Hnone.
    by eapply list_elem_of_lookup_2.
Qed.

Lemma exo_to_cubit_ids_succeeds_witness :
  succeeds (_exo_to_cubit_ids example_exo "block")
  ∧ _exo_to_cubit_ids example_exo "sideset" = Raise ValueError.
Proof.
  destruct (exo_to_cubit_ids_succeeds example_exo "block") as (_ & Hiff & _).
  destruct (exo_to_cubit_ids_succeeds example_exo "sideset") as (Hbad & _).
  split.
  - apply (Hiff [1; 2]%Z); [vm_compute; reflexivity|]. split; [by left|].
    exists [[masked; masked]; [masked; masked]].
    split; [vm_compute; reflexivity|]. split.
    + repeat (apply Forall_cons_2; [|]); try apply Forall_nil_2; done.
    + simpl; lia.
  - apply Hbad; discriminate.
Defined.

(** X4 (name cells): a name buffer decodes exactly when every byte in it
    is ASCII, and raises [UnicodeDecodeError] otherwise; masked cells and
    empty bytes are left out of the name wherever they stand in the
    buffer. *)
Theorem decode_name_cells (line : list name_cell) :
  (succeeds (decode_name line) ↔ Forall ascii_cell line)
  ∧ (¬ Forall ascii_cell line → decode_name line = Raise UnicodeDecodeError)
  ∧ (∀ before pad after,
       line = before ++ pad ++ after → Forall blank pad →
       decode_name line = decode_name (before ++ after)).
Proof.
  split; [apply decode_name_succeeds|]. split; [apply decode_name_raises|].
  intros before pad after -> Hpad. unfold decode_name.
  rewrite !decode_line_app.
  destruct (decode_line before "") as [name|]; simpl; [|done].
  rewrite decode_line_app, decode_line_blank by done. done.
Qed.

Lemma decode_name_cells_witness :
  decode_name [np_bytes (Some "a"%byte); masked; np_bytes None; np_bytes (Some "b"%byte)]
  = Ok (Some "ab")
  ∧ decode_name [np_bytes (Some "a"%byte); np_bytes (Some "195"%byte)]
    = Raise UnicodeDecodeError.
Proof.
  split.
  - destruct (decode_name_cells
                [np_bytes (Some "a"%byte); masked; np_bytes None; np_bytes (Some "b"%byte)])
      as (_ & _ & Hskip).
    rewrite (Hskip [np_bytes (Some "a"%byte)] [masked; np_bytes None]
                   [np_bytes (Some "b"%byte)]); [reflexivity | reflexivity |].
    repeat (apply Forall_cons_2; [first [by left | by right]|]). apply Forall_nil_2.
  - destruct (decode_name_cells
                [np_bytes (Some "a"%byte); np_bytes (Some "195"%byte)]) as (_ & Hraise & _).
    apply Hraise. intros Hall.
    apply Forall_cons in Hall as [_ Hall]. apply Forall_cons in Hall as [Hx _].
    vm_compute in Hx. discriminate.
Defined.

(** ** The connectivity as a permutation *)

(** X5 (no node lost): whatever its length, a connectivity comes back
    with the same nodes, none lost and none doubled.  The reordering of
    a 27-node element is one cycle of seven positions: applied to its
    own result six more times it gives the connectivity back.  For any
    other length the result is a list the function cannot be applied to
    again: that call raises [AttributeError]. *)
Theorem get_element_connectivity_list_permutation (connectivity : list Z) :
  ∃ out, get_element_connectivity_list connectivity = Ok out
    ∧ out ≡ₚ connectivity
    ∧ length out = length connectivity
    ∧ (length connectivity = 27 → normalise_again 6 connectivity = Ok connectivity)
    ∧ (length connectivity ≠ 27 →
       get_element_connectivity_list_of_list out = Raise AttributeError).
Proof.
  destruct (decide (length connectivity = 27)) as [Hlen|Hlen].
  - do 27 (destruct connectivity as [|? connectivity]; [discriminate Hlen|]).
    destruct connectivity; [|discriminate Hlen].
    eexists. split; [reflexivity|]. split; [|split; [reflexivity|]].
    + do 20 apply perm_skip. solve_Permutation.
    + split; [intros _; reflexivity | done].
  - assert (H : get_element_connectivity_list connectivity = Ok connectivity).
    { unfold get_element_connectivity_list. by rewrite decide_False. }
    exists connectivity. split; [done|]. split; [done|]. split; [done|].
    split; [done|]. intros _.
    unfold get_element_connectivity_list_of_list. by rewrite decide_False.
Qed.

Lemma get_element_connectivity_list_permutation_witness :
  normalise_again 6 (Z.of_nat <$> seq 0 27) = Ok (Z.of_nat <$> seq 0 27)
  ∧ normalise_again 1 (Z.of_nat <$> seq 0 8) = Raise AttributeError.
Proof.
  split.
  - destruct (get_element_connectivity_list_permutation (Z.of_nat <$> seq 0 27))
      as (out & _ & _ & _ & Hcycle & _).
    apply Hcycle. reflexivity.
  - destruct (get_element_connectivity_list_permutation (Z.of_nat <$> seq 0 8))
      as (out & Hout & _ & _ & _ & Hagain).
    unfold normalise_again. rewrite Hout, bind_Ok_l. simpl.
    rewrite Hagain; [reflexivity | discriminate].
Defined.

Example normalise_twice_differs :
  normalise_again 1 (Z.of_nat <$> seq 0 27)
  = Ok [0; 1; 2; 3; 4; 5; 6; 7; 8; 9; 10; 11; 12; 13; 14; 15; 16; 17; 18; 19;
        25; 22; 23; 20; 26; 24; 21]%Z.
Proof. reflexivity. Qed.

(** ** Metadata of an element *)

Lemma dict_get_not_key (k : string) (dd : pydict) : k ∉ dd.*1 → dict_get k dd = None.
Proof.
  induction dd as [|[k' v'] dd IH]; simpl; [done|].
  intros Hk. apply not_elem_of_cons in Hk as [Hne Hk].
  rewrite decide_False by done. by apply IH.
Qed.

(** [{**a, **b}] read at [k]: the value of [b] when [b] has the key,
    that of [a] otherwise. *)
Lemma dict_get_update (k : string) (a b : pydict) :
  NoDup b.*1 →
  dict_get k (dict_update a b)
  = match dict_get k b with
    | Some v => Some v
    | None => dict_get k a
    end.
Proof.
  unfold dict_update. revert a. induction b as [|[k0 v0] b IH]; intros a Hnodup; [done|].
  simpl in *. apply NoDup_cons in Hnodup as [Hk0 Hnodup]. rewrite IH by done.
  destruct (decide (k0 = k)) as [->|Hne].
  - rewrite dict_get_not_key by done. apply dict_get_set.
  - destruct (dict_get k b); [done|]. by apply dict_get_set_ne.
Qed.

(** X6 (metadata of an element): the [data] of an element record holds
    every entry of the metadata of its block; its [type] is the element
    name of the block unless the metadata has a [type] of its own, which
    then replaces it. *)
Theorem element_record_data i_element connectivity four_c_type four_c_name
    (block_dict : pydict) :
  NoDup block_dict.*1 →
  ∃ data,
    record_field "data"
      (element_record i_element connectivity four_c_type four_c_name block_dict)
    = Some (VDict data)
    ∧ dict_get "type" data
      = Some (default (VStr four_c_name) (dict_get "type" block_dict))
    ∧ (∀ k, k ≠ "type" → dict_get k data = dict_get k block_dict).
Proof.
  intros Hnodup. eexists. split; [reflexivity|]. split.
  - rewrite dict_get_update by done. by destruct (dict_get "type" block_dict).
  - intros k Hk. rewrite dict_get_update by done.
    destruct (dict_get k block_dict); [done|]. simpl. by rewrite decide_False.
Qed.

Lemma element_record_data_witness :
  ∃ data,
    record_field "data"
      (element_record 0 [1; 2]%Z "HEX8" "SOLID" [("MAT", VInt 1); ("type", VStr "WALL")])
    = Some (VDict data)
    ∧ dict_get "type" data = Some (VStr "WALL")
    ∧ dict_get "MAT" data = Some (VInt 1).
Proof.
  destruct (element_record_data 0 [1; 2]%Z "HEX8" "SOLID"
              [("MAT", VInt 1); ("type", VStr "WALL")]) as (data & Hdata & Htype & Hother).
  - repeat constructor; set_solver.
  - exists data. split; [exact Hdata|]. split; [exact Htype|].
    apply Hother. discriminate.
Defined.

(** ** Node sets, function by function *)

Lemma topology_records_elem label (sets : list (list Z)) a i nodes i_node :
  sets !! i = Some nodes → i_node ∈ nodes →
  topology_record i_node label (a + i) ∈ topology_records label a sets.
Proof.
  revert a i. induction sets as [|node_set sets IH]; intros a i Hi Hin; [done|].
  simpl. apply elem_of_app. destruct i as [|i]; simpl in Hi.
  - injection Hi as ->. left. rewrite Nat.add_0_r. unfold set_records.
    apply list_elem_of_fmap. exists i_node. split; [done|].
    unfold sort. by rewrite merge_sort_Permutation.
  - right. replace (a + S i) with (S a + i) by lia. by apply IH.
Qed.

Section NodeSetFunctions.

Context {ElementType : Type}.
Implicit Types cubit : @CubitPy ElementType.

Lemma node_sets_at_app cubit exo prop1 js1 js2 :
  node_sets_at cubit exo prop1 (js1 ++ js2)
  = node_sets_at cubit exo prop1 js1 ++ node_sets_at cubit exo prop1 js2.
Proof. unfold node_sets_at. apply omap_app. Qed.

(** The bucket of a geometry type holds the nodes of the set at exchange
    index [k] at the position one below its positional index. *)
Lemma bucket_lookup cubit exo prop1 k ns nodes :
  node_set_at cubit exo prop1 k = Some (ns, nodes) →
  bucket_of (file_node_sets cubit exo prop1) (geometry_type ns)
    !! (positional_index cubit exo prop1 k (geometry_type ns) - 1)
  = Some nodes.
Proof.
  intros Hat. pose proof (node_set_at_lt _ _ _ _ _ Hat) as Hk.
  unfold file_node_sets, positional_index.
  replace (length prop1) with (k + S (length prop1 - S k)) by lia.
  rewrite seq_app, node_sets_at_app, bucket_of_app.
  change (seq (0 + k) (S (length prop1 - S k)))
    with ([k] ++ seq (S k) (length prop1 - S k)).
  rewrite node_sets_at_app, bucket_of_app.
  rewrite lookup_app_r by lia.
  replace (S (length (bucket_of (node_sets_at cubit exo prop1 (seq 0 k))
                        (geometry_type ns))) - 1
           - length (bucket_of (node_sets_at cubit exo prop1 (seq 0 k))
                       (geometry_type ns))) with 0 by lia.
  unfold node_sets_at at 1. simpl. rewrite Hat. simpl.
  rewrite bucket_of_cons. simpl. by rewrite decide_True.
Qed.

(** What the call leaves in the deck: the boundary-condition sections
    grown, then the topology sections of the buckets that have a set. *)
Lemma add_node_sets_input_file_sections cubit exo d st st' prop1 :
  int_array exo "ns_prop1" = Ok prop1 →
  is_Some (decks st !! d) →
  size (node_sets cubit) ≠ 0 →
  add_node_sets_input_file cubit exo d st = Ok st' →
  Forall (λ j, is_Some (node_set_at cubit exo prop1 j)) (seq 0 (length prop1))
  ∧ (∀ geo name label,
       (geo, name, label) ∈ name_geometry_tuple →
       bucket_of (file_node_sets cubit exo prop1) geo ≠ [] →
       section_of st' d name
       = Some (SList (topology_records label 0
                        (bucket_of (file_node_sets cubit exo prop1) geo))))
  ∧ (∀ s, s ∉ topology_sections →
          section_of st' d s
          = grow (section_of st d s)
              (bc_created (file_node_sets cubit exo prop1).*1 s)
              (bc_records (file_node_sets cubit exo prop1).*1 s))
  ∧ (∀ l, l ∉ (λ r, bc_description r.1) <$> file_node_sets cubit exo prop1 →
          dicts st' !! l = dicts st !! l).
Proof.
  intros Hprop1 Hd Hsize Hrun.
  destruct (add_node_sets_input_file_Ok _ _ _ _ _ _ Hsize Hprop1 Hrun)
    as (ids & b & st1 & Hids & Hl & Hloop & Htopo).
  destruct (project_loop_general _ _ _ _ _ _ _ _ _ _ Hl Hd Hloop)
    as (Hall & Hb & (_ & Hd1 & Hgrow & _) & Hframe & _).
  destruct (add_topology_sections d b st1 Hd1)
    as (st'' & Hrun' & Hh & Hsec & Hother & _).
  assert (st'' = st') as -> by congruence.
  split; [done|]. split; [|split].
  - intros geo name label Hin Hne. rewrite (Hsec geo name label Hin).
    rewrite Hb. simpl. by rewrite decide_False.
  - intros s Hs. rewrite Hother by done. apply Hgrow.
  - intros l Hnot. rewrite Hh. by apply Hframe.
Qed.

(** X7 (topology and [E] agree): the nodes of the node set at exchange
    index [k] stand in the topology section of its geometry type with the
    [d_id] that is its positional index, the number the call writes under
    [E] of its description; the description holds that number at the end
    of the call unless a later node set shares the dictionary. *)
Theorem add_node_sets_input_file_cross_reference cubit exo d st st' prop1
    k ns nodes geo name label :
  int_array exo "ns_prop1" = Ok prop1 →
  is_Some (decks st !! d) →
  add_node_sets_input_file cubit exo d st = Ok st' →
  node_set_at cubit exo prop1 k = Some (ns, nodes) →
  (geo, name, label) ∈ name_geometry_tuple →
  geometry_type ns = geo →
  (∀ i_node, i_node ∈ nodes →
     ∃ e, e ∈ entries (section_of st' d name)
       ∧ record_field "node_id" e = Some (VInt i_node)
       ∧ record_field "d_type" e = Some (VStr label)
       ∧ record_field "d_id" e
         = Some (VInt (Z.of_nat (positional_index cubit exo prop1 k geo))))
  ∧ ((∀ j ns' nodes', k < j →
        node_set_at cubit exo prop1 j = Some (ns', nodes') →
        bc_description ns' ≠ bc_description ns) →
     has_field st' (bc_description ns) "E"
       (VInt (Z.of_nat (positional_index cubit exo prop1 k geo)))).
Proof.
  intros Hprop1 Hd Hrun Hat Hin <-.
  pose proof (node_set_at_size _ _ _ _ _ Hat) as Hsize.
  pose proof (node_set_at_lt _ _ _ _ _ Hat) as Hk.
  destruct (add_node_sets_input_file_sections _ _ _ _ _ _ Hprop1 Hd Hsize Hrun)
    as (_ & Htopo & _ & _).
  pose proof (bucket_lookup _ _ _ _ _ _ Hat) as Hbucket.
  split.
  - intros i_node Hnode.
    exists (topology_record i_node label
              (positional_index cubit exo prop1 k (geometry_type ns) - 1)).
    split; [|split; [done|split; [done|]]].
    + rewrite (Htopo (geometry_type ns) name label Hin).
      * simpl. by apply (topology_records_elem label _ 0 _ nodes).
      * intros Hnil. by rewrite Hnil in Hbucket.
    + simpl. do 3 f_equal. unfold positional_index. lia.
  - intros Hdistinct.
    destruct (add_node_sets_input_file_Ok _ _ _ _ _ _ Hsize Hprop1 Hrun)
      as (ids & b & st1 & Hids & Hl & Hloop & Htopo').
    destruct (project_loop_split _ _ _ _ _ _ _ _ _ _ _ _ Hl Hd Hk Hat Hloop)
      as (b_k & st_k & _ & Hdk & HE & Hrest).
    destruct (project_loop_general _ _ _ _ _ _ _ _ _ _ Hl Hdk Hrest)
      as (_ & _ & _ & Hframe & _).
    destruct HE as (dd & Hdd & Hget). exists dd. split; [|done].
    rewrite (add_topology_dicts _ _ _ _ Htopo'), Hframe; [done|].
    intros Hin'. apply list_elem_of_fmap in Hin' as ([ns' nodes'] & Heq & Hin').
    apply list_elem_of_omap in Hin' as (j & Hj & Hatj).
    apply elem_of_seq in Hj. apply (Hdistinct j ns' nodes'); [lia | done | done].
Qed.

(** X8 (boundary-condition sections): every section that is no topology
    section holds after the call what it held before, followed by one
    reference for each node set of the file whose boundary condition
    goes there, in exchange-index order; it is created only when a node
    set needs it. *)
Theorem add_node_sets_input_file_bc_sections cubit exo d st st' prop1 s :
  int_array exo "ns_prop1" = Ok prop1 →
  is_Some (decks st !! d) →
  add_node_sets_input_file cubit exo d st = Ok st' →
  s ∉ topology_sections →
  section_of st' d s
  = grow (section_of st d s)
      (bc_created (file_node_sets cubit exo prop1).*1 s)
      (bc_records (file_node_sets cubit exo prop1).*1 s).
Proof.
  intros Hprop1 Hd Hrun Hs.
  destruct (decide (size (node_sets cubit) = 0)) as [Hsize|Hsize].
  - assert (Hnone : file_node_sets cubit exo prop1 = []).
    { unfold file_node_sets, node_sets_at. apply map_size_empty_inv in Hsize.
      induction (seq 0 (length prop1)) as [|j js IH]; [done|]. simpl.
      unfold node_set_at at 1. destruct (prop1 !! j); simpl; [|done].
      by rewrite Hsize, lookup_empty. }
    unfold add_node_sets_input_file in Hrun. rewrite decide_True in Hrun by done.
    injection Hrun as <-. rewrite Hnone. symmetry. apply grow_nothing.
  - by apply (add_node_sets_input_file_sections _ _ _ _ _ _ Hprop1 Hd Hsize Hrun).
Qed.

(** X9 (file and registry out of step): when the session has node sets, a
    node set of the file that the registry does not hold makes the call
    fail; a node set of the registry that the file does not hold is
    passed over without an error, and its description stays as it was
    unless a node set of the file shares it. *)
Theorem add_node_sets_input_file_mismatch cubit exo d st prop1 :
  int_array exo "ns_prop1" = Ok prop1 →
  is_Some (decks st !! d) →
  (size (node_sets cubit) ≠ 0 →
   ∀ k cubit_id, prop1 !! k = Some cubit_id → node_sets cubit !! cubit_id = None →
   ¬ succeeds (add_node_sets_input_file cubit exo d st))
  ∧ (∀ st' cubit_id ns,
       add_node_sets_input_file cubit exo d st = Ok st' →
       node_sets cubit !! cubit_id = Some ns →
       cubit_id ∉ prop1 →
       (∀ j ns' nodes', node_set_at cubit exo prop1 j = Some (ns', nodes') →
                        bc_description ns' ≠ bc_description ns) →
       dicts st' !! bc_description ns = dicts st !! bc_description ns).
Proof.
  intros Hprop1 Hd. split.
  - intros Hsize k cubit_id Hk Hnone [st' Hrun].
    destruct (add_node_sets_input_file_sections _ _ _ _ _ _ Hprop1 Hd Hsize Hrun)
      as (Hall & _).
    rewrite Forall_forall in Hall.
    destruct (Hall k) as [r Hr]; [apply elem_of_seq; apply lookup_lt_Some in Hk; lia|].
    unfold node_set_at in Hr. rewrite Hk in Hr. simpl in Hr.
    rewrite Hnone in Hr. discriminate.
  - intros st' cubit_id ns Hrun Hns _ Hdistinct.
    assert (Hsize : size (node_sets cubit) ≠ 0) by (by eapply map_size_ne_0_lookup_2).
    destruct (add_node_sets_input_file_sections _ _ _ _ _ _ Hprop1 Hd Hsize Hrun)
      as (_ & _ & _ & Hframe).
    apply Hframe. intros Hin.
    apply list_elem_of_fmap in Hin as ([ns' nodes'] & Heq & Hin).
    apply list_elem_of_omap in Hin as (j & _ & Hatj).
    by apply (Hdistinct j ns' nodes').
Qed.

End NodeSetFunctions.

Lemma add_node_sets_input_file_cross_reference_witness :
  ∃ e, e ∈ entries (section_of example_projected 0 "DLINE-NODE TOPOLOGY")
     ∧ record_field "node_id" e = Some (VInt 4)
     ∧ record_field "d_type" e = Some (VStr "DLINE")
     ∧ record_field "d_id" e = Some (VInt 2).
Proof.
  refine (proj1 (add_node_sets_input_file_cross_reference example_cubit example_exo 0
            example_store example_projected [7; 3; 5]%Z 1 example_line_dirichlet [4]%Z
            curve "DLINE-NODE TOPOLOGY" "DLINE" _ _ _ _ _ _) 4%Z _).
  - vm_compute. reflexivity.
  - vm_compute. eauto.
  - vm_compute. reflexivity.
  - vm_compute. reflexivity.
  - unfold name_geometry_tuple. set_solver.
  - reflexivity.
  - apply list_elem_of_here.
Defined.

Lemma add_node_sets_input_file_bc_sections_witness :
  section_of example_projected 0 "DESIGN LINE DIRICH CONDITIONS"
  = Some (SList [ERef 2]).
Proof.
  rewrite (add_node_sets_input_file_bc_sections example_cubit example_exo 0
             example_store example_projected [7; 3; 5]%Z
             "DESIGN LINE DIRICH CONDITIONS").
  - vm_compute. reflexivity.
  - vm_compute. reflexivity.
  - vm_compute. eauto.
  - vm_compute. reflexivity.
  - unfold topology_sections, name_geometry_tuple. simpl.
    rewrite !not_elem_of_cons. repeat split; try discriminate. apply not_elem_of_nil.
Defined.

Lemma add_node_sets_input_file_mismatch_witness :
  ¬ succeeds (add_node_sets_input_file example_cubit_mismatch example_exo 0 example_store)
  ∧ dicts example_two_sets !! bc_description example_point_dirichlet
    = dicts example_store !! bc_description example_point_dirichlet.
Proof.
  split.
  - refine (proj1 (add_node_sets_input_file_mismatch example_cubit_mismatch example_exo 0
              example_store [7; 3; 5]%Z _ _) _ 2 5%Z _ _).
    + vm_compute. reflexivity.
    + vm_compute. eauto.
    + vm_compute. lia.
    + reflexivity.
    + vm_compute. reflexivity.
  - refine (proj2 (add_node_sets_input_file_mismatch example_cubit example_exo_two_sets 0
              example_store [7; 3]%Z _ _) example_two_sets 5%Z example_point_dirichlet
              _ _ _ _).
    + vm_compute. reflexivity.
    + vm_compute. eauto.
    + vm_compute. reflexivity.
    + vm_compute. reflexivity.
    + rewrite !not_elem_of_cons. repeat split; try discriminate. apply not_elem_of_nil.
    + intros j ns' nodes' Hat.
      destruct j as [|[|j]]; vm_compute in Hat; [| |discriminate];
        injection Hat as <- _; discriminate.
Defined.

(** ** The node coordinates *)

Lemma transpose_Ok x y z :
  length x = length y → length y = length z →
  transpose x y z = Ok (zip (zip x y) z).
Proof.
  revert y z. induction x as [|a x IH]; intros [|b y] [|c z] Hxy Hyz;
    simpl in *; try done.
  rewrite IH by lia. done.
Qed.

Lemma transpose_ragged x y z :
  ¬ (length x = length y ∧ length y = length z) →
  transpose x y z = Raise ValueError.
Proof.
  revert y z. induction x as [|a x IH]; intros [|b y] [|c z] H; simpl in *; try done.
  - by destruct H.
  - rewrite IH; [done|]. intros [Hxy Hyz]. apply H. split; congruence.
Qed.

Lemma enumerate_from_length {A} (l : list A) start :
  length (enumerate_from start l) = length l.
Proof. revert start. induction l as [|x l IH]; intros start; simpl; [done|]. by rewrite IH. Qed.

Lemma enumerate_from_lookup {A} (l : list A) start i :
  enumerate_from start l !! i = (λ x, (start + i, x)) <$> l !! i.
Proof.
  revert start i. induction l as [|x l IH]; intros start [|i]; simpl; try done.
  - by rewrite Nat.add_0_r.
  - rewrite IH. by replace (S start + i) with (start + S i) by lia.
Qed.

Lemma node_records_lookup coordinates i c :
  coordinates !! i = Some c → node_records coordinates !! i = Some (node_record c i).
Proof.
  intros Hc. unfold node_records, enumerate.
  by rewrite list_lookup_fmap, enumerate_from_lookup, Hc.
Qed.

Lemma node_records_length coordinates :
  length (node_records coordinates) = length coordinates.
Proof. unfold node_records, enumerate. by rewrite length_fmap, enumerate_from_length. Qed.

(** X10 (rows of coordinates): the coordinates are the rows of the
    columns [coordx], [coordy] and [coordz] of the file; a file without
    [coordz] gives every node the third coordinate 0; columns of
    different lengths raise a [ValueError] instead of being cut to the
    shortest. *)
Theorem read_coordinates_rows exo x y :
  float_array exo "coordx" = Ok x →
  float_array exo "coordy" = Ok y →
  (variables exo !! "coordz" = None →
   read_coordinates exo
   = if decide (length x = length y)
     then Ok (zip (zip x y) (replicate (length x) 0%Z))
     else Raise ValueError)
  ∧ (∀ z, float_array exo "coordz" = Ok z →
          read_coordinates exo
          = if decide (length x = length y ∧ length y = length z)
            then Ok (zip (zip x y) z)
            else Raise ValueError).
Proof.
  intros Hx Hy. split.
  - intros Hz. unfold read_coordinates. rewrite decide_False.
    2:{ rewrite Hz. by intros [? ?]. }
    rewrite Hx, bind_Ok_l, Hy, bind_Ok_l.
    destruct (decide (length x = length y)) as [Hxy|Hxy].
    + apply transpose_Ok; [done|]. by rewrite length_replicate.
    + apply transpose_ragged. by intros [? _].
  - intros z Hz. unfold read_coordinates. rewrite decide_True.
    2:{ unfold float_array in Hz. inv_bind Hz as v Hv.
        apply getitem_Ok in Hv. by rewrite Hv. }
    rewrite Hx, bind_Ok_l, Hy, bind_Ok_l, Hz, bind_Ok_l.
    destruct (decide (length x = length y ∧ length y = length z)) as [[Hxy Hyz]|Hne].
    + by apply transpose_Ok.
    + by apply transpose_ragged.
Qed.

Lemma read_coordinates_rows_witness :
  read_coordinates example_exo
  = Ok [(10, 20, 0); (11, 21, 0); (12, 22, 0); (13, 23, 0)]%Z.
Proof.
  destruct (read_coordinates_rows example_exo [10; 11; 12; 13]%Z [20; 21; 22; 23]%Z)
    as [Hplanar _].
  - vm_compute. reflexivity.
  - vm_compute. reflexivity.
  - rewrite Hplanar; [reflexivity | vm_compute; reflexivity].
Defined.

Example read_coordinates_ragged :
  read_coordinates example_exo_ragged = Raise ValueError
  ∧ read_coordinates example_exo_space
    = Ok [(10, 20, 30); (11, 21, 31)]%Z.
Proof. vm_compute. done. Qed.

(** ** The deck with the mesh, section by section *)

Lemma bc_nothing (nss : list NodeSet) s :
  Forall (λ ns, bc_section ns ≠ Some s) nss →
  bc_created nss s = false ∧ bc_records nss s = [].
Proof.
  intros Hall. split.
  - unfold bc_created. apply bool_decide_eq_false. intros Hex.
    apply Exists_exists in Hex as (ns & Hin & Hsec).
    rewrite Forall_forall in Hall. by apply (Hall ns).
  - unfold bc_records. induction Hall as [|ns nss Hns _ IH]; [done|].
    rewrite filter_cons, decide_False by done. exact IH.
Qed.

Section MeshFunctions.

Context {ElementType : Type}.
Variable get_four_c_section : ElementType → result string.
Variable get_four_c_type : ElementType → result string.
Variable get_four_c_name : ElementType → result string.
Implicit Types cubit : @CubitPy ElementType.

Local Abbreviation add_elements' :=
  (add_elements get_four_c_section get_four_c_type get_four_c_name).
Local Abbreviation get_input_file_with_mesh' :=
  (get_input_file_with_mesh get_four_c_section get_four_c_type get_four_c_name).
Local Abbreviation block_at' := (block_at get_four_c_section).
Local Abbreviation blocks_records' := (blocks_records get_four_c_type get_four_c_name).
Local Abbreviation records_from' := (records_from get_four_c_type get_four_c_name).

Lemma file_node_sets_registered cubit exo prop1 ns :
  ns ∈ (file_node_sets cubit exo prop1).*1 →
  ∃ cubit_id, node_sets cubit !! cubit_id = Some ns.
Proof.
  intros Hin. apply list_elem_of_fmap in Hin as ([ns' nodes] & -> & Hin).
  apply list_elem_of_omap in Hin as (j & _ & Hat).
  unfold node_set_at in Hat.
  destruct (prop1 !! j) as [cubit_id|]; simpl in Hat; [|done].
  destruct (node_sets cubit !! cubit_id) as [ns''|] eqn:Hns; simpl in Hat; [|done].
  destruct (int_array exo _); [|done]. injection Hat as -> _. eauto.
Qed.

Lemma file_node_sets_empty cubit exo prop1 :
  size (node_sets cubit) = 0 → file_node_sets cubit exo prop1 = [].
Proof.
  intros Hsize. unfold file_node_sets, node_sets_at. apply map_size_empty_inv in Hsize.
  induction (seq 0 (length prop1)) as [|j js IH]; [done|]. simpl.
  unfold node_set_at at 1. destruct (prop1 !! j); simpl; [|done].
  by rewrite Hsize, lookup_empty.
Qed.

(** The deck after the node sets went in, with or without node sets. *)
Lemma add_node_sets_input_file_deck cubit exo d st st' prop1 :
  int_array exo "ns_prop1" = Ok prop1 →
  is_Some (decks st !! d) →
  add_node_sets_input_file cubit exo d st = Ok st' →
  (∀ geo name label,
     (geo, name, label) ∈ name_geometry_tuple →
     bucket_of (file_node_sets cubit exo prop1) geo ≠ [] →
     section_of st' d name
     = Some (SList (topology_records label 0
                      (bucket_of (file_node_sets cubit exo prop1) geo))))
  ∧ (∀ s, s ∉ topology_sections →
          section_of st' d s
          = grow (section_of st d s)
              (bc_created (file_node_sets cubit exo prop1).*1 s)
              (bc_records (file_node_sets cubit exo prop1).*1 s)).
Proof.
  intros Hprop1 Hd Hrun.
  destruct (decide (size (node_sets cubit) = 0)) as [Hsize|Hsize].
  - rewrite (file_node_sets_empty _ _ _ Hsize).
    unfold add_node_sets_input_file in Hrun. rewrite decide_True in Hrun by done.
    injection Hrun as <-. split; [done|]. intros s _. symmetry. apply grow_nothing.
  - destruct (add_node_sets_input_file_sections _ _ _ _ _ _ Hprop1 Hd Hsize Hrun)
      as (_ & Htopo & Hother & _). by split.
Qed.

(** A section no node set refers to and that is no topology section is
    left alone by the node-set phase. *)
Lemma add_node_sets_input_file_untouched cubit exo d st st' s :
  is_Some (decks st !! d) →
  add_node_sets_input_file cubit exo d st = Ok st' →
  s ∉ topology_sections →
  (∀ cubit_id ns, node_sets cubit !! cubit_id = Some ns → bc_section ns ≠ Some s) →
  section_of st' d s = section_of st d s.
Proof.
  intros Hd Hrun Hs Hnone.
  destruct (decide (size (node_sets cubit) = 0)) as [Hsize|Hsize].
  - unfold add_node_sets_input_file in Hrun. rewrite decide_True in Hrun by done.
    by injection Hrun as <-.
  - assert (Hprop : ∃ prop1, int_array exo "ns_prop1" = Ok prop1).
    { unfold add_node_sets_input_file in Hrun. rewrite decide_False in Hrun by done.
      inv_bind Hrun as ids Hids. inv_bind Hrun as prop1 Hprop1. eauto. }
    destruct Hprop as [prop1 Hprop1].
    destruct (add_node_sets_input_file_deck _ _ _ _ _ _ Hprop1 Hd Hrun) as [_ Hother].
    rewrite Hother by done.
    destruct (bc_nothing (file_node_sets cubit exo prop1).*1 s) as [-> ->].
    + apply Forall_forall. intros ns Hin.
      destruct (file_node_sets_registered _ _ _ _ Hin) as [cubit_id Hns].
      by apply (Hnone cubit_id).
    + apply grow_nothing.
Qed.

Lemma topology_section_not_coords : "NODE COORDS" ∉ topology_sections.
Proof.
  unfold topology_sections, name_geometry_tuple. simpl.
  rewrite !not_elem_of_cons. repeat split; try discriminate. apply not_elem_of_nil.
Qed.

Lemma topology_sections_elem geo name label :
  (geo, name, label) ∈ name_geometry_tuple → name ∈ topology_sections.
Proof.
  intros Hin. unfold topology_sections. apply list_elem_of_fmap.
  by exists (geo, name, label).
Qed.

(** X11 (node coordinates of the deck with the mesh): whatever the deck
    of the session or a boundary condition had put under
    [NODE COORDS], the deck that comes back holds there exactly one
    record for each row of coordinates, in the order of the file, the
    record of row [i] carrying the id [i + 1] and the three coordinates
    of the row. *)
Theorem get_input_file_with_mesh_node_coords cubit exo st input_file st' :
  get_input_file_with_mesh' cubit exo st = Ok (input_file, st') →
  ∃ coordinates,
    read_coordinates exo = Ok coordinates
    ∧ length (entries (section_of st' input_file "NODE COORDS")) = length coordinates
    ∧ ∀ i c0 c1 c2,
        coordinates !! i = Some (c0, c1, c2) →
        ∃ e, entries (section_of st' input_file "NODE COORDS") !! i = Some e
           ∧ record_field "id" e = Some (VInt (Z.of_nat i + 1))
           ∧ record_field "COORD" e = Some (VList [VFloat c0; VFloat c1; VFloat c2])
           ∧ record_field "data" e = Some (VDict [("type", VStr "NODE")]).
Proof.
  intros Hrun.
  destruct (get_input_file_with_mesh_Ok _ _ _ _ _ _ _ _ Hrun)
    as (st0 & st1 & st2 & n & Hcopy & Hsets & Hcoords & Helems & _ & _).
  destruct (copy_frame _ _ _ _ Hcopy) as (_ & _ & Hdeck0 & _).
  destruct (add_node_sets_input_file_frame _ _ _ _ _ (proj1 Hdeck0) Hsets)
    as (Hdeck1 & _).
  destruct (add_node_coords_Ok _ _ _ _ (proj1 Hdeck1) Hcoords)
    as (coordinates & Hread & Hsec2 & _).
  destruct (add_elements_extends _ _ _ _ _ _ _ _ _ (section_of_Some _ _ _ _ Hsec2) Helems)
    as (prop1 & bs & _ & Hall & _ & (_ & _ & Hgrow & _)).
  assert (Hsec : section_of st' input_file "NODE COORDS"
                 = Some (SList (node_records coordinates))).
  { rewrite Hgrow, Hsec2.
    rewrite (blocks_records_false get_four_c_type get_four_c_name).
    - simpl. by rewrite app_nil_r.
    - eapply blocks_created_false; [exact Hall|]. apply element_section_not_coords. }
  exists coordinates. split; [done|]. rewrite Hsec. simpl. split.
  - apply node_records_length.
  - intros i c0 c1 c2 Hc. exists (node_record (c0, c1, c2) i).
    split; [by apply node_records_lookup|]. split; [|done].
    simpl. do 2 f_equal. lia.
Qed.

(** X12 (sections carried over): a section of the deck of the session
    that is neither [NODE COORDS] nor a topology section, that no node
    set of the registry names as the section of its boundary condition
    and whose name does not end in [ ELEMENTS] is in the deck that comes
    back the copy of what the session holds, and absent when absent
    there. *)
Theorem get_input_file_with_mesh_carries_sections cubit exo st input_file st' dk s :
  get_input_file_with_mesh' cubit exo st = Ok (input_file, st') →
  decks st !! fourc_input cubit = Some dk →
  s ≠ "NODE COORDS" →
  s ∉ topology_sections →
  (∀ cubit_id ns, node_sets cubit !! cubit_id = Some ns → bc_section ns ≠ Some s) →
  (∀ sec, sec +:+ " ELEMENTS" ≠ s) →
  section_of st' input_file s = copy_section (S input_file) <$> dk !! s.
Proof.
  intros Hrun Hdk Hcoord Htopo Hbc Hele.
  destruct (get_input_file_with_mesh_Ok _ _ _ _ _ _ _ _ Hrun)
    as (st0 & st1 & st2 & n & Hcopy & Hsets & Hcoords & Helems & _ & _).
  destruct (copy_frame _ _ _ _ Hcopy) as (_ & _ & Hdeck0 & _).
  destruct (copy_content _ _ _ _ _ Hcopy Hdk) as [Hcopied _].
  destruct (add_node_sets_input_file_frame _ _ _ _ _ (proj1 Hdeck0) Hsets)
    as (Hdeck1 & _).
  destruct (add_node_coords_Ok _ _ _ _ (proj1 Hdeck1) Hcoords)
    as (coordinates & _ & Hsec2 & (_ & Hother2 & _)).
  destruct (add_elements_extends _ _ _ _ _ _ _ _ _ (section_of_Some _ _ _ _ Hsec2) Helems)
    as (prop1 & bs & _ & Hall & _ & (_ & _ & Hgrow & _)).
  rewrite Hgrow.
  rewrite (blocks_created_false _ _ _ _ _ _ _ Hall Hele).
  rewrite (blocks_records_false get_four_c_type get_four_c_name)
    by exact (blocks_created_false _ _ _ _ _ _ _ Hall Hele).
  rewrite grow_nothing, Hother2 by done.
  rewrite (add_node_sets_input_file_untouched _ _ _ _ _ _ (proj1 Hdeck0) Hsets Htopo Hbc).
  apply Hcopied.
Qed.

(** X13 (the deck with the mesh of a session with node sets): a topology
    section whose geometry type has a node set in the file holds exactly
    the topology records of the file, whatever the deck of the session
    held under that name; every section other than [NODE COORDS] and
    the topology sections is the copy of the section of the session,
    followed by the references to the descriptions of the node sets
    whose boundary condition goes there, followed by the elements of
    the blocks of that section. *)
Theorem get_input_file_with_mesh_sections cubit exo st input_file st' dk ns_prop1 :
  get_input_file_with_mesh' cubit exo st = Ok (input_file, st') →
  decks st !! fourc_input cubit = Some dk →
  int_array exo "ns_prop1" = Ok ns_prop1 →
  ∃ eb_prop1 bs,
    int_array exo "eb_prop1" = Ok eb_prop1
    ∧ Forall2 (λ j b, block_at' cubit exo eb_prop1 j = Some b) (seq 0 (length eb_prop1)) bs
    ∧ (∀ geo name label,
         (geo, name, label) ∈ name_geometry_tuple →
         bucket_of (file_node_sets cubit exo ns_prop1) geo ≠ [] →
         section_of st' input_file name
         = Some (SList (topology_records label 0
                          (bucket_of (file_node_sets cubit exo ns_prop1) geo))))
    ∧ (∀ s, s ≠ "NODE COORDS" → s ∉ topology_sections →
            section_of st' input_file s
            = grow (grow (copy_section (S input_file) <$> dk !! s)
                      (bc_created (file_node_sets cubit exo ns_prop1).*1 s)
                      (bc_records (file_node_sets cubit exo ns_prop1).*1 s))
                (blocks_created bs s) (blocks_records' 0 bs s)).
Proof.
  intros Hrun Hdk Hprop1.
  destruct (get_input_file_with_mesh_Ok _ _ _ _ _ _ _ _ Hrun)
    as (st0 & st1 & st2 & n & Hcopy & Hsets & Hcoords & Helems & _ & _).
  destruct (copy_frame _ _ _ _ Hcopy) as (_ & _ & Hdeck0 & _).
  destruct (copy_content _ _ _ _ _ Hcopy Hdk) as [Hcopied _].
  destruct (add_node_sets_input_file_frame _ _ _ _ _ (proj1 Hdeck0) Hsets)
    as (Hdeck1 & _).
  destruct (add_node_sets_input_file_deck _ _ _ _ _ _ Hprop1 (proj1 Hdeck0) Hsets)
    as [Htopo Hother].
  destruct (add_node_coords_Ok _ _ _ _ (proj1 Hdeck1) Hcoords)
    as (coordinates & _ & Hsec2 & (_ & Hother2 & _)).
  destruct (add_elements_extends _ _ _ _ _ _ _ _ _ (section_of_Some _ _ _ _ Hsec2) Helems)
    as (eb_prop1 & bs & Heb & Hall & _ & (_ & _ & Hgrow & _)).
  exists eb_prop1, bs. split; [done|]. split; [done|]. split.
  - intros geo name label Hin Hne.
    assert (Hc : blocks_created bs name = false).
    { eapply blocks_created_false; [exact Hall|].
      intros sec. by eapply element_section_not_topology. }
    rewrite Hgrow, Hc, (blocks_records_false get_four_c_type get_four_c_name) by done.
    rewrite grow_nothing, Hother2; [by apply Htopo|].
    intros ->. apply topology_section_not_coords. by eapply topology_sections_elem.
  - intros s Hcoord Hs. by rewrite Hgrow, Hother2, Hother, Hcopied.
Qed.

Lemma blocks_records_length i bs s :
  length (blocks_records' i bs s) = elements_in bs s.
Proof.
  revert i. induction bs as [|b bs IH]; intros i; [done|].
  simpl. rewrite length_app, IH. unfold elements_in. rewrite filter_cons.
  case_bool_decide as Hb.
  - rewrite decide_True by done. rewrite total_cons.
    by rewrite (records_from_length get_four_c_type get_four_c_name).
  - by rewrite decide_False.
Qed.

(** X14 (element sections as a whole): the call appends to each section
    the elements of the blocks that name it and nothing else, so that the
    section grows by the number of rows of those blocks; a block without
    rows still creates its section when the deck has none; the number
    that comes back is the number of elements of all blocks; no
    dictionary of the store changes. *)
Theorem add_elements_sections cubit exo d st n st' :
  is_Some (decks st !! d) →
  add_elements' cubit exo d st = Ok (n, st') →
  ∃ prop1 bs,
    int_array exo "eb_prop1" = Ok prop1
    ∧ Forall2 (λ j b, block_at' cubit exo prop1 j = Some b) (seq 0 (length prop1)) bs
    ∧ n = total bs
    ∧ dicts st' = dicts st
    ∧ (∀ s, section_of st' d s
            = grow (section_of st d s) (blocks_created bs s) (blocks_records' 0 bs s))
    ∧ (∀ s, length (entries (section_of st' d s))
            = length (entries (section_of st d s)) + elements_in bs s)
    ∧ (∀ b, b ∈ bs → section_of st d (block_section b) = None →
            elements_in bs (block_section b) = 0 →
            section_of st' d (block_section b) = Some (SList [])).
Proof.
  intros Hd Hrun. unfold add_elements in Hrun.
  inv_bind Hrun as ids Hids. inv_bind Hrun as prop1 Hprop1.
  destruct (exo_id_to_cubit_id_lookup _ _ _ Hids) as (prop1' & Hprop1' & Hl).
  rewrite decide_True in Hprop1' by done.
  change ("eb" +:+ "_prop1") with "eb_prop1" in Hprop1'.
  assert (prop1' = prop1) as -> by congruence.
  destruct (block_loop_general get_four_c_section get_four_c_type get_four_c_name
              _ _ _ _ _ _ _ _ _ _ Hl Hd Hrun)
    as (bs & Hall & Hn & Hh & (_ & _ & Hgrow & Hadded & _) & _).
  exists prop1, bs. repeat (split; [done|]).
  assert (Hlen : ∀ s, length (entries (section_of st' d s))
                      = length (entries (section_of st d s)) + elements_in bs s).
  { intros s. rewrite Hgrow, <-blocks_records_length with (i := 0).
    destruct (section_of st d s) as [[old|dd]|] eqn:Hsec; simpl.
    - by rewrite length_app.
    - destruct (blocks_records' 0 bs s) eqn:Hrecs; [done|].
      destruct (Hadded s) as [_ Hno]; [by rewrite Hrecs|]. by destruct (Hno dd).
    - destruct (blocks_created bs s) eqn:Hc; simpl; [done|].
      by rewrite (blocks_records_false get_four_c_type get_four_c_name). }
  split; [done|].
  intros b Hb Hnone Hzero. rewrite Hgrow, Hnone.
  assert (Hc : blocks_created bs (block_section b) = true).
  { apply bool_decide_eq_true. apply Exists_exists. by exists b. }
  rewrite Hc. simpl. f_equal. f_equal. apply nil_length_inv.
  by rewrite blocks_records_length.
Qed.

End MeshFunctions.

Lemma get_input_file_with_mesh_node_coords_witness :
  let r := example_mesh example_section example_type example_name
             example_cubit example_exo in
  ∃ e, entries (section_of r.2 r.1 "NODE COORDS") !! 2 = Some e
     ∧ record_field "id" e = Some (VInt 3)
     ∧ record_field "COORD" e = Some (VList [VFloat 12; VFloat 22; VFloat 0]).
Proof.
  destruct (get_input_file_with_mesh_node_coords
              example_section example_type example_name
              example_cubit example_exo example_store
              (example_mesh example_section example_type example_name
                 example_cubit example_exo).1
              (example_mesh example_section example_type example_name
                 example_cubit example_exo).2)
    as (coordinates & Hread & _ & Hrows).
  - vm_compute. reflexivity.
  - vm_compute in Hread. injection Hread as <-.
    destruct (Hrows 2 12%Z 22%Z 0%Z eq_refl) as (e & He & Hid & Hcoord & _).
    exists e. split; [exact He|]. split; [exact Hid | exact Hcoord].
Defined.

Lemma get_input_file_with_mesh_carries_sections_witness :
  let r := example_mesh example_section example_type example_name
             example_cubit example_exo in
  section_of r.2 r.1 "PROBLEM TYPE"
  = Some (SDict [("PROBLEMTYPE", VStr "Structure")]).
Proof.
  refine (get_input_file_with_mesh_carries_sections
            example_section example_type example_name
            example_cubit example_exo example_store
            (example_mesh example_section example_type example_name
               example_cubit example_exo).1
            (example_mesh example_section example_type example_name
               example_cubit example_exo).2
            {[ "PROBLEM TYPE" := SDict [("PROBLEMTYPE", VStr "Structure")] ]}
            "PROBLEM TYPE" _ _ _ _ _ _).
  - vm_compute. reflexivity.
  - vm_compute. reflexivity.
  - discriminate.
  - unfold topology_sections, name_geometry_tuple. simpl.
    rewrite !not_elem_of_cons. repeat split; try discriminate. apply not_elem_of_nil.
  - intros cubit_id ns Hns Hsec.
    unfold example_cubit in Hns. simpl in Hns.
    repeat (apply lookup_insert_Some in Hns as [[_ <-]|[_ Hns]]; [discriminate Hsec|]).
    by rewrite lookup_empty in Hns.
  - intros sec H. no_element_section H.
Defined.

Lemma get_input_file_with_mesh_sections_witness :
  let r := example_mesh example_section example_type example_name
             example_cubit example_exo in
  section_of r.2 r.1 "DLINE-NODE TOPOLOGY"
  = Some (SList (topology_records "DLINE" 0 [[5; 3]; [4]]%Z)).
Proof.
  destruct (get_input_file_with_mesh_sections
              example_section example_type example_name
              example_cubit example_exo example_store
              (example_mesh example_section example_type example_name
                 example_cubit example_exo).1
              (example_mesh example_section example_type example_name
                 example_cubit example_exo).2
              {[ "PROBLEM TYPE" := SDict [("PROBLEMTYPE", VStr "Structure")] ]}
              [7; 3; 5]%Z)
    as (eb_prop1 & bs & _ & _ & Htopo & _).
  - vm_compute. reflexivity.
  - vm_compute. reflexivity.
  - vm_compute. reflexivity.
  - apply (Htopo curve "DLINE-NODE TOPOLOGY" "DLINE").
    + apply list_elem_of_further, list_elem_of_here.
    + vm_compute. discriminate.
Defined.

Lemma add_elements_sections_witness :
  example_elements_empty_block.1 = 3
  ∧ section_of example_elements_empty_block.2 0 "FLUID ELEMENTS" = Some (SList []).
Proof.
  destruct (add_elements_sections example_section example_type example_name
              example_cubit example_exo_empty_block 0 example_store
              example_elements_empty_block.1 example_elements_empty_block.2)
    as (prop1 & bs & Hprop1 & Hall & Hn & _ & _ & _ & Hempty).
  - vm_compute. eauto.
  - vm_compute. reflexivity.
  - vm_compute in Hprop1. injection Hprop1 as <-.
    apply Forall2_cons_inv_l in Hall as (b1 & bs1 & Hb1 & Hall & ->).
    apply Forall2_cons_inv_l in Hall as (b2 & bs2 & Hb2 & Hall & ->).
    apply Forall2_nil_inv_l in Hall as ->.
    vm_compute in Hb1. injection Hb1 as <-.
    vm_compute in Hb2. injection Hb2 as <-.
    split; [exact Hn|].
    apply (Hempty {| block_element := ex_fluid; block_dict := [("MAT", VInt 2)];
                     block_section := "FLUID ELEMENTS"; block_rows := [] |}).
    + apply list_elem_of_further, list_elem_of_here.
    + vm_compute. reflexivity.
    + vm_compute. reflexivity.
Defined.

(** ** [formatter], argument by argument *)

Section FormatterFunctions.

Variable get_cubit_string : GeometryType → string.

Lemma formatter_finish_Ok (types : gset GeometryType) items g :
  types = {[g]} → items ≠ [] →
  formatter_finish get_cubit_string types items
  = Ok (command_text get_cubit_string g items).
Proof.
  intros -> Hitems. unfold formatter_finish.
  rewrite size_singleton. simpl.
  rewrite decide_False by (by destruct items).
  by rewrite elements_singleton.
Qed.

Lemma formatter_finish_Ok_inv (types : gset GeometryType) items s :
  formatter_finish get_cubit_string types items = Ok s →
  ∃ g, types = {[g]} ∧ items ≠ [] ∧ s = command_text get_cubit_string g items.
Proof.
  unfold formatter_finish.
  destruct (decide (size types = 0)); [done|].
  destruct (decide (size types ≠ 1)) as [|Hsz]; [done|].
  destruct (decide (length items = 0)) as [|Hlen]; [done|].
  apply dec_stable in Hsz. apply size_1_elem_of in Hsz as [g Hg].
  apply leibniz_equiv in Hg. subst types. rewrite elements_singleton.
  intros [= <-]. exists g. split; [done|]. split; [|done].
  by intros ->.
Qed.

(** The loop over arguments it gets past, up to the first other one. *)
Lemma formatter_loop_prefix self n_args pre rs rest :
  Forall2 (λ a r, resolve a = Some r) pre rs →
  ∀ geometry_type geometry_types item_list,
    ∃ geometry_type',
      formatter_loop get_cubit_string self n_args (pre ++ rest) geometry_type
        geometry_types item_list
      = formatter_loop get_cubit_string self n_args rest geometry_type'
          (geometry_types ∪ resolved_types rs) (item_list ++ resolved_items rs).
Proof.
  induction 1 as [|a r pre rs Ha _ IH]; intros gt types items.
  - exists gt. unfold resolved_items. simpl. rewrite app_nil_r.
    by replace (types ∪ ∅) with types by set_solver.
  - unfold resolved_items in *. simpl. rewrite app_assoc.
    destruct a as [l|g|o|n|]; simpl in Ha; try discriminate.
    + destruct (get_geometry_type g) as [t|]; [|discriminate].
      injection Ha as <-. simpl.
      destruct (IH (Some t) ({[t]} ∪ types)
                  (items ++ (int_plain <$> get_item_ids g t))) as [gt' ->].
      exists gt'. f_equal. set_solver.
    + destruct (get_object_type o) as [|t|]; [| |discriminate].
      * destruct (is_sheet_body o).
        -- destruct (surfaces o) as [|x [|??]]; try discriminate.
           injection Ha as <-. simpl.
           destruct (IH (Some surface) ({[surface]} ∪ types) (items ++ [int_plain x]))
             as [gt' ->].
           exists gt'. f_equal. set_solver.
        -- destruct (volumes o) as [|x [|??]]; try discriminate.
           injection Ha as <-. simpl.
           destruct (IH (Some volume) ({[volume]} ∪ types) (items ++ [int_plain x]))
             as [gt' ->].
           exists gt'. f_equal. set_solver.
      * injection Ha as <-. simpl.
        destruct (IH gt ({[t]} ∪ types) (items ++ [int_plain (object_id o)])) as [gt' ->].
        exists gt'. f_equal. set_solver.
    + injection Ha as <-. simpl.
      destruct (IH gt types (items ++ [n])) as [gt' ->].
      exists gt'. f_equal. set_solver.
Qed.

(** X15 (the command text): when the loop gets past every argument, the
    call returns if and only if the geometry types of the arguments and
    of [geometry_type] are one type and there is an item id; it then
    returns the cubit string of that type followed by the item ids of
    the arguments in the order of the arguments, separated by blanks,
    each as [str] prints it: an integer in decimal, an argument that is
    a truth value as [True] or [False]. *)
Theorem formatter_command_text (args : list argument) rs
    (geometry_type : option GeometryType) :
  Forall2 (λ a r, resolve a = Some r) args rs →
  (∀ g, initial_types geometry_type ∪ resolved_types rs = {[g]} →
        resolved_items rs ≠ [] →
        formatter get_cubit_string args geometry_type
        = Ok (command_text get_cubit_string g (resolved_items rs)))
  ∧ (∀ s, formatter get_cubit_string args geometry_type = Ok s →
          ∃ g, initial_types geometry_type ∪ resolved_types rs = {[g]}
             ∧ resolved_items rs ≠ []
             ∧ s = command_text get_cubit_string g (resolved_items rs)).
Proof.
  intros Hrs. unfold formatter. simpl.
  rewrite (formatter_loop_resolved _ _ _ _ rs Hrs). simpl. split.
  - intros g Hg Hitems. by apply formatter_finish_Ok.
  - intros s Hs. by apply formatter_finish_Ok_inv.
Qed.

Lemma resolve_ints (ns : list py_int) :
  Forall2 (λ a r, resolve a = Some r) (a_int <$> ns)
    ((λ n, (None : option GeometryType, [n])) <$> ns).
Proof. induction ns as [|n ns IH]; simpl; by constructor. Qed.

Lemma resolved_ints (ns : list py_int) :
  resolved_types ((λ n, (None, [n])) <$> ns) = ∅
  ∧ resolved_items ((λ n, (None, [n])) <$> ns) = ns.
Proof.
  split.
  - assert (Hcons : ∀ r rs, resolved_types (r :: rs) = type_set r.1 ∪ resolved_types rs)
      by done.
    induction ns as [|n ns IH]; [done|].
    rewrite fmap_cons, Hcons, IH. simpl. set_solver.
  - assert (Hcons : ∀ r rs, resolved_items (r :: rs) = r.2 ++ resolved_items rs)
      by done.
    induction ns as [|n ns IH]; [done|].
    rewrite fmap_cons, Hcons, IH. done.
Qed.

(** X16 (explicit ids): a call whose arguments are all instances of
    [int] returns only when [geometry_type] is given and there is an
    argument, and then the cubit string of [geometry_type] followed by
    the arguments in their order, each as [str] prints it: an integer in
    decimal, a truth value as [True] or [False]; without
    [geometry_type], or without arguments, it raises [ValueError]. *)
Theorem formatter_explicit_ids (ns : list py_int) (geometry_type : option GeometryType) :
  formatter get_cubit_string (a_int <$> ns) geometry_type
  = match geometry_type, ns with
    | Some g, _ :: _ => Ok (command_text get_cubit_string g ns)
    | _, _ => Raise ValueError
    end.
Proof.
  unfold formatter. simpl.
  rewrite (formatter_loop_resolved _ _ _ _ _ (resolve_ints ns)).
  destruct (resolved_ints ns) as [-> ->]. simpl.
  destruct geometry_type as [g|]; simpl.
  - destruct ns as [|n ns].
    + apply formatter_finish_no_items.
    + apply formatter_finish_Ok; [set_solver | done].
  - unfold formatter_finish. rewrite decide_True; [by destruct ns|].
    replace (∅ ∪ ∅ : gset GeometryType) with (∅ : gset GeometryType) by set_solver.
    apply size_empty.
Qed.

(** X17 (the keyword and the arguments): when [geometry_type] is given,
    an argument of another geometry type makes the call fail, with
    [ValueError] when the loop gets past every argument. *)
Theorem formatter_geometry_type_mismatch (args : list argument) g a g' ia :
  a ∈ args →
  resolve a = Some (Some g', ia) →
  g' ≠ g →
  ¬ succeeds (formatter get_cubit_string args (Some g))
  ∧ (Forall (λ x, is_Some (resolve x)) args →
     formatter get_cubit_string args (Some g) = Raise ValueError).
Proof.
  intros Ha Hra Hne.
  assert (Hmixed : Forall (λ x, is_Some (resolve x)) args →
            formatter get_cubit_string args (Some g) = Raise ValueError).
  { intros Hall. apply Forall_resolve in Hall as [rs Hrs].
    unfold formatter. simpl. rewrite (formatter_loop_resolved _ _ _ _ rs Hrs).
    apply (formatter_finish_mixed _ _ _ g g'); [| |done].
    - set_solver.
    - apply elem_of_union_r.
      by apply (resolved_types_elem get_cubit_string args rs a g' ia). }
  split; [|done]. intros [s Hs].
  destruct (decide (length args = 1)) as [Hlen|Hlen].
  - destruct args as [|x [|y l]]; try discriminate Hlen.
    apply list_elem_of_singleton in Ha as <-.
    rewrite Hmixed in Hs; [done|].
    apply Forall_cons_2; [by rewrite Hra | apply Forall_nil_2].
  - unfold formatter in Hs. simpl in Hs.
    pose proof (formatter_loop_Ok_resolved _ _ _ _ Hlen _ _ _ _ Hs) as Hall.
    apply Hmixed in Hall. unfold formatter in Hall. simpl in Hall. congruence.
Qed.

(** X18 (the first refused argument): the first argument the loop does
    not get past decides the exception, whatever stands behind it and
    whatever the geometry types of the arguments before it: the check
    that all geometry types agree comes after the loop. *)
Theorem formatter_first_refusal (pre post : list argument) a e
    (geometry_type : option GeometryType) :
  Forall (λ x, is_Some (resolve x)) pre →
  refusal (length (pre ++ a :: post)) a = Some e →
  formatter get_cubit_string (pre ++ a :: post) geometry_type = Raise e.
Proof.
  intros Hpre Ha. apply Forall_resolve in Hpre as [rs Hrs].
  unfold formatter. simpl.
  destruct (formatter_loop_prefix (formatter_call get_cubit_string)
              (length (pre ++ a :: post)) pre rs (a :: post) Hrs
              geometry_type (initial_types geometry_type) []) as [gt' ->].
  simpl. destruct a as [l|g|o|n|]; simpl in Ha.
  - destruct (decide (length (pre ++ a_iterable l :: post) ≠ 1)); [|done].
    by injection Ha as <-.
  - destruct (get_geometry_type g); [done|]. by injection Ha as <-.
  - destruct (get_object_type o); [|done|by injection Ha as <-].
    destruct (is_sheet_body o).
    + destruct (surfaces o) as [|x [|??]]; try done; by injection Ha as <-.
    + destruct (volumes o) as [|x [|??]]; try done; by injection Ha as <-.
  - done.
  - by injection Ha as <-.
Qed.

End FormatterFunctions.

Lemma formatter_command_text_witness :
  formatter cubit_string
    [a_int (int_plain 3); a_object (geometry_object curve 4); a_int (int_bool true);
     a_object (geometry_object curve 2)]
    None
  = Ok "curve 3 4 True 2".
Proof.
  refine (proj1 (formatter_command_text cubit_string
            [a_int (int_plain 3); a_object (geometry_object curve 4);
             a_int (int_bool true); a_object (geometry_object curve 2)]
            [(None, [int_plain 3]); (Some curve, [int_plain 4]);
             (None, [int_bool true]); (Some curve, [int_plain 2])]
            None _) curve _ _).
  - repeat constructor.
  - vm_compute. reflexivity.
  - discriminate.
Defined.

Example formatter_explicit_ids_example :
  formatter cubit_string (a_int <$> [int_plain 5; int_plain 2; int_plain 8]) (Some surface)
  = Ok "surface 5 2 8"
  ∧ formatter cubit_string (a_int <$> [int_plain 5; int_plain 2; int_plain 8]) None
    = Raise ValueError
  ∧ formatter cubit_string [a_int (int_bool true)] (Some vertex) = Ok "vertex True"
  ∧ formatter cubit_string [a_int (int_plain (-7)); a_int (int_bool false)] (Some vertex)
    = Ok "vertex -7 False".
Proof. vm_compute. done. Qed.

Lemma formatter_geometry_type_mismatch_witness :
  formatter cubit_string [a_int (int_plain 1); a_object (geometry_object curve 2)]
    (Some vertex)
  = Raise ValueError.
Proof.
  refine (proj2 (formatter_geometry_type_mismatch cubit_string
            [a_int (int_plain 1); a_object (geometry_object curve 2)] vertex
            (a_object (geometry_object curve 2)) curve [int_plain 2] _ _ _) _).
  - apply list_elem_of_further, list_elem_of_here.
  - reflexivity.
  - discriminate.
  - repeat (apply Forall_cons_2; [by eexists|]). apply Forall_nil_2.
Defined.

Lemma formatter_first_refusal_witness :
  formatter cubit_string
    [a_object (geometry_object curve 1); a_object (geometry_object surface 2);
     a_other; a_object two_volume_body] None
  = Raise TypeError
  ∧ formatter cubit_string
      [a_object (geometry_object curve 1); a_object two_volume_body; a_other] None
    = Raise ValueError.
Proof.
  split.
  - refine (formatter_first_refusal cubit_string
              [a_object (geometry_object curve 1); a_object (geometry_object surface 2)]
              [a_object two_volume_body] a_other TypeError None _ _).
    + repeat (apply Forall_cons_2; [by eexists|]). apply Forall_nil_2.
    + reflexivity.
  - refine (formatter_first_refusal cubit_string
              [a_object (geometry_object curve 1)]
              [a_other] (a_object two_volume_body) ValueError None _ _).
    + repeat (apply Forall_cons_2; [by eexists|]). apply Forall_nil_2.
    + reflexivity.
Defined.

(** ** The geometry sections of an external mesh *)

Lemma dict_set_set (k : string) (v1 v2 : value) (dd : pydict) :
  dict_set k v2 (dict_set k v1 dd) = dict_set k v2 dd.
Proof.
  induction dd as [|[k' v'] dd IH]; simpl.
  - by rewrite decide_True.
  - destruct (decide (k' = k)) as [->|Hne]; simpl.
    + by rewrite decide_True.
    + rewrite decide_False by done. by rewrite IH.
Qed.

Lemma grow_geometry_app path (o : option section) (vs1 vs2 : list value) :
  grow_geometry path (grow_geometry path o vs1) vs2 = grow_geometry path o (vs1 ++ vs2).
Proof.
  destruct vs1 as [|v1 vs1]; [done|]. destruct vs2 as [|v2 vs2].
  { by rewrite app_nil_r. }
  destruct o as [[es|dd]|]; [done| |done].
  cbn [grow_geometry app].
  destruct (dict_get "ELEMENT_BLOCKS" dd) as [x|] eqn:Hget.
  - destruct x; try (cbn [grow_geometry]; by rewrite Hget).
    cbn [grow_geometry]. rewrite dict_get_set, dict_set_set.
    by rewrite <-app_assoc.
  - cbn [grow_geometry]. by rewrite Hget.
Qed.

Lemma grow_geometry_ready path (o : option section) (vs : list value) :
  geometry_ready o → geometry_ready (grow_geometry path o vs).
Proof.
  intros Hready. destruct vs as [|v vs]; [done|].
  destruct o as [[es|dd]|]; [done| |].
  - destruct Hready as [old Hold]. simpl. rewrite Hold. simpl.
    eexists. apply dict_get_set.
  - simpl. by eexists.
Qed.

Lemma grow_geometry_blocks path (o : option section) (vs : list value) :
  geometry_ready o →
  element_blocks (grow_geometry path o vs) = element_blocks o ++ vs.
Proof.
  intros Hready. destruct vs as [|v vs]; [by rewrite app_nil_r|].
  destruct o as [[es|dd]|]; [done| |done].
  destruct Hready as [old Hold]. simpl. rewrite Hold. simpl.
  by rewrite dict_get_set.
Qed.

Section GeometryFunctions.

Context {ElementType : Type}.
Variable get_four_c_section : ElementType → result string.
Variable get_four_c_name : ElementType → result string.
Variable get_cubit_names : ElementType → result (string * string).

Local Abbreviation geometry_step' :=
  (geometry_step get_four_c_section get_four_c_name get_cubit_names).
Local Abbreviation add_exodus_geometry_section' :=
  (add_exodus_geometry_section get_four_c_section get_four_c_name get_cubit_names).
Local Abbreviation geometry_block' :=
  (geometry_block get_four_c_section get_four_c_name get_cubit_names).

Lemma blocks_of_cons (key : string) (v : value) bs s :
  blocks_of ((key, v) :: bs) s
  = (if decide (key = s) then [v] else []) ++ blocks_of bs s.
Proof.
  unfold blocks_of. rewrite filter_cons. simpl.
  by destruct (decide (key = s)).
Qed.

(** One block: its dictionary goes to the end of the element blocks of
    its geometry section, which is created when the deck has none. *)
Lemma geometry_step_Ok path d st item st1 :
  geometry_step' path d st item = Ok st1 →
  ∃ key v,
    geometry_block' item = Some (key, v)
    ∧ dicts st1 = dicts st
    ∧ is_Some (decks st1 !! d)
    ∧ (∀ d', d' ≠ d → decks st1 !! d' = decks st !! d')
    ∧ geometry_ready (section_of st d key)
    ∧ section_of st1 d key = grow_geometry path (section_of st d key) [v]
    ∧ (∀ s, s ≠ key → section_of st1 d s = section_of st d s).
Proof.
  destruct item as [cur_block_id [ele data]]. unfold geometry_step. simpl. intros H.
  inv_bind H as four_c_section Hsec.
  inv_bind H as has Hhas.
  inv_bind H as st0 Hst0.
  inv_bind H as name Hname.
  inv_bind H as names Hnames.
  exists (four_c_section +:+ " GEOMETRY"),
    (element_block_dict cur_block_id name names.2 data).
  split. { unfold geometry_block. simpl. by rewrite Hsec, Hname, Hnames. }
  unfold deck_contains in Hhas. inv_bind Hhas as dk Hdk. apply getitem_Ok in Hdk.
  injection Hhas as <-.
  unfold deck_append_element_block in H.
  inv_bind H as dk0 Hdk0. apply getitem_Ok in Hdk0.
  inv_bind H as sec Hsec0. apply getitem_Ok in Hsec0.
  destruct sec as [es|dd]; [discriminate|].
  destruct (dict_get "ELEMENT_BLOCKS" dd) as [x|] eqn:Hget; [|discriminate].
  destruct x as [| | | | |vs|]; try discriminate.
  injection H as <-. simpl.
  destruct (decide (is_Some (dk !! (four_c_section +:+ " GEOMETRY")))) as [Hin|Hin].
  - rewrite bool_decide_eq_true_2 in Hst0 by done. injection Hst0 as <-.
    assert (dk0 = dk) as -> by congruence.
    assert (Hsection : section_of st d (four_c_section +:+ " GEOMETRY")
                       = Some (SDict dd)).
    { unfold section_of. by rewrite Hdk. }
    split; [done|]. split; [rewrite lookup_insert_eq; eauto|].
    split; [intros d' Hne; by rewrite lookup_insert_ne|].
    rewrite Hsection. split; [simpl; eauto|]. split.
    + unfold section_of. simpl. rewrite lookup_insert_eq. simpl.
      rewrite lookup_insert_eq. simpl. by rewrite Hget.
    + intros s Hs. unfold section_of. simpl. rewrite lookup_insert_eq. simpl.
      rewrite lookup_insert_ne by done. by rewrite Hdk.
  - rewrite bool_decide_eq_false_2 in Hst0 by done.
    unfold deck_setitem in Hst0. inv_bind Hst0 as dk' Hdk'. apply getitem_Ok in Hdk'.
    assert (dk' = dk) as -> by congruence.
    injection Hst0 as <-. simpl in *.
    rewrite lookup_insert_eq in Hdk0. injection Hdk0 as <-.
    rewrite lookup_insert_eq in Hsec0. injection Hsec0 as <-.
    vm_compute in Hget. injection Hget as <-.
    assert (Hsection : section_of st d (four_c_section +:+ " GEOMETRY") = None).
    { unfold section_of. rewrite Hdk. simpl.
      destruct (dk !! (four_c_section +:+ " GEOMETRY")) eqn:Hk; [|done].
      destruct Hin. eauto. }
    split; [done|]. split; [rewrite lookup_insert_eq; eauto|].
    split; [intros d' Hne; by rewrite !lookup_insert_ne|].
    rewrite Hsection. split; [done|]. split.
    + unfold section_of. simpl. rewrite lookup_insert_eq. simpl.
      rewrite lookup_insert_eq. reflexivity.
    + intros s Hs. unfold section_of. simpl. rewrite lookup_insert_eq. simpl.
      rewrite !lookup_insert_ne by done. by rewrite Hdk.
Qed.

(** A block whose section is ready for it goes in. *)
Lemma geometry_step_total path d st item key v :
  is_Some (decks st !! d) →
  geometry_block' item = Some (key, v) →
  geometry_ready (section_of st d key) →
  succeeds (geometry_step' path d st item).
Proof.
  intros [dk Hdk] Hblock Hready.
  destruct item as [cur_block_id [ele data]]. unfold geometry_block in Hblock.
  simpl in Hblock.
  destruct (get_four_c_section ele) as [four_c_section|] eqn:Hsec; [|done].
  destruct (get_four_c_name ele) as [name|] eqn:Hname; [|done].
  destruct (get_cubit_names ele) as [names|] eqn:Hnames; [|done].
  injection Hblock as <- <-.
  unfold geometry_step. simpl. rewrite Hsec, bind_Ok_l.
  unfold deck_contains. rewrite (proj2 (getitem_Ok _ _ _) Hdk), !bind_Ok_l.
  unfold section_of in Hready. rewrite Hdk in Hready. simpl in Hready.
  destruct (dk !! (four_c_section +:+ " GEOMETRY")) as [sec|] eqn:Hk.
  - rewrite bool_decide_eq_true_2 by eauto. rewrite bind_Ok_l, Hname, bind_Ok_l.
    rewrite Hnames, bind_Ok_l.
    unfold deck_append_element_block.
    rewrite (proj2 (getitem_Ok _ _ _) Hdk), bind_Ok_l.
    rewrite (proj2 (getitem_Ok _ _ _) Hk), bind_Ok_l.
    destruct sec as [es|dd]; [done|]. destruct Hready as [old ->]. by eexists.
  - rewrite bool_decide_eq_false_2 by (by intros [? ?]).
    unfold deck_setitem. rewrite (proj2 (getitem_Ok _ _ _) Hdk), !bind_Ok_l.
    rewrite Hname, bind_Ok_l, Hnames, bind_Ok_l.
    unfold deck_append_element_block. simpl.
    rewrite (proj2 (getitem_Ok _ _ _) (lookup_insert_eq _ _ _)), bind_Ok_l.
    rewrite (proj2 (getitem_Ok _ _ _) (lookup_insert_eq _ _ _)), bind_Ok_l.
    by eexists.
Qed.

(** The loop over the blocks of the session. *)
Lemma geometry_loop_general path d items st st' :
  is_Some (decks st !! d) →
  for_each (geometry_step' path d) items st = Ok st' →
  ∃ bs,
    Forall2 (λ item b, geometry_block' item = Some b) items bs
    ∧ dicts st' = dicts st
    ∧ is_Some (decks st' !! d)
    ∧ (∀ d', d' ≠ d → decks st' !! d' = decks st !! d')
    ∧ (∀ s, section_of st' d s
            = grow_geometry path (section_of st d s) (blocks_of bs s))
    ∧ (∀ s, blocks_of bs s ≠ [] → geometry_ready (section_of st d s)).
Proof.
  revert st. induction items as [|item items IH]; intros st Hd Hrun.
  - injection Hrun as <-. exists []. split; [constructor|]. by repeat split.
  - rewrite for_each_cons in Hrun. inv_bind Hrun as st1 Hstep.
    destruct (geometry_step_Ok _ _ _ _ _ Hstep)
      as (key & v & Hblock & Hh1 & Hd1 & Hdecks1 & Hready1 & Hkey1 & Hother1).
    destruct (IH st1 Hd1 Hrun) as (bs & Hall & Hh & Hd' & Hdecks & Hgrow & Hready).
    exists ((key, v) :: bs). split; [by constructor|].
    split; [congruence|]. split; [done|].
    split; [intros d' Hne; rewrite Hdecks by done; by apply Hdecks1|].
    split.
    + intros s. rewrite Hgrow, blocks_of_cons.
      destruct (decide (key = s)) as [<-|Hne].
      * by rewrite Hkey1, grow_geometry_app.
      * by rewrite Hother1.
    + intros s. rewrite blocks_of_cons.
      destruct (decide (key = s)) as [<-|Hne]; [done|].
      simpl. intros Hs. rewrite <-Hother1 by done. by apply Hready.
Qed.

Lemma geometry_loop_total path d items bs st :
  is_Some (decks st !! d) →
  Forall2 (λ item b, geometry_block' item = Some b) items bs →
  (∀ s, blocks_of bs s ≠ [] → geometry_ready (section_of st d s)) →
  succeeds (for_each (geometry_step' path d) items st).
Proof.
  intros Hd Hall. revert st Hd.
  induction Hall as [|item [key v] items bs Hblock _ IH]; intros st Hd Hready.
  - by eexists.
  - rewrite for_each_cons.
    assert (Hkey : geometry_ready (section_of st d key)).
    { apply Hready. rewrite blocks_of_cons, decide_True by done. done. }
    destruct (geometry_step_total path d st item key v Hd Hblock Hkey) as [st1 Hstep].
    rewrite Hstep, bind_Ok_l.
    destruct (geometry_step_Ok _ _ _ _ _ Hstep)
      as (key' & v' & Hblock' & _ & Hd1 & _ & _ & Hkey1 & Hother1).
    assert (key' = key ∧ v' = v) as [-> ->] by (split; congruence).
    apply IH; [done|]. intros s Hs.
    destruct (decide (key = s)) as [<-|Hne].
    + rewrite Hkey1. by apply grow_geometry_ready.
    + rewrite Hother1 by done. apply Hready.
      rewrite blocks_of_cons, decide_False by done. done.
Qed.

(** X19 (element blocks of the geometry sections): after the call the
    geometry section of every element type of a block holds under
    [ELEMENT_BLOCKS] what it held before followed by one dictionary for
    each block of that section, in the order of the blocks of the
    session; sections no block goes to, the other decks and all
    dictionaries are what they were. *)
Theorem add_exodus_geometry_section_blocks items d path st st' :
  is_Some (decks st !! d) →
  add_exodus_geometry_section' items d path st = Ok st' →
  ∃ bs,
    Forall2 (λ item b, geometry_block' item = Some b) items bs
    ∧ (∀ s, blocks_of bs s ≠ [] →
            ∃ dd, section_of st' d s = Some (SDict dd)
                ∧ dict_get "ELEMENT_BLOCKS" dd
                  = Some (VList (element_blocks (section_of st d s) ++ blocks_of bs s)))
    ∧ (∀ s, blocks_of bs s = [] → section_of st' d s = section_of st d s)
    ∧ (∀ d', d' ≠ d → decks st' !! d' = decks st !! d')
    ∧ dicts st' = dicts st.
Proof.
  intros Hd Hrun. unfold add_exodus_geometry_section in Hrun.
  destruct (geometry_loop_general _ _ _ _ _ Hd Hrun)
    as (bs & Hall & Hh & _ & Hdecks & Hgrow & Hready).
  exists bs. split; [done|]. split; [|split; [|by split]].
  - intros s Hs. specialize (Hready s Hs). rewrite Hgrow.
    destruct (blocks_of bs s) as [|v vs] eqn:Hvs; [done|].
    destruct (section_of st d s) as [[es|dd]|]; [done| |].
    + destruct Hready as [old Hold]. simpl. rewrite Hold.
      eexists. split; [done|]. apply dict_get_set.
    + simpl. by eexists.
  - intros s Hs. by rewrite Hgrow, Hs.
Qed.

(** X20 (when the call goes through): given the deck, the call returns
    if and only if the three name methods return for the element type
    of every block and every geometry section a block goes to is absent
    or a dictionary whose [ELEMENT_BLOCKS] is a list; a deck that holds
    a list under the name of such a section makes the call fail. *)
Theorem add_exodus_geometry_section_succeeds items d path st :
  is_Some (decks st !! d) →
  (succeeds (add_exodus_geometry_section' items d path st)
   ↔ ∃ bs, Forall2 (λ item b, geometry_block' item = Some b) items bs
         ∧ ∀ s, blocks_of bs s ≠ [] → geometry_ready (section_of st d s))
  ∧ (∀ item key v es,
       item ∈ items → geometry_block' item = Some (key, v) →
       section_of st d key = Some (SList es) →
       ¬ succeeds (add_exodus_geometry_section' items d path st)).
Proof.
  intros Hd.
  assert (Hiff : succeeds (add_exodus_geometry_section' items d path st)
            ↔ ∃ bs, Forall2 (λ item b, geometry_block' item = Some b) items bs
                  ∧ ∀ s, blocks_of bs s ≠ [] → geometry_ready (section_of st d s)).
  { split.
    - intros [st' Hrun]. unfold add_exodus_geometry_section in Hrun.
      destruct (geometry_loop_general _ _ _ _ _ Hd Hrun)
        as (bs & Hall & _ & _ & _ & _ & Hready). eauto.
    - intros (bs & Hall & Hready). by eapply geometry_loop_total. }
  split; [done|].
  intros item key v es Hin Hblock Hsec Hok.
  apply Hiff in Hok as (bs & Hall & Hready).
  assert (Hb : (key, v) ∈ bs).
  { apply list_elem_of_lookup in Hin as [i Hi].
    destruct (Forall2_lookup_l _ _ _ _ _ Hall Hi) as (b & Hb & Hblock').
    rewrite Hblock in Hblock'. injection Hblock' as <-.
    by eapply list_elem_of_lookup_2. }
  assert (Hne : blocks_of bs key ≠ []).
  { intros Hnil.
    assert (Hin' : v ∈ blocks_of bs key).
    { unfold blocks_of. apply list_elem_of_fmap. exists (key, v). split; [done|].
      by apply list_elem_of_filter. }
    rewrite Hnil in Hin'. by apply elem_of_nil in Hin'. }
  specialize (Hready key Hne). by rewrite Hsec in Hready.
Qed.

(** X21 (file of a geometry section): a geometry section the call
    creates names the file [rel_exo_file_path] and asks for the
    detailed summary; a geometry section the deck already has keeps
    every entry other than [ELEMENT_BLOCKS], its [FILE] too, whatever
    [rel_exo_file_path] is. *)
Theorem add_exodus_geometry_section_file items d path st st' item key v :
  is_Some (decks st !! d) →
  add_exodus_geometry_section' items d path st = Ok st' →
  item ∈ items →
  geometry_block' item = Some (key, v) →
  ∃ dd', section_of st' d key = Some (SDict dd')
    ∧ match section_of st d key with
      | None =>
          dict_get "FILE" dd' = Some (VStr path)
          ∧ dict_get "SHOW_INFO" dd' = Some (VStr "detailed_summary")
      | Some (SDict dd) =>
          ∀ k, k ≠ "ELEMENT_BLOCKS" → dict_get k dd' = dict_get k dd
      | Some (SList _) => False
      end.
Proof.
  intros Hd Hrun Hin Hblock. unfold add_exodus_geometry_section in Hrun.
  destruct (geometry_loop_general _ _ _ _ _ Hd Hrun)
    as (bs & Hall & _ & _ & _ & Hgrow & Hready).
  assert (Hne : blocks_of bs key ≠ []).
  { apply list_elem_of_lookup in Hin as [i Hi].
    destruct (Forall2_lookup_l _ _ _ _ _ Hall Hi) as (b & Hb & Hblock').
    rewrite Hblock in Hblock'. injection Hblock' as <-.
    intros Hnil.
    assert (Hin' : v ∈ blocks_of bs key).
    { unfold blocks_of. apply list_elem_of_fmap. exists (key, v). split; [done|].
      apply list_elem_of_filter. split; [done|]. by eapply list_elem_of_lookup_2. }
    rewrite Hnil in Hin'. by apply elem_of_nil in Hin'. }
  specialize (Hready key Hne). rewrite Hgrow.
  destruct (blocks_of bs key) as [|v0 vs] eqn:Hvs; [done|].
  destruct (section_of st d key) as [[es|dd]|]; [done| |].
  - destruct Hready as [old Hold]. simpl. rewrite Hold.
    eexists. split; [done|]. intros k Hk. by apply dict_get_set_ne.
  - simpl. eexists. split; [done|]. by split.
Qed.

(** X22 (calling twice): the call does not look at the element blocks a
    section already holds: a second call on the deck of the first adds
    every block of the session a second time. *)
Theorem add_exodus_geometry_section_twice items d path path' st st1 st2 :
  is_Some (decks st !! d) →
  add_exodus_geometry_section' items d path st = Ok st1 →
  add_exodus_geometry_section' items d path' st1 = Ok st2 →
  ∃ bs,
    Forall2 (λ item b, geometry_block' item = Some b) items bs
    ∧ ∀ s, blocks_of bs s ≠ [] →
           element_blocks (section_of st2 d s)
           = element_blocks (section_of st d s) ++ blocks_of bs s ++ blocks_of bs s.
Proof.
  intros Hd Hrun1 Hrun2. unfold add_exodus_geometry_section in Hrun1, Hrun2.
  destruct (geometry_loop_general _ _ _ _ _ Hd Hrun1)
    as (bs & Hall & _ & Hd1 & _ & Hgrow1 & Hready1).
  destruct (geometry_loop_general _ _ _ _ _ Hd1 Hrun2)
    as (bs' & Hall' & _ & _ & _ & Hgrow2 & Hready2).
  assert (bs' = bs) as ->.
  { clear -Hall Hall'. revert bs' Hall'.
    induction Hall as [|item b items bs Hb _ IH]; intros bs' Hall'.
    - by apply Forall2_nil_inv_l in Hall'.
    - apply Forall2_cons_inv_l in Hall' as (b' & bs'' & Hb' & Hall' & ->).
      f_equal; [congruence | by apply IH]. }
  exists bs. split; [done|]. intros s Hs.
  rewrite Hgrow2, grow_geometry_blocks by (by apply Hready2).
  rewrite Hgrow1, grow_geometry_blocks by (by apply Hready1).
  by rewrite <-app_assoc.
Qed.

End GeometryFunctions.

Lemma add_exodus_geometry_section_blocks_witness :
  ∃ dd, section_of (example_geometry example_store_geometry) 0 "STRUCTURE GEOMETRY"
        = Some (SDict dd)
      ∧ dict_get "ELEMENT_BLOCKS" dd
        = Some (VList [ VInt 0;
                        VDict [("ID", VInt 4);
                               ("SOLID", VDict [("HEX8", VDict [("MAT", VInt 1)])])];
                        VDict [("ID", VInt 1);
                               ("SOLID", VDict [("HEX8", VDict [("MAT", VInt 3)])])] ]).
Proof.
  destruct (add_exodus_geometry_section_blocks
              example_section example_name example_cubit_names
              example_items 0 "mesh.exo" example_store_geometry
              (example_geometry example_store_geometry))
    as (bs & Hall & Hblocks & _).
  - vm_compute. eauto.
  - vm_compute. reflexivity.
  - apply Forall2_cons_inv_l in Hall as (b1 & bs1 & Hb1 & Hall & ->).
    apply Forall2_cons_inv_l in Hall as (b2 & bs2 & Hb2 & Hall & ->).
    apply Forall2_cons_inv_l in Hall as (b3 & bs3 & Hb3 & Hall & ->).
    apply Forall2_nil_inv_l in Hall as ->.
    vm_compute in Hb1. injection Hb1 as <-.
    vm_compute in Hb2. injection Hb2 as <-.
    vm_compute in Hb3. injection Hb3 as <-.
    destruct (Hblocks "STRUCTURE GEOMETRY") as (dd & Hsec & Hget).
    + vm_compute. discriminate.
    + exists dd. split; [exact Hsec|]. rewrite Hget. vm_compute. reflexivity.
Defined.

Lemma add_exodus_geometry_section_succeeds_witness :
  succeeds (add_exodus_geometry_section example_section example_name example_cubit_names
              example_items 0 "mesh.exo" example_store)
  ∧ ¬ succeeds (add_exodus_geometry_section example_section example_name
                  example_cubit_names example_items 0 "mesh.exo"
                  example_store_geometry_list).
Proof.
  split.
  - apply (proj1 (add_exodus_geometry_section_succeeds
                    example_section example_name example_cubit_names
                    example_items 0 "mesh.exo" example_store
                    ltac:(vm_compute; eauto))).
    exists [ ("STRUCTURE GEOMETRY",
              VDict [("ID", VInt 4); ("SOLID", VDict [("HEX8", VDict [("MAT", VInt 1)])])]);
             ("FLUID GEOMETRY",
              VDict [("ID", VInt 2); ("FLUID", VDict [("TETRA4", VDict [("MAT", VInt 2)])])]);
             ("STRUCTURE GEOMETRY",
              VDict [("ID", VInt 1); ("SOLID", VDict [("HEX8", VDict [("MAT", VInt 3)])])]) ].
    split.
    + unfold example_items.
      repeat (apply Forall2_cons_2; [vm_compute; reflexivity|]). apply Forall2_nil_2.
    + intros s. rewrite !blocks_of_cons.
      destruct (decide ("STRUCTURE GEOMETRY" = s)) as [<-|?]; [by vm_compute|].
      destruct (decide ("FLUID GEOMETRY" = s)) as [<-|?]; [by vm_compute|].
      intros Hs. by destruct Hs.
  - apply (proj2 (add_exodus_geometry_section_succeeds
                    example_section example_name example_cubit_names
                    example_items 0 "mesh.exo" example_store_geometry_list
                    ltac:(vm_compute; eauto))
             (2%Z, (ex_fluid, [("MAT", VInt 2)])) "FLUID GEOMETRY"
             (VDict [("ID", VInt 2);
                     ("FLUID", VDict [("TETRA4", VDict [("MAT", VInt 2)])])]) []).
    + apply list_elem_of_further, list_elem_of_here.
    + vm_compute. reflexivity.
    + vm_compute. reflexivity.
Defined.

Lemma add_exodus_geometry_section_file_witness :
  ∃ dd', section_of (example_geometry example_store_geometry) 0 "STRUCTURE GEOMETRY"
         = Some (SDict dd')
       ∧ dict_get "FILE" dd' = Some (VStr "old.exo").
Proof.
  destruct (add_exodus_geometry_section_file
              example_section example_name example_cubit_names
              example_items 0 "mesh.exo" example_store_geometry
              (example_geometry example_store_geometry)
              (4%Z, (ex_solid, [("MAT", VInt 1)])) "STRUCTURE GEOMETRY"
              (VDict [("ID", VInt 4);
                      ("SOLID", VDict [("HEX8", VDict [("MAT", VInt 1)])])]))
    as (dd' & Hsec & Hkeep).
  - vm_compute. eauto.
  - vm_compute. reflexivity.
  - apply list_elem_of_here.
  - vm_compute. reflexivity.
  - exists dd'. split; [exact Hsec|].
    change (section_of example_store_geometry 0 "STRUCTURE GEOMETRY")
      with (Some (SDict [("FILE", VStr "old.exo"); ("ELEMENT_BLOCKS", VList [VInt 0])]))
      in Hkeep.
    rewrite Hkeep by discriminate. reflexivity.
Defined.

Lemma add_exodus_geometry_section_twice_witness :
  element_blocks
    (section_of (example_geometry (example_geometry example_store)) 0 "FLUID GEOMETRY")
  = [ VDict [("ID", VInt 2); ("FLUID", VDict [("TETRA4", VDict [("MAT", VInt 2)])])];
      VDict [("ID", VInt 2); ("FLUID", VDict [("TETRA4", VDict [("MAT", VInt 2)])])] ].
Proof.
  destruct (add_exodus_geometry_section_twice
              example_section example_name example_cubit_names
              example_items 0 "mesh.exo" "mesh.exo" example_store
              (example_geometry example_store)
              (example_geometry (example_geometry example_store)))
    as (bs & Hall & Htwice).
  - vm_compute. eauto.
  - vm_compute. reflexivity.
  - vm_compute. reflexivity.
  - apply Forall2_cons_inv_l in Hall as (b1 & bs1 & Hb1 & Hall & ->).
    apply Forall2_cons_inv_l in Hall as (b2 & bs2 & Hb2 & Hall & ->).
    apply Forall2_cons_inv_l in Hall as (b3 & bs3 & Hb3 & Hall & ->).
    apply Forall2_nil_inv_l in Hall as ->.
    vm_compute in Hb1. injection Hb1 as <-.
    vm_compute in Hb2. injection Hb2 as <-.
    vm_compute in Hb3. injection Hb3 as <-.
    rewrite (Htwice "FLUID GEOMETRY"); [vm_compute; reflexivity|].
    vm_compute. discriminate.
Defined.
